(** * EBU-TT-D subtitle parser: a shallow embedding of [ebuttd/model.py] and
    [ebuttd/parse.py], and the properties of its style cascade, value parsers
    and structural walk.

    Conventions of the embedding.
    - A Python [str] is a [string] whose characters are the code points
      below 256.
    - A Python [float] is a binary64 primitive float; a Python [int] is a [Z].
    - A raised exception is the [Raise] result; the exception classes that the
      program can raise are the constructors of [exn].
    - The builtin [float(str)] is a parameter of the development (class
      [PyFloat]); the builtin [int(str, base)] is written out.
    - The XML tree built by [ET.fromstring] is the input of the walk: an
      [Element] with its tag, its attributes in document order, its text and
      its children. *)

From Stdlib Require Import ZArith String Ascii List Bool Floats Lia.
From stdpp Require Import gmap strings.

Set Warnings "-inexact-float,-register-all,-clear-no-such-hyp".
Local Open Scope string_scope.
Local Open Scope Z_scope.

(** ** Exceptions and results *)

Inductive exn : Type :=
| ParseError (msg : string)
| ValueError (msg : string)
| OverflowError (msg : string)
| IndexError (msg : string)
| ZeroDivisionError (msg : string).

Inductive result (A : Type) : Type :=
| Ok (a : A)
| Raise (e : exn).
Arguments Ok {A} a.
Arguments Raise {A} e.

#[global] Instance result_ret : MRet result := fun A a => Ok a.
#[global] Instance result_bind : MBind result :=
  fun A B f m => match m with Ok a => f a | Raise e => Raise e end.

Definition is_ok {A} (r : result A) : bool :=
  match r with Ok _ => true | Raise _ => false end.

Definition is_parse_error {A} (r : result A) : bool :=
  match r with Raise (ParseError _) => true | _ => false end.

(** [for x in xs: body] over a state [S], stopping at the first exception. *)
Fixpoint for_each {A S : Type} (body : A -> S -> result S) (xs : list A) (s : S)
  : result S :=
  match xs with
  | [] => Ok s
  | x :: xs' => s' ← body x s; for_each body xs' s'
  end.

(** ** Python builtins used by the program *)

(** [float(s)]: [None] stands for the [ValueError] of a malformed literal. *)
Class PyFloat := py_float : string -> option float.

Module Py.

(** [c.isspace()] on the code points below 256. *)
Definition isspace (c : ascii) : bool :=
  let n := N_of_ascii c in
  ((9 <=? n) && (n <=? 13) || (28 <=? n) && (n <=? 32)
   || (n =? 133) || (n =? 160))%N.

Fixpoint lstrip (s : string) : string :=
  match s with
  | EmptyString => EmptyString
  | String c s' => if isspace c then lstrip s' else s
  end.

Fixpoint rstrip (s : string) : string :=
  match s with
  | EmptyString => EmptyString
  | String c s' =>
      match rstrip s' with
      | EmptyString => if isspace c then EmptyString else String c EmptyString
      | r => String c r
      end
  end.

(** [s.strip()] *)
Definition strip (s : string) : string := rstrip (lstrip s).

(** [s.split(sep)] for a one-character separator: the empty pieces stay. *)
Fixpoint split (sep : ascii) (s : string) : list string :=
  match s with
  | EmptyString => [EmptyString]
  | String c s' =>
      if Ascii.eqb c sep then EmptyString :: split sep s'
      else match split sep s' with
           | h :: t => String c h :: t
           | [] => [String c EmptyString]
           end
  end.

(** [s[-1]], when [s] is not empty. *)
Fixpoint last (s : string) : option ascii :=
  match s with
  | EmptyString => None
  | String c EmptyString => Some c
  | String _ s' => last s'
  end.

(** [s[:-1]] *)
Fixpoint drop_last (s : string) : string :=
  match s with
  | EmptyString => EmptyString
  | String _ EmptyString => EmptyString
  | String c s' => String c (drop_last s')
  end.

(** [s[i:j]] for [0 <= i <= j]. *)
Definition slice (i j : nat) (s : string) : string :=
  String.substring i (j - i) s.

(** [s[i:]] *)
Fixpoint drop (i : nat) (s : string) : string :=
  match i, s with
  | O, _ => s
  | S i', String _ s' => drop i' s'
  | S _, EmptyString => EmptyString
  end.

Definition startswith (p s : string) : bool := String.prefix p s.

(** The whitespace that [int(str)] skips at both ends: the ASCII white
    space of C and the Unicode spaces above 127. *)
Definition int_isspace (c : ascii) : bool :=
  let n := N_of_ascii c in
  ((9 <=? n) && (n <=? 13) || (n =? 32) || (n =? 133) || (n =? 160))%N.

Fixpoint int_lstrip (s : string) : string :=
  match s with
  | EmptyString => EmptyString
  | String c s' => if int_isspace c then int_lstrip s' else s
  end.

Fixpoint all_int_space (s : string) : bool :=
  match s with
  | EmptyString => true
  | String c s' => int_isspace c && all_int_space s'
  end.

(** The value of [c] as a digit: 0-9, a-z and A-Z as 10-35. *)
Definition digit_value (c : ascii) : option Z :=
  let n := Z.of_N (N_of_ascii c) in
  if (48 <=? n) && (n <=? 57) then Some (n - 48)
  else if (97 <=? n) && (n <=? 122) then Some (n - 97 + 10)
  else if (65 <=? n) && (n <=? 90) then Some (n - 65 + 10)
  else None.

Definition digit_in (base : Z) (c : ascii) : option Z :=
  match digit_value c with
  | Some d => if d <? base then Some d else None
  | None => None
  end.

(** The digits of an integer literal, single underscores allowed between
    them; [prev_us] tells that the previous character was an underscore,
    [seen] that a digit was read.  What follows the digits must be white
    space to the end. *)
Fixpoint int_digits (base : Z) (s : string) (acc : Z) (seen prev_us : bool)
  : option Z :=
  match s with
  | EmptyString => if seen && negb prev_us then Some acc else None
  | String c s' =>
      if Ascii.eqb c "_" then
        if prev_us then None else int_digits base s' acc seen true
      else
        match digit_in base c with
        | Some d => int_digits base s' (acc * base + d) true false
        | None =>
            if seen && negb prev_us && all_int_space s then Some acc else None
        end
  end.

Definition int_prefix (base : Z) (s : string) : string :=
  match s with
  | String "0" (String x s') =>
      if (base =? 16) && (Ascii.eqb x "x" || Ascii.eqb x "X") then
        match s' with
        | String "_" s'' => s''
        | _ => s'
        end
      else s
  | _ => s
  end.

Definition int_unsigned (base : Z) (s : string) : option Z :=
  let s := int_prefix base s in
  match s with
  | String "_" _ => None
  | _ => int_digits base s 0 false false
  end.

Definition int_opt (base : Z) (s : string) : option Z :=
  match int_lstrip s with
  | String "+" s' => int_unsigned base s'
  | String "-" s' => Z.opp <$> int_unsigned base s'
  | s' => int_unsigned base s'
  end.

(** [int(s, base)] for base 10 and base 16. *)
Definition int (base : Z) (s : string) : result Z :=
  match int_opt base s with
  | Some n => Ok n
  | None => Raise (ValueError ("invalid literal for int(): " ++ s))
  end.

(** [float(s)] *)
Definition float `{!PyFloat} (s : string) : result float :=
  match py_float s with
  | Some f => Ok f
  | None => Raise (ValueError ("could not convert string to float: " ++ s))
  end.

(** The conversion of an [int] operand of a float operation: the nearest
    binary64 value, ties to even, and [OverflowError] beyond the range. *)
Definition float_of_int (n : Z) : result PrimFloat.float :=
  let f := SF2Prim (binary_normalize prec emax n 0 false) in
  if PrimFloat.is_infinity f
  then Raise (OverflowError "int too large to convert to float")
  else Ok f.

(** [x / n] for a float [x] and an [int] [n]: the operand is converted
    first, and a zero divisor raises. *)
Definition float_div_int (x : PrimFloat.float) (n : Z) : result PrimFloat.float :=
  f ← float_of_int n;
  if n =? 0 then Raise (ZeroDivisionError "float division by zero")
  else Ok (x / f)%float.

(** [bool(x)] for a float: every value but the two zeros is true. *)
Definition float_truthy (x : PrimFloat.float) : bool :=
  negb (PrimFloat.eqb x 0%float).

(** [bool(s)] for a string. *)
Definition str_truthy (s : string) : bool :=
  match s with EmptyString => false | _ => true end.

(** [c.isascii() and c.isdecimal()] *)
Definition is_ascii_decimal (c : ascii) : bool :=
  let n := N_of_ascii c in ((48 <=? n) && (n <=? 57))%N.

End Py.

(** ** model.py *)

(** [split_value]: the pieces between single spaces of the stripped value
    that are not empty. *)
Definition split_value (value : string) : list string :=
  List.filter Py.str_truthy (Py.split " " (Py.strip value)).

Module Unit.
Inductive t : Type := CELL | PERCENT.

Definition parse `{!PyFloat} (self : t) (value : string)
    (max_value : option float) : result float :=
  let v := Py.strip value in
  let suffix := match self with CELL => "c"%char | PERCENT => "%"%char end in
  match Py.last v with
  | None => Raise (ValueError value)
  | Some c =>
      if negb (Ascii.eqb c suffix) then Raise (ValueError value)
      else
        n ← Py.float (Py.drop_last v);
        if negb (PrimFloat.is_finite n) || PrimFloat.ltb n 0%float
        then Raise (ValueError value)
        else if match max_value with
                | Some m => PrimFloat.ltb m n
                | None => false
                end
        then Raise (ValueError value)
        else match self with
             | CELL => Ok n
             | PERCENT => Ok (n / 100)%float
             end
  end.
End Unit.

Module ActiveArea.
Record t : Type := mk { left : float; top : float; width : float; height : float }.

Definition default : t := mk 0%float 0%float 1%float 1%float.

Definition parse `{!PyFloat} (value : string) : result t :=
  match split_value value with
  | [v0; v1; v2; v3] =>
      l ← Unit.parse Unit.PERCENT v0 (Some 100%float);
      t ← Unit.parse Unit.PERCENT v1 (Some 100%float);
      w ← Unit.parse Unit.PERCENT v2 (Some 100%float);
      h ← Unit.parse Unit.PERCENT v3 (Some 100%float);
      Ok (mk l t w h)
  | _ => Raise (ValueError value)
  end.
End ActiveArea.

Module CellResolution.
Record t : Type := mk { columns : Z; rows : Z }.

Definition default : t := mk 32 15.

Definition is_valid (self : t) : bool := (0 <? columns self) && (0 <? rows self).

Definition parse (value : string) : result t :=
  match split_value value with
  | [v0; v1] =>
      c ← Py.int 10 v0;
      r ← Py.int 10 v1;
      let cell_resolution := mk c r in
      if is_valid cell_resolution then Ok cell_resolution
      else Raise (ValueError value)
  | _ => Raise (ValueError value)
  end.
End CellResolution.

Module Color.
Record t : Type := mk { red : Z; green : Z; blue : Z; alpha : Z }.

Definition is_valid (self : t) : bool :=
  (0 <=? red self) && (red self <=? 255)
  && (0 <=? green self) && (green self <=? 255)
  && (0 <=? blue self) && (blue self <=? 255)
  && (0 <=? alpha self) && (alpha self <=? 255).

Definition black : t := mk 0 0 0 255.
Definition white : t := mk 255 255 255 255.
Definition transparent : t := mk 0 0 0 0.

Definition parse (value : string) : result t :=
  let v := Py.strip value in
  match v with
  | String "#" v =>
      if negb (Nat.eqb (String.length v) 6) && negb (Nat.eqb (String.length v) 8)
      then Raise (ValueError value)
      else
        r ← Py.int 16 (Py.slice 0 2 v);
        g ← Py.int 16 (Py.slice 2 4 v);
        b ← Py.int 16 (Py.slice 4 6 v);
        a ← (if Nat.eqb (String.length v) 8
             then Py.int 16 (Py.slice 6 8 v) else Ok 0);
        let color := mk r g b a in
        if is_valid color then Ok color else Raise (ValueError value)
  | _ => Raise (ValueError value)
  end.
End Color.

(** An enumeration parsed by exact match of the stripped value. *)
Fixpoint parse_enum {A : Type} (table : list (string * A)) (value stripped : string)
  : result A :=
  match table with
  | [] => Raise (ValueError value)
  | (k, a) :: table' =>
      if String.eqb stripped k then Ok a else parse_enum table' value stripped
  end.

Module Direction.
Inductive t : Type := LTR | RTL.
Definition parse (value : string) : result t :=
  parse_enum [("ltr", LTR); ("rtl", RTL)] value (Py.strip value).
End Direction.

Module DisplayAlign.
Inductive t : Type := BEFORE | CENTER | AFTER.
Definition parse (value : string) : result t :=
  parse_enum [("before", BEFORE); ("center", CENTER); ("after", AFTER)]
    value (Py.strip value).
End DisplayAlign.

Module Extent.
Record t : Type := mk { width : float; height : float }.
Definition default : t := mk 0%float 0%float.

Definition parse `{!PyFloat} (value : string) : result t :=
  match split_value value with
  | [v0; v1] =>
      w ← Unit.parse Unit.PERCENT v0 (Some 100%float);
      h ← Unit.parse Unit.PERCENT v1 (Some 100%float);
      Ok (mk w h)
  | _ => Raise (ValueError value)
  end.
End Extent.

Module FontSize.
Definition parse `{!PyFloat} (value : string) : result float :=
  Unit.parse Unit.PERCENT value None.
End FontSize.

Module FontStyle.
Inductive t : Type := NORMAL | ITALIC.
Definition parse (value : string) : result t :=
  parse_enum [("normal", NORMAL); ("italic", ITALIC)] value (Py.strip value).
End FontStyle.

Module FontWeight.
Inductive t : Type := NORMAL | BOLD.
Definition parse (value : string) : result t :=
  parse_enum [("normal", NORMAL); ("bold", BOLD)] value (Py.strip value).
End FontWeight.

Module LineHeight.
(** [None] is the value [normal]. *)
Definition parse `{!PyFloat} (value : string) : result (option float) :=
  let value := Py.strip value in
  if String.eqb value "normal" then Ok None
  else n ← Unit.parse Unit.PERCENT value None; Ok (Some n).
End LineHeight.

Module LinePadding.
Definition parse `{!PyFloat} (value : string) : result float :=
  Unit.parse Unit.CELL value None.
End LinePadding.

Module MultiRowAlign.
Inductive t : Type := AUTO | START | CENTER | END.
Definition parse (value : string) : result t :=
  parse_enum [("auto", AUTO); ("start", START); ("center", CENTER); ("end", END)]
    value (Py.strip value).
End MultiRowAlign.

Module Origin.
Record t : Type := mk { x : float; y : float }.
Definition default : t := mk 0%float 0%float.

Definition parse `{!PyFloat} (value : string) : result t :=
  match split_value value with
  | [v0; v1] =>
      x ← Unit.parse Unit.PERCENT v0 (Some 100%float);
      y ← Unit.parse Unit.PERCENT v1 (Some 100%float);
      Ok (mk x y)
  | _ => Raise (ValueError value)
  end.
End Origin.

Module Overflow.
Inductive t : Type := HIDDEN | VISIBLE.
Definition parse (value : string) : result t :=
  parse_enum [("hidden", HIDDEN); ("visible", VISIBLE)] value (Py.strip value).
End Overflow.

(** [enumerate(xs)] *)
Fixpoint enumerate_from {A : Type} (i : Z) (xs : list A) : list (Z * A) :=
  match xs with
  | [] => []
  | x :: xs' => (i, x) :: enumerate_from (i + 1) xs'
  end.

Definition enumerate {A : Type} (xs : list A) : list (Z * A) := enumerate_from 0 xs.

Module Padding.
Record t : Type := mk { before : float; end_ : float; after : float; start : float }.
Definition default : t := mk 0%float 0%float 0%float 0%float.

(** The body of the loop over [enumerate(values)]. *)
Definition parse_step `{!PyFloat} (iv : Z * string) (p : t) : result t :=
  let '(i, v) := iv in
  length ← Unit.parse Unit.PERCENT v None;
  Ok (if i =? 0 then mk length length length length
      else if i =? 1 then mk (before p) length (after p) length
      else if i =? 2 then mk (before p) (end_ p) length (start p)
      else mk (before p) (end_ p) (after p) length).

Definition parse `{!PyFloat} (value : string) : result t :=
  let values := split_value value in
  if Nat.eqb (List.length values) 0 || Nat.ltb 3 (List.length values)
  then Raise (ValueError value)
  else for_each parse_step (enumerate values) default.
End Padding.

Module ShowBackground.
Inductive t : Type := ALWAYS | WHEN_ACTIVE.
Definition parse (value : string) : result t :=
  parse_enum [("always", ALWAYS); ("whenActive", WHEN_ACTIVE)]
    value (Py.strip value).
End ShowBackground.

Module TextAlign.
Inductive t : Type := LEFT | CENTER | RIGHT | START | END.
Definition parse (value : string) : result t :=
  parse_enum [("left", LEFT); ("center", CENTER); ("right", RIGHT);
              ("start", START); ("end", END)] value (Py.strip value).
End TextAlign.

Module TextDecoration.
Inductive t : Type := NONE | UNDERLINE.
Definition parse (value : string) : result t :=
  parse_enum [("none", NONE); ("underline", UNDERLINE)] value (Py.strip value).
End TextDecoration.

Module TextOutline.
Record t : Type :=
  mk { color : option Color.t; thickness : float; blur_radius : option float }.

(** [None] is the value [none]. *)
Definition parse `{!PyFloat} (value : string) : result (option t) :=
  let values := split_value value in
  match values with
  | [] => Raise (ValueError value)
  | v0 :: rest =>
      if Nat.eqb (List.length values) 1 && String.eqb v0 "none" then Ok None
      else if Nat.ltb 3 (List.length values) then Raise (ValueError value)
      else
        '(color, values) ←
          (if Py.startswith "#" v0 then
             if Nat.eqb (List.length values) 1 then Raise (ValueError value)
             else c ← Color.parse v0; Ok (Some c, rest)
           else Ok (None, values));
        match values with
        | [] => Raise (IndexError "list index out of range")
        | t0 :: values' =>
            thickness ← Unit.parse Unit.PERCENT t0 None;
            blur_radius ←
              match values' with
              | [] => Ok None
              | b :: _ => b ← Unit.parse Unit.PERCENT b None; Ok (Some b)
              end;
            Ok (Some (mk color thickness blur_radius))
        end
  end.
End TextOutline.

Module Space.
Inductive t : Type := DEFAULT | PRESERVE.
Definition parse (value : string) : result t :=
  parse_enum [("default", DEFAULT); ("preserve", PRESERVE)] value (Py.strip value).
End Space.

Module UnicodeBidi.
Inductive t : Type := NORMAL | EMBED | BIDI_OVERRIDE.
Definition parse (value : string) : result t :=
  parse_enum [("normal", NORMAL); ("embed", EMBED); ("bidiOverride", BIDI_OVERRIDE)]
    value (Py.strip value).
End UnicodeBidi.

Module WrapOption.
Inductive t : Type := WRAP | NO_WRAP.
Definition parse (value : string) : result t :=
  parse_enum [("wrap", WRAP); ("noWrap", NO_WRAP)] value (Py.strip value).
End WrapOption.

Module WritingMode.
Inductive t : Type := LRTB | RLTB | TBRL | TBLR.
Definition parse (value : string) : result t :=
  parse_enum [("lrtb", LRTB); ("lr", LRTB); ("rltb", RLTB); ("rl", RLTB);
              ("tbrl", TBRL); ("tb", TBRL); ("tblr", TBLR)]
    value (Py.strip value).
End WritingMode.

Definition default_font_family : list string := ["default"].

Module Span.
Record t : Type := mk {
  id : string;
  language : string;
  space : Space.t;
  background_color : Color.t;
  color : Color.t;
  direction : Direction.t;
  font_family : list string;
  font_size : float;
  font_style : FontStyle.t;
  font_weight : FontWeight.t;
  text_decoration : TextDecoration.t;
  text_outline : option TextOutline.t;
  unicode_bidi : UnicodeBidi.t;
  wrap_option : WrapOption.t;
  text : string }.
End Span.

(** An inline content of a paragraph: [Br | Span]. *)
Inductive content : Type :=
| Br
| ASpan (s : Span.t).

Module Paragraph.
Record t : Type := mk {
  id : string;
  begin_secs : float;
  end_secs : float;
  region_index : Z;
  language : string;
  space : Space.t;
  background_color : Color.t;
  direction : Direction.t;
  fill_line_gap : bool;
  line_height : option float;
  line_padding : float;
  multi_row_align : MultiRowAlign.t;
  text_align : TextAlign.t;
  unicode_bidi : UnicodeBidi.t;
  contents : list content }.

Definition set_contents (v : list content) (p : t) : t :=
  mk (id p) (begin_secs p) (end_secs p) (region_index p) (language p) (space p)
    (background_color p) (direction p) (fill_line_gap p) (line_height p)
    (line_padding p) (multi_row_align p) (text_align p) (unicode_bidi p) v.
End Paragraph.

Module Div.
Record t : Type := mk {
  id : string;
  language : string;
  background_color : Color.t;
  paragraphs : list Paragraph.t }.

Definition set_paragraphs (v : list Paragraph.t) (d : t) : t :=
  mk (id d) (language d) (background_color d) v.
End Div.

Module Body.
Record t : Type := mk { background_color : Color.t; divs : list Div.t }.
Definition default : t := mk Color.transparent [].
End Body.

Module Region.
Record t : Type := mk {
  origin : Origin.t;
  extent : Extent.t;
  display_align : DisplayAlign.t;
  overflow : Overflow.t;
  padding : Padding.t;
  show_background : ShowBackground.t;
  writing_mode : WritingMode.t }.

Definition default : t :=
  mk Origin.default Extent.default DisplayAlign.BEFORE Overflow.HIDDEN
    Padding.default ShowBackground.ALWAYS WritingMode.LRTB.
End Region.

Module Document.
Record t : Type := mk {
  active_area : ActiveArea.t;
  cell_resolution : CellResolution.t;
  language : string;
  space : Space.t;
  regions : list Region.t;
  body : Body.t }.

Definition default : t :=
  mk ActiveArea.default CellResolution.default "" Space.DEFAULT [] Body.default.
End Document.

(** [StyleProperties]: a dictionary in which every key may be absent.  The
    values of [line_height] and [text_outline] may be [None] themselves. *)
Module StyleProperties.
Record t : Type := mk {
  background_color : option Color.t;
  color : option Color.t;
  direction : option Direction.t;
  fill_line_gap : option bool;
  font_family : option (list string);
  font_size : option float;
  font_style : option FontStyle.t;
  font_weight : option FontWeight.t;
  line_height : option (option float);
  line_padding : option float;
  multi_row_align : option MultiRowAlign.t;
  text_align : option TextAlign.t;
  text_decoration : option TextDecoration.t;
  text_outline : option (option TextOutline.t);
  unicode_bidi : option UnicodeBidi.t;
  wrap_option : option WrapOption.t }.

(** [StyleProperties()]: the empty dictionary. *)
Definition empty : t :=
  mk None None None None None None None None None None None None None None None None.

(** [properties[key] = v] is [put_key (Some v)]. *)
Definition put_background_color (v : option Color.t) (self : t) : t :=
  mk v (color self) (direction self) (fill_line_gap self) (font_family self)
    (font_size self) (font_style self) (font_weight self) (line_height self)
    (line_padding self) (multi_row_align self) (text_align self)
    (text_decoration self) (text_outline self) (unicode_bidi self)
    (wrap_option self).
Definition put_color (v : option Color.t) (self : t) : t :=
  mk (background_color self) v (direction self) (fill_line_gap self)
    (font_family self) (font_size self) (font_style self) (font_weight self)
    (line_height self) (line_padding self) (multi_row_align self)
    (text_align self) (text_decoration self) (text_outline self)
    (unicode_bidi self) (wrap_option self).
Definition put_direction (v : option Direction.t) (self : t) : t :=
  mk (background_color self) (color self) v (fill_line_gap self)
    (font_family self) (font_size self) (font_style self) (font_weight self)
    (line_height self) (line_padding self) (multi_row_align self)
    (text_align self) (text_decoration self) (text_outline self)
    (unicode_bidi self) (wrap_option self).
Definition put_fill_line_gap (v : option bool) (self : t) : t :=
  mk (background_color self) (color self) (direction self) v (font_family self)
    (font_size self) (font_style self) (font_weight self) (line_height self)
    (line_padding self) (multi_row_align self) (text_align self)
    (text_decoration self) (text_outline self) (unicode_bidi self)
    (wrap_option self).
Definition put_font_family (v : option (list string)) (self : t) : t :=
  mk (background_color self) (color self) (direction self) (fill_line_gap self) v
    (font_size self) (font_style self) (font_weight self) (line_height self)
    (line_padding self) (multi_row_align self) (text_align self)
    (text_decoration self) (text_outline self) (unicode_bidi self)
    (wrap_option self).
Definition put_font_size (v : option float) (self : t) : t :=
  mk (background_color self) (color self) (direction self) (fill_line_gap self)
    (font_family self) v (font_style self) (font_weight self) (line_height self)
    (line_padding self) (multi_row_align self) (text_align self)
    (text_decoration self) (text_outline self) (unicode_bidi self)
    (wrap_option self).
Definition put_font_style (v : option FontStyle.t) (self : t) : t :=
  mk (background_color self) (color self) (direction self) (fill_line_gap self)
    (font_family self) (font_size self) v (font_weight self) (line_height self)
    (line_padding self) (multi_row_align self) (text_align self)
    (text_decoration self) (text_outline self) (unicode_bidi self)
    (wrap_option self).
Definition put_font_weight (v : option FontWeight.t) (self : t) : t :=
  mk (background_color self) (color self) (direction self) (fill_line_gap self)
    (font_family self) (font_size self) (font_style self) v (line_height self)
    (line_padding self) (multi_row_align self) (text_align self)
    (text_decoration self) (text_outline self) (unicode_bidi self)
    (wrap_option self).
Definition put_line_height (v : option (option float)) (self : t) : t :=
  mk (background_color self) (color self) (direction self) (fill_line_gap self)
    (font_family self) (font_size self) (font_style self) (font_weight self) v
    (line_padding self) (multi_row_align self) (text_align self)
    (text_decoration self) (text_outline self) (unicode_bidi self)
    (wrap_option self).
Definition put_line_padding (v : option float) (self : t) : t :=
  mk (background_color self) (color self) (direction self) (fill_line_gap self)
    (font_family self) (font_size self) (font_style self) (font_weight self)
    (line_height self) v (multi_row_align self) (text_align self)
    (text_decoration self) (text_outline self) (unicode_bidi self)
    (wrap_option self).
Definition put_multi_row_align (v : option MultiRowAlign.t) (self : t) : t :=
  mk (background_color self) (color self) (direction self) (fill_line_gap self)
    (font_family self) (font_size self) (font_style self) (font_weight self)
    (line_height self) (line_padding self) v (text_align self)
    (text_decoration self) (text_outline self) (unicode_bidi self)
    (wrap_option self).
Definition put_text_align (v : option TextAlign.t) (self : t) : t :=
  mk (background_color self) (color self) (direction self) (fill_line_gap self)
    (font_family self) (font_size self) (font_style self) (font_weight self)
    (line_height self) (line_padding self) (multi_row_align self) v
    (text_decoration self) (text_outline self) (unicode_bidi self)
    (wrap_option self).
Definition put_text_decoration (v : option TextDecoration.t) (self : t) : t :=
  mk (background_color self) (color self) (direction self) (fill_line_gap self)
    (font_family self) (font_size self) (font_style self) (font_weight self)
    (line_height self) (line_padding self) (multi_row_align self)
    (text_align self) v (text_outline self) (unicode_bidi self) (wrap_option self).
Definition put_text_outline (v : option (option TextOutline.t)) (self : t) : t :=
  mk (background_color self) (color self) (direction self) (fill_line_gap self)
    (font_family self) (font_size self) (font_style self) (font_weight self)
    (line_height self) (line_padding self) (multi_row_align self)
    (text_align self) (text_decoration self) v (unicode_bidi self)
    (wrap_option self).
Definition put_unicode_bidi (v : option UnicodeBidi.t) (self : t) : t :=
  mk (background_color self) (color self) (direction self) (fill_line_gap self)
    (font_family self) (font_size self) (font_style self) (font_weight self)
    (line_height self) (line_padding self) (multi_row_align self)
    (text_align self) (text_decoration self) (text_outline self) v
    (wrap_option self).
Definition put_wrap_option (v : option WrapOption.t) (self : t) : t :=
  mk (background_color self) (color self) (direction self) (fill_line_gap self)
    (font_family self) (font_size self) (font_style self) (font_weight self)
    (line_height self) (line_padding self) (multi_row_align self)
    (text_align self) (text_decoration self) (text_outline self)
    (unicode_bidi self) v.
End StyleProperties.

Definition COMPUTE_FONT_SIZE_BIT : Z := 1.
Definition COMPUTE_LINE_HEIGHT_BIT : Z := 2.
Definition COMPUTE_LINE_PADDING_BIT : Z := 4.
Definition COMPUTE_TEXT_OUTLINE_BIT : Z := 8.

Definition COMPUTE_ALL_MASK : Z :=
  Z.lor (Z.lor (Z.lor COMPUTE_FONT_SIZE_BIT COMPUTE_LINE_HEIGHT_BIT)
           COMPUTE_LINE_PADDING_BIT) COMPUTE_TEXT_OUTLINE_BIT.

(** [if v := properties.get(key)]: the value when the key is present and its
    value is true as a condition. *)
Definition get_truthy {A : Type} (truthy : A -> bool) (o : option A) : option A :=
  match o with
  | Some v => if truthy v then Some v else None
  | None => None
  end.

(** A named tuple with fields and a member of a plain [Enum] are always true
    as conditions. *)
Definition always_truthy {A : Type} (_ : A) : bool := true.

(** [bool(xs)] for a list. *)
Definition list_truthy {A : Type} (xs : list A) : bool :=
  match xs with [] => false | _ => true end.

Module ResolvedStyle.
Record t : Type := mk {
  background_color : Color.t;
  color : Color.t;
  direction : Direction.t;
  fill_line_gap : bool;
  font_family : list string;
  font_size : float;
  font_style : FontStyle.t;
  font_weight : FontWeight.t;
  line_height : option float;
  line_padding : float;
  multi_row_align : MultiRowAlign.t;
  text_align : TextAlign.t;
  text_decoration : TextDecoration.t;
  text_outline : option TextOutline.t;
  unicode_bidi : UnicodeBidi.t;
  wrap_option : WrapOption.t }.

(** [ResolvedStyle()] *)
Definition default : t :=
  mk Color.transparent Color.white Direction.LTR false default_font_family
    1%float FontStyle.NORMAL FontWeight.NORMAL None 0%float MultiRowAlign.AUTO
    TextAlign.START TextDecoration.NONE None UnicodeBidi.NORMAL WrapOption.WRAP.

(** [self.field = v] *)
Definition set_background_color (v : Color.t) (self : t) : t :=
  mk v (color self) (direction self) (fill_line_gap self) (font_family self)
    (font_size self) (font_style self) (font_weight self) (line_height self)
    (line_padding self) (multi_row_align self) (text_align self)
    (text_decoration self) (text_outline self) (unicode_bidi self)
    (wrap_option self).
Definition set_color (v : Color.t) (self : t) : t :=
  mk (background_color self) v (direction self) (fill_line_gap self)
    (font_family self) (font_size self) (font_style self) (font_weight self)
    (line_height self) (line_padding self) (multi_row_align self)
    (text_align self) (text_decoration self) (text_outline self)
    (unicode_bidi self) (wrap_option self).
Definition set_direction (v : Direction.t) (self : t) : t :=
  mk (background_color self) (color self) v (fill_line_gap self)
    (font_family self) (font_size self) (font_style self) (font_weight self)
    (line_height self) (line_padding self) (multi_row_align self)
    (text_align self) (text_decoration self) (text_outline self)
    (unicode_bidi self) (wrap_option self).
Definition set_fill_line_gap (v : bool) (self : t) : t :=
  mk (background_color self) (color self) (direction self) v (font_family self)
    (font_size self) (font_style self) (font_weight self) (line_height self)
    (line_padding self) (multi_row_align self) (text_align self)
    (text_decoration self) (text_outline self) (unicode_bidi self)
    (wrap_option self).
Definition set_font_family (v : list string) (self : t) : t :=
  mk (background_color self) (color self) (direction self) (fill_line_gap self) v
    (font_size self) (font_style self) (font_weight self) (line_height self)
    (line_padding self) (multi_row_align self) (text_align self)
    (text_decoration self) (text_outline self) (unicode_bidi self)
    (wrap_option self).
Definition set_font_size (v : float) (self : t) : t :=
  mk (background_color self) (color self) (direction self) (fill_line_gap self)
    (font_family self) v (font_style self) (font_weight self) (line_height self)
    (line_padding self) (multi_row_align self) (text_align self)
    (text_decoration self) (text_outline self) (unicode_bidi self)
    (wrap_option self).
Definition set_font_style (v : FontStyle.t) (self : t) : t :=
  mk (background_color self) (color self) (direction self) (fill_line_gap self)
    (font_family self) (font_size self) v (font_weight self) (line_height self)
    (line_padding self) (multi_row_align self) (text_align self)
    (text_decoration self) (text_outline self) (unicode_bidi self)
    (wrap_option self).
Definition set_font_weight (v : FontWeight.t) (self : t) : t :=
  mk (background_color self) (color self) (direction self) (fill_line_gap self)
    (font_family self) (font_size self) (font_style self) v (line_height self)
    (line_padding self) (multi_row_align self) (text_align self)
    (text_decoration self) (text_outline self) (unicode_bidi self)
    (wrap_option self).
Definition set_line_height (v : option float) (self : t) : t :=
  mk (background_color self) (color self) (direction self) (fill_line_gap self)
    (font_family self) (font_size self) (font_style self) (font_weight self) v
    (line_padding self) (multi_row_align self) (text_align self)
    (text_decoration self) (text_outline self) (unicode_bidi self)
    (wrap_option self).
Definition set_line_padding (v : float) (self : t) : t :=
  mk (background_color self) (color self) (direction self) (fill_line_gap self)
    (font_family self) (font_size self) (font_style self) (font_weight self)
    (line_height self) v (multi_row_align self) (text_align self)
    (text_decoration self) (text_outline self) (unicode_bidi self)
    (wrap_option self).
Definition set_multi_row_align (v : MultiRowAlign.t) (self : t) : t :=
  mk (background_color self) (color self) (direction self) (fill_line_gap self)
    (font_family self) (font_size self) (font_style self) (font_weight self)
    (line_height self) (line_padding self) v (text_align self)
    (text_decoration self) (text_outline self) (unicode_bidi self)
    (wrap_option self).
Definition set_text_align (v : TextAlign.t) (self : t) : t :=
  mk (background_color self) (color self) (direction self) (fill_line_gap self)
    (font_family self) (font_size self) (font_style self) (font_weight self)
    (line_height self) (line_padding self) (multi_row_align self) v
    (text_decoration self) (text_outline self) (unicode_bidi self)
    (wrap_option self).
Definition set_text_decoration (v : TextDecoration.t) (self : t) : t :=
  mk (background_color self) (color self) (direction self) (fill_line_gap self)
    (font_family self) (font_size self) (font_style self) (font_weight self)
    (line_height self) (line_padding self) (multi_row_align self)
    (text_align self) v (text_outline self) (unicode_bidi self) (wrap_option self).
Definition set_text_outline (v : option TextOutline.t) (self : t) : t :=
  mk (background_color self) (color self) (direction self) (fill_line_gap self)
    (font_family self) (font_size self) (font_style self) (font_weight self)
    (line_height self) (line_padding self) (multi_row_align self)
    (text_align self) (text_decoration self) v (unicode_bidi self)
    (wrap_option self).
Definition set_unicode_bidi (v : UnicodeBidi.t) (self : t) : t :=
  mk (background_color self) (color self) (direction self) (fill_line_gap self)
    (font_family self) (font_size self) (font_style self) (font_weight self)
    (line_height self) (line_padding self) (multi_row_align self)
    (text_align self) (text_decoration self) (text_outline self) v
    (wrap_option self).
Definition set_wrap_option (v : WrapOption.t) (self : t) : t :=
  mk (background_color self) (color self) (direction self) (fill_line_gap self)
    (font_family self) (font_size self) (font_style self) (font_weight self)
    (line_height self) (line_padding self) (multi_row_align self)
    (text_align self) (text_decoration self) (text_outline self)
    (unicode_bidi self) v.

Definition bit_set (mask bit : Z) : bool := negb (Z.land mask bit =? 0).

Definition compute (self : t) (mask : Z) (parent_font_size : option float)
    (cell_resolution : CellResolution.t) : result t :=
  let compute_font_size := bit_set mask COMPUTE_FONT_SIZE_BIT in
  self ←
    (if compute_font_size then
       match parent_font_size with
       | None =>
           size ← Py.float_div_int (font_size self * 1)%float
                    (CellResolution.rows cell_resolution);
           Ok (set_font_size size self)
       | Some parent =>
           Ok (set_font_size (font_size self * parent)%float self)
       end
     else Ok self);
  let self :=
    if compute_font_size || bit_set mask COMPUTE_LINE_HEIGHT_BIT then
      match line_height self with
      | Some lh => set_line_height (Some (lh * font_size self)%float) self
      | None => self
      end
    else self in
  self ←
    (if bit_set mask COMPUTE_LINE_PADDING_BIT then
       padding ← Py.float_div_int (line_padding self * 1)%float
                   (CellResolution.columns cell_resolution);
       Ok (set_line_padding padding self)
     else Ok self);
  let self :=
    if compute_font_size || bit_set mask COMPUTE_TEXT_OUTLINE_BIT then
      match text_outline self with
      | Some outline =>
          let thickness := (TextOutline.thickness outline * font_size self)%float in
          let blur_radius :=
            match TextOutline.blur_radius outline with
            | None => None
            | Some b => Some (b * font_size self)%float
            end in
          set_text_outline
            (Some (TextOutline.mk (TextOutline.color outline) thickness blur_radius))
            self
      | None => self
      end
    else self in
  Ok self.

Definition inherited (self : t) : t :=
  set_unicode_bidi UnicodeBidi.NORMAL (set_background_color Color.transparent self).

(** [if v := properties.get(key): self.field = v] *)
Definition merge_field {A : Type} (truthy : A -> bool) (o : option A)
    (set : A -> t -> t) (self : t) : t :=
  match get_truthy truthy o with
  | Some v => set v self
  | None => self
  end.

(** The merged record and the mask of the relative-unit properties that
    were set. *)
Definition merge_properties (self : t) (properties : StyleProperties.t) : t * Z :=
  let mask := 0 in
  let self := merge_field always_truthy
    (StyleProperties.background_color properties) set_background_color self in
  let self := merge_field always_truthy
    (StyleProperties.color properties) set_color self in
  let self := merge_field always_truthy
    (StyleProperties.direction properties) set_direction self in
  let self := merge_field (fun b : bool => b)
    (StyleProperties.fill_line_gap properties) set_fill_line_gap self in
  let self := merge_field list_truthy
    (StyleProperties.font_family properties) set_font_family self in
  let self := merge_field always_truthy
    (StyleProperties.font_style properties) set_font_style self in
  let self := merge_field always_truthy
    (StyleProperties.font_weight properties) set_font_weight self in
  let self := merge_field always_truthy
    (StyleProperties.multi_row_align properties) set_multi_row_align self in
  let self := merge_field always_truthy
    (StyleProperties.text_align properties) set_text_align self in
  let self := merge_field always_truthy
    (StyleProperties.text_decoration properties) set_text_decoration self in
  let self := merge_field always_truthy
    (StyleProperties.unicode_bidi properties) set_unicode_bidi self in
  let self := merge_field always_truthy
    (StyleProperties.wrap_option properties) set_wrap_option self in
  let '(self, mask) :=
    match StyleProperties.line_height properties with
    | Some v => (set_line_height v self, Z.lor mask COMPUTE_LINE_HEIGHT_BIT)
    | None => (self, mask)
    end in
  let '(self, mask) :=
    match StyleProperties.text_outline properties with
    | Some v => (set_text_outline v self, Z.lor mask COMPUTE_TEXT_OUTLINE_BIT)
    | None => (self, mask)
    end in
  let '(self, mask) :=
    match get_truthy Py.float_truthy (StyleProperties.font_size properties) with
    | Some v => (set_font_size v self, Z.lor mask COMPUTE_FONT_SIZE_BIT)
    | None => (self, mask)
    end in
  let '(self, mask) :=
    match get_truthy Py.float_truthy (StyleProperties.line_padding properties) with
    | Some v => (set_line_padding v self, Z.lor mask COMPUTE_LINE_PADDING_BIT)
    | None => (self, mask)
    end in
  (self, mask).
End ResolvedStyle.

(** ** parse.py *)

(** An element of the tree built by [ET.fromstring]: its tag, its attributes
    in document order, its text and its children. *)
Inductive Element : Type :=
| Elem (tag : string) (attrib : list (string * string)) (text : option string)
       (children : list Element).

Module ET.
Definition tag (e : Element) : string := let 'Elem t _ _ _ := e in t.
Definition items (e : Element) : list (string * string) :=
  let 'Elem _ a _ _ := e in a.
Definition text (e : Element) : option string := let 'Elem _ _ t _ := e in t.
Definition children (e : Element) : list Element := let 'Elem _ _ _ c := e in c.

Fixpoint lookup (key : string) (attrib : list (string * string)) : option string :=
  match attrib with
  | [] => None
  | (k, v) :: attrib' => if String.eqb k key then Some v else lookup key attrib'
  end.

(** [elem.get(key)] *)
Definition get (e : Element) (key : string) : option string := lookup key (items e).

(** [elem.get(key, default)] *)
Definition get_default (e : Element) (key default : string) : string :=
  match get e key with Some v => v | None => default end.

(** [elem.iterfind(tag)]: the children with that tag. *)
Definition iterfind (e : Element) (t : string) : list Element :=
  List.filter (fun c => String.eqb (tag c) t) (children e).
End ET.

(** [if v := elem.get(key)]: the attribute when it is present and not empty. *)
Definition get_nonempty (e : Element) (key : string) : option string :=
  get_truthy Py.str_truthy (ET.get e key).

Definition ns (uri local : string) : string := ("{" ++ uri ++ "}" ++ local)%string.

Definition XML_NS := "http://www.w3.org/XML/1998/namespace".
Definition TT_NS := "http://www.w3.org/ns/ttml".
Definition TTP_NS := "http://www.w3.org/ns/ttml#parameter".
Definition TTS_NS := "http://www.w3.org/ns/ttml#styling".
Definition EBUTTS_NS := "urn:ebu:tt:style".
Definition ITTP_NS := "http://www.w3.org/ns/ttml/profile/imsc1#parameter".
Definition ITTS_NS := "http://www.w3.org/ns/ttml/profile/imsc1#styling".

Definition ID_ATTR := Eval vm_compute in ns XML_NS "id".
Definition LANG_ATTR := Eval vm_compute in ns XML_NS "lang".
Definition SPACE_ATTR := Eval vm_compute in ns XML_NS "space".

Definition TT_ELEM := Eval vm_compute in ns TT_NS "tt".
Definition TIME_BASE_ATTR := Eval vm_compute in ns TTP_NS "timeBase".
Definition ACTIVE_AREA_ATTR := Eval vm_compute in ns ITTP_NS "activeArea".
Definition CELL_RESOLUTION_ATTR := Eval vm_compute in ns TTP_NS "cellResolution".

Definition HEAD_ELEM := Eval vm_compute in ns TT_NS "head".
Definition STYLING_ELEM := Eval vm_compute in ns TT_NS "styling".
Definition LAYOUT_ELEM := Eval vm_compute in ns TT_NS "layout".

Definition STYLE_ELEM := Eval vm_compute in ns TT_NS "style".
Definition BACKGROUND_COLOR_ATTR := Eval vm_compute in ns TTS_NS "backgroundColor".
Definition COLOR_ATTR := Eval vm_compute in ns TTS_NS "color".
Definition DIRECTION_ATTR := Eval vm_compute in ns TTS_NS "direction".
Definition FILL_LINE_GAP_ATTR := Eval vm_compute in ns ITTS_NS "fillLineGap".
Definition FONT_FAMILY_ATTR := Eval vm_compute in ns TTS_NS "fontFamily".
Definition FONT_SIZE_ATTR := Eval vm_compute in ns TTS_NS "fontSize".
Definition FONT_STYLE_ATTR := Eval vm_compute in ns TTS_NS "fontStyle".
Definition FONT_WEIGHT_ATTR := Eval vm_compute in ns TTS_NS "fontWeight".
Definition LINE_HEIGHT_ATTR := Eval vm_compute in ns TTS_NS "lineHeight".
Definition LINE_PADDING_ATTR := Eval vm_compute in ns EBUTTS_NS "linePadding".
Definition MULTI_ROW_ALIGN_ATTR := Eval vm_compute in ns EBUTTS_NS "multiRowAlign".
Definition TEXT_ALIGN_ATTR := Eval vm_compute in ns TTS_NS "textAlign".
Definition TEXT_DECORATION_ATTR := Eval vm_compute in ns TTS_NS "textDecoration".
Definition TEXT_OUTLINE_ATTR := Eval vm_compute in ns TTS_NS "textOutline".
Definition UNICODE_BIDI_ATTR := Eval vm_compute in ns TTS_NS "unicodeBidi".
Definition WRAP_OPTION_ATTR := Eval vm_compute in ns TTS_NS "wrapOption".

Definition REGION_ELEM := Eval vm_compute in ns TT_NS "region".
Definition ORIGIN_ATTR := Eval vm_compute in ns TTS_NS "origin".
Definition EXTENT_ATTR := Eval vm_compute in ns TTS_NS "extent".
Definition DISPLAY_ALIGN_ATTR := Eval vm_compute in ns TTS_NS "displayAlign".
Definition OVERFLOW_ATTR := Eval vm_compute in ns TTS_NS "overflow".
Definition PADDING_ATTR := Eval vm_compute in ns TTS_NS "padding".
Definition SHOW_BACKGROUND_ATTR := Eval vm_compute in ns TTS_NS "showBackground".
Definition WRITING_MODE_ATTR := Eval vm_compute in ns TTS_NS "writingMode".

Definition BODY_ELEM := Eval vm_compute in ns TT_NS "body".
Definition DIV_ELEM := Eval vm_compute in ns TT_NS "div".
Definition P_ELEM := Eval vm_compute in ns TT_NS "p".
Definition BR_ELEM := Eval vm_compute in ns TT_NS "br".
Definition SPAN_ELEM := Eval vm_compute in ns TT_NS "span".

(** [if not d] for a dictionary. *)
Definition dict_is_empty {V : Type} (d : gmap string V) : bool :=
  match map_to_list d with [] => true | _ => false end.

Module Context.
Record t : Type := mk {
  document : Document.t;
  ids : gset string;
  styles : gmap string StyleProperties.t;
  regions : gmap string (Z * string) }.

(** [Context(document)] *)
Definition init (document : Document.t) : t := mk document ∅ ∅ ∅.

Definition set_document (v : Document.t) (self : t) : t :=
  mk v (ids self) (styles self) (regions self).
Definition set_ids (v : gset string) (self : t) : t :=
  mk (document self) v (styles self) (regions self).
Definition set_styles (v : gmap string StyleProperties.t) (self : t) : t :=
  mk (document self) (ids self) v (regions self).
Definition set_regions (v : gmap string (Z * string)) (self : t) : t :=
  mk (document self) (ids self) (styles self) v.

Definition add_id (self : t) (id : string) : result t :=
  if bool_decide (id ∈ ids self)
  then Raise (ParseError ("Non unique identifier: " ++ id))
  else Ok (set_ids ({[ id ]} ∪ ids self) self).
End Context.

Definition _parse_id (elem : Element) (required : bool) : result string :=
  match get_nonempty elem ID_ATTR with
  | Some v =>
      let s := Py.strip v in
      if Py.str_truthy s then Ok s
      else Raise (ParseError ("Empty `id` attribute on " ++ ET.tag elem))
  | None =>
      if required
      then Raise (ParseError ("Missing `id` attribute on " ++ ET.tag elem))
      else Ok ""
  end.

(** *** The document under construction *)

Definition set_doc_active_area (v : ActiveArea.t) (d : Document.t) : Document.t :=
  Document.mk v (Document.cell_resolution d) (Document.language d)
    (Document.space d) (Document.regions d) (Document.body d).
Definition set_doc_cell_resolution (v : CellResolution.t) (d : Document.t)
  : Document.t :=
  Document.mk (Document.active_area d) v (Document.language d)
    (Document.space d) (Document.regions d) (Document.body d).
Definition set_doc_language (v : string) (d : Document.t) : Document.t :=
  Document.mk (Document.active_area d) (Document.cell_resolution d) v
    (Document.space d) (Document.regions d) (Document.body d).
Definition set_doc_space (v : Space.t) (d : Document.t) : Document.t :=
  Document.mk (Document.active_area d) (Document.cell_resolution d)
    (Document.language d) v (Document.regions d) (Document.body d).
Definition set_doc_regions (v : list Region.t) (d : Document.t) : Document.t :=
  Document.mk (Document.active_area d) (Document.cell_resolution d)
    (Document.language d) (Document.space d) v (Document.body d).
Definition set_doc_body (v : Body.t) (d : Document.t) : Document.t :=
  Document.mk (Document.active_area d) (Document.cell_resolution d)
    (Document.language d) (Document.space d) (Document.regions d) v.

(** [xs[-1]] *)
Definition list_last {A : Type} (xs : list A) : result A :=
  match List.rev xs with
  | x :: _ => Ok x
  | [] => Raise (IndexError "list index out of range")
  end.

(** [xs[-1] = x] on a list that is not empty. *)
Definition set_list_last {A : Type} (x : A) (xs : list A) : list A :=
  List.removelast xs ++ [x].

(** [ctx.document.body.divs] *)
Definition ctx_divs (ctx : Context.t) : list Div.t :=
  Body.divs (Document.body (Context.document ctx)).

Definition set_ctx_divs (v : list Div.t) (ctx : Context.t) : Context.t :=
  let d := Context.document ctx in
  Context.set_document
    (set_doc_body (Body.mk (Body.background_color (Document.body d)) v) d) ctx.

(** [ctx.document.body.divs.append(div)] *)
Definition append_div (div : Div.t) (ctx : Context.t) : Context.t :=
  set_ctx_divs (ctx_divs ctx ++ [div]) ctx.

(** [ctx.document.body.divs[-1].paragraphs]: the list object to which the
    paragraphs of the current division are appended. *)
Definition ctx_paragraphs (ctx : Context.t) : result (list Paragraph.t) :=
  d ← list_last (ctx_divs ctx); Ok (Div.paragraphs d).

(** [paragraphs.append(para)] on that list object. *)
Definition append_paragraph (para : Paragraph.t) (ctx : Context.t) : result Context.t :=
  d ← list_last (ctx_divs ctx);
  Ok (set_ctx_divs
        (set_list_last (Div.set_paragraphs (Div.paragraphs d ++ [para]) d)
           (ctx_divs ctx)) ctx).

(** [contents.append(c)] on [ctx.document.body.divs[-1].paragraphs[-1].contents]. *)
Definition append_content (c : content) (ctx : Context.t) : result Context.t :=
  d ← list_last (ctx_divs ctx);
  p ← list_last (Div.paragraphs d);
  let p' := Paragraph.set_contents (Paragraph.contents p ++ [c]) p in
  Ok (set_ctx_divs
        (set_list_last (Div.set_paragraphs (set_list_last p' (Div.paragraphs d)) d)
           (ctx_divs ctx)) ctx).

(** *** The style and region tables *)

(** The branch of the attribute of a style declaration. *)
Definition parse_style_attribute `{!PyFloat} (nv : string * string)
    (properties : StyleProperties.t) : result StyleProperties.t :=
  let '(name, value) := nv in
  if String.eqb name BACKGROUND_COLOR_ATTR then
    v ← Color.parse value; Ok (StyleProperties.put_background_color (Some v) properties)
  else if String.eqb name COLOR_ATTR then
    v ← Color.parse value; Ok (StyleProperties.put_color (Some v) properties)
  else if String.eqb name DIRECTION_ATTR then
    v ← Direction.parse value; Ok (StyleProperties.put_direction (Some v) properties)
  else if String.eqb name FILL_LINE_GAP_ATTR then
    let s := Py.strip value in
    if String.eqb s "true"
    then Ok (StyleProperties.put_fill_line_gap (Some true) properties)
    else if String.eqb s "false"
    then Ok (StyleProperties.put_fill_line_gap (Some false) properties)
    else Raise (ParseError ("Invaid `fillLineGap` attribute: " ++ value))
  else if String.eqb name FONT_FAMILY_ATTR then
    Ok (StyleProperties.put_font_family
          (Some (List.filter Py.str_truthy (Py.split "," (Py.strip value))))
          properties)
  else if String.eqb name FONT_SIZE_ATTR then
    v ← FontSize.parse value; Ok (StyleProperties.put_font_size (Some v) properties)
  else if String.eqb name FONT_STYLE_ATTR then
    v ← FontStyle.parse value; Ok (StyleProperties.put_font_style (Some v) properties)
  else if String.eqb name FONT_WEIGHT_ATTR then
    v ← FontWeight.parse value; Ok (StyleProperties.put_font_weight (Some v) properties)
  else if String.eqb name LINE_HEIGHT_ATTR then
    v ← LineHeight.parse value; Ok (StyleProperties.put_line_height (Some v) properties)
  else if String.eqb name LINE_PADDING_ATTR then
    v ← LinePadding.parse value;
    Ok (StyleProperties.put_line_padding (Some v) properties)
  else if String.eqb name MULTI_ROW_ALIGN_ATTR then
    v ← MultiRowAlign.parse value;
    Ok (StyleProperties.put_multi_row_align (Some v) properties)
  else if String.eqb name TEXT_ALIGN_ATTR then
    v ← TextAlign.parse value; Ok (StyleProperties.put_text_align (Some v) properties)
  else if String.eqb name TEXT_DECORATION_ATTR then
    v ← TextDecoration.parse value;
    Ok (StyleProperties.put_text_decoration (Some v) properties)
  else if String.eqb name TEXT_OUTLINE_ATTR then
    v ← TextOutline.parse value;
    Ok (StyleProperties.put_text_outline (Some v) properties)
  else if String.eqb name UNICODE_BIDI_ATTR then
    v ← UnicodeBidi.parse value;
    Ok (StyleProperties.put_unicode_bidi (Some v) properties)
  else if String.eqb name WRAP_OPTION_ATTR then
    v ← WrapOption.parse value; Ok (StyleProperties.put_wrap_option (Some v) properties)
  else Ok properties.

(** The body of the loop of [_parse_styles] over the children of [styling]. *)
Definition parse_style `{!PyFloat} (elem : Element) (ctx : Context.t)
  : result Context.t :=
  if negb (String.eqb (ET.tag elem) STYLE_ELEM) then Ok ctx
  else
    id ← _parse_id elem true;
    ctx ← Context.add_id ctx id;
    properties ← for_each parse_style_attribute (ET.items elem) StyleProperties.empty;
    Ok (Context.set_styles (<[ id := properties ]> (Context.styles ctx)) ctx).

Definition _parse_styles `{!PyFloat} (styling : Element) (ctx : Context.t)
  : result Context.t :=
  for_each parse_style (ET.children styling) ctx.

(** The state of the loop over the attributes of a region. *)
Record region_state : Type := mk_region_state {
  rs_region : Region.t;
  rs_origin_parsed : bool;
  rs_extent_parsed : bool;
  rs_style : string }.

Definition parse_region_attribute `{!PyFloat} (nv : string * string)
    (st : region_state) : result region_state :=
  let '(name, value) := nv in
  let region := rs_region st in
  let with_region r :=
    mk_region_state r (rs_origin_parsed st) (rs_extent_parsed st) (rs_style st) in
  if String.eqb name ORIGIN_ATTR then
    v ← Origin.parse value;
    Ok (mk_region_state
          (Region.mk v (Region.extent region) (Region.display_align region)
             (Region.overflow region) (Region.padding region)
             (Region.show_background region) (Region.writing_mode region))
          true (rs_extent_parsed st) (rs_style st))
  else if String.eqb name EXTENT_ATTR then
    v ← Extent.parse value;
    Ok (mk_region_state
          (Region.mk (Region.origin region) v (Region.display_align region)
             (Region.overflow region) (Region.padding region)
             (Region.show_background region) (Region.writing_mode region))
          (rs_origin_parsed st) true (rs_style st))
  else if String.eqb name "style" then
    Ok (mk_region_state region (rs_origin_parsed st) (rs_extent_parsed st)
          (Py.strip value))
  else if String.eqb name DISPLAY_ALIGN_ATTR then
    v ← DisplayAlign.parse value;
    Ok (with_region
          (Region.mk (Region.origin region) (Region.extent region) v
             (Region.overflow region) (Region.padding region)
             (Region.show_background region) (Region.writing_mode region)))
  else if String.eqb name OVERFLOW_ATTR then
    v ← Overflow.parse value;
    Ok (with_region
          (Region.mk (Region.origin region) (Region.extent region)
             (Region.display_align region) v (Region.padding region)
             (Region.show_background region) (Region.writing_mode region)))
  else if String.eqb name PADDING_ATTR then
    v ← Padding.parse value;
    Ok (with_region
          (Region.mk (Region.origin region) (Region.extent region)
             (Region.display_align region) (Region.overflow region) v
             (Region.show_background region) (Region.writing_mode region)))
  else if String.eqb name SHOW_BACKGROUND_ATTR then
    v ← ShowBackground.parse value;
    Ok (with_region
          (Region.mk (Region.origin region) (Region.extent region)
             (Region.display_align region) (Region.overflow region)
             (Region.padding region) v (Region.writing_mode region)))
  else if String.eqb name WRITING_MODE_ATTR then
    v ← WritingMode.parse value;
    Ok (with_region
          (Region.mk (Region.origin region) (Region.extent region)
             (Region.display_align region) (Region.overflow region)
             (Region.padding region) (Region.show_background region) v))
  else Ok st.

(** The body of the loop of [_parse_regions] over the children of [layout]. *)
Definition parse_region `{!PyFloat} (elem : Element) (ctx : Context.t)
  : result Context.t :=
  if negb (String.eqb (ET.tag elem) REGION_ELEM) then Ok ctx
  else
    id ← _parse_id elem true;
    ctx ← Context.add_id ctx id;
    st ← for_each parse_region_attribute (ET.items elem)
           (mk_region_state Region.default false false "");
    if negb (rs_origin_parsed st) then Raise (ParseError "Missing `origin` attribute")
    else if negb (rs_extent_parsed st)
    then Raise (ParseError "Missing `extent` attribute")
    else
      let document := Context.document ctx in
      let ctx :=
        Context.set_regions
          (<[ id := (Z.of_nat (List.length (Document.regions document)), rs_style st) ]>
             (Context.regions ctx)) ctx in
      Ok (Context.set_document
            (set_doc_regions (Document.regions document ++ [rs_region st]) document)
            ctx).

Definition _parse_regions `{!PyFloat} (layout : Element) (ctx : Context.t)
  : result Context.t :=
  for_each parse_region (ET.children layout) ctx.

(** The state of the loop of [_parse_head]. *)
Record head_state : Type := mk_head_state {
  hs_styling_count : Z;
  hs_layout_count : Z;
  hs_ctx : Context.t }.

Definition parse_head_child `{!PyFloat} (elem : Element) (st : head_state)
  : result head_state :=
  if String.eqb (ET.tag elem) STYLING_ELEM then
    if negb (hs_styling_count st =? 0)
    then Raise (ParseError "Multiple `styling` elements")
    else
      ctx ← _parse_styles elem (hs_ctx st);
      if dict_is_empty (Context.styles ctx)
      then Raise (ParseError "Missing element `style`")
      else Ok (mk_head_state (hs_styling_count st + 1) (hs_layout_count st) ctx)
  else if String.eqb (ET.tag elem) LAYOUT_ELEM then
    if negb (hs_layout_count st =? 0)
    then Raise (ParseError "Multiple `layout` elements")
    else
      ctx ← _parse_regions elem (hs_ctx st);
      if list_truthy (Document.regions (Context.document ctx))
      then Ok (mk_head_state (hs_styling_count st) (hs_layout_count st + 1) ctx)
      else Raise (ParseError "Missing element `region`")
  else Ok st.

(** [functools.reduce(lambda acc, elem: (elem, acc[1] + 1), elems, (None, 0))] *)
Definition last_and_count (elems : list Element) : option Element * Z :=
  List.fold_left (fun acc elem => (Some elem, snd acc + 1)) elems (None, 0).

Definition _parse_head `{!PyFloat} (root : Element) (ctx : Context.t)
  : result Context.t :=
  let '(head, count) := last_and_count (ET.iterfind root HEAD_ELEM) in
  match head with
  | None => Raise (ParseError "Missing element `head`")
  | Some head =>
      if 1 <? count then Raise (ParseError "Multiple `head` elements")
      else
        st ← for_each parse_head_child (ET.children head) (mk_head_state 0 0 ctx);
        if hs_styling_count st =? 0
        then Raise (ParseError "Missing element `styling`")
        else if hs_layout_count st =? 0
        then Raise (ParseError "Missing element `layout`")
        else Ok (hs_ctx st)
  end.

(** *** The cascade resolver *)

(** The state of the loops of [_resolve_style]: the record and
    [parent_font_size]. *)
Definition resolve_state : Type := (ResolvedStyle.t * float)%type.

(** The body of the loop over the identifiers of one scope. *)
Definition resolve_id (ctx : Context.t) (id : string) (st : resolve_state)
  : result resolve_state :=
  if negb (Py.str_truthy id) then Ok st
  else
    match Context.styles ctx !! id with
    | None => Raise (ParseError "Invalid style id: {id}")
    | Some properties =>
        let '(resolved_style, mask) :=
          ResolvedStyle.merge_properties (fst st) properties in
        resolved_style ←
          ResolvedStyle.compute resolved_style mask (Some (snd st))
            (Document.cell_resolution (Context.document ctx));
        Ok (resolved_style, ResolvedStyle.font_size resolved_style)
    end.

(** The body of the loop over [enumerate(style_stack)]. *)
Definition resolve_scope (ctx : Context.t) (iv : Z * string) (st : resolve_state)
  : result resolve_state :=
  let '(index, value) := iv in
  let st := if negb (index =? 0) then (ResolvedStyle.inherited (fst st), snd st)
            else st in
  for_each (resolve_id ctx) (Py.split " " value) st.

(** The record and the parent basis before the first scope. *)
Definition resolve_seed (ctx : Context.t) : result resolve_state :=
  resolved_style ←
    ResolvedStyle.compute ResolvedStyle.default COMPUTE_ALL_MASK None
      (Document.cell_resolution (Context.document ctx));
  Ok (resolved_style, ResolvedStyle.font_size resolved_style).

Definition _resolve_style (style_stack : list string) (ctx : Context.t)
  : result ResolvedStyle.t :=
  st ← resolve_seed ctx;
  st ← for_each (resolve_scope ctx) (enumerate style_stack) st;
  Ok (fst st).

(** *** The deque of style references *)

Module deque.
Definition appendleft (x : string) (d : list string) : list string := x :: d.
Definition append (x : string) (d : list string) : list string := d ++ [x].
Definition pop (d : list string) : result (list string) :=
  match d with
  | [] => Raise (IndexError "pop from an empty deque")
  | _ => Ok (List.removelast d)
  end.
Definition popleft (d : list string) : result (list string) :=
  match d with
  | [] => Raise (IndexError "pop from an empty deque")
  | _ :: d' => Ok d'
  end.
End deque.

(** *** Timecodes *)

Module Scanner.
(** The scanner is its remaining input. *)
Definition t : Type := string.

Definition scan_char (self : t) (c : ascii) : result t :=
  match self with
  | String c0 rest => if Ascii.eqb c0 c then Ok rest else Raise (ValueError "")
  | EmptyString => Raise (ValueError "")
  end.

Fixpoint count_digits (s : string) : nat :=
  match s with
  | String c s' => if Py.is_ascii_decimal c then S (count_digits s') else O
  | EmptyString => O
  end.

Definition scan_int (self : t) (num_digits : nat) (limit : Z) : result (Z * t) :=
  let count := count_digits self in
  if Nat.eqb count 0 || (Nat.ltb 0 num_digits && negb (Nat.eqb count num_digits))
  then Raise (ValueError "")
  else
    n ← Py.int 10 (Py.slice 0 count self);
    if (0 <? limit) && (limit <? n) then Raise (ValueError "")
    else Ok (n, Py.drop count self).
End Scanner.

(** The statements under [try] in [_parse_timecode]. *)
Definition timecode_body (scanner : Scanner.t) : result (float * Scanner.t) :=
  '(h, scanner) ← Scanner.scan_int scanner 0 0;
  hf ← Py.float_of_int h;
  let secs := (hf * 3600)%float in
  scanner ← Scanner.scan_char scanner ":";
  '(m, scanner) ← Scanner.scan_int scanner 2 59;
  mf ← Py.float_of_int m;
  let secs := (secs + mf * 60)%float in
  scanner ← Scanner.scan_char scanner ":";
  '(s, scanner) ← Scanner.scan_int scanner 2 59;
  sf ← Py.float_of_int s;
  let secs := (secs + sf)%float in
  scanner ← Scanner.scan_char scanner ".";
  '(ms, scanner) ← Scanner.scan_int scanner 3 0;
  msf ← Py.float_of_int ms;
  let secs := (secs + msf * 0.001)%float in
  Ok (secs, scanner).

Definition _parse_timecode (attr input : string) : result float :=
  let invalid :=
    ParseError ("Invalid `" ++ attr ++ "` attribute value: " ++ input) in
  match timecode_body input with
  | Raise (ValueError _) => Raise invalid
  | Raise e => Raise e
  | Ok (secs, scanner) =>
      if Py.str_truthy scanner then Raise invalid else Ok secs
  end.

(** *** Body, divisions, paragraphs and spans *)

(** The state of the walk below [body]: the deque [style_stack] and the
    context. *)
Definition walk_state : Type := (list string * Context.t)%type.

(** [if x: style_stack.append(x)] and the like. *)
Definition when_truthy (s : string) (f : list string -> list string)
    (d : list string) : list string :=
  if Py.str_truthy s then f d else d.

Definition when_truthy_r (s : string) (f : list string -> result (list string))
    (d : list string) : result (list string) :=
  if Py.str_truthy s then f d else Ok d.

(** [if v := elem.get(SPACE_ATTR): space = Space.parse(v)] *)
Definition parse_space (elem : Element) : result Space.t :=
  match get_nonempty elem SPACE_ATTR with
  | Some v => Space.parse v
  | None => Ok Space.DEFAULT
  end.

(** The body of the loop of [_parse_paragraph_content]. *)
Definition parse_content (elem : Element) (st : walk_state) : result walk_state :=
  let '(style_stack, ctx) := st in
  if String.eqb (ET.tag elem) BR_ELEM then
    ctx ← append_content Br ctx; Ok (style_stack, ctx)
  else if negb (String.eqb (ET.tag elem) SPAN_ELEM) then Ok st
  else
    id ← _parse_id elem false;
    ctx ← (if Py.str_truthy id then Context.add_id ctx id else Ok ctx);
    let style := Py.strip (ET.get_default elem "style" "") in
    let style_stack := when_truthy style (deque.append style) style_stack in
    resolved_style ← _resolve_style style_stack ctx;
    let language := Py.strip (ET.get_default elem LANG_ATTR "") in
    space ← parse_space elem;
    let span :=
      Span.mk id language space
        (ResolvedStyle.background_color resolved_style)
        (ResolvedStyle.color resolved_style)
        (ResolvedStyle.direction resolved_style)
        (ResolvedStyle.font_family resolved_style)
        (ResolvedStyle.font_size resolved_style)
        (ResolvedStyle.font_style resolved_style)
        (ResolvedStyle.font_weight resolved_style)
        (ResolvedStyle.text_decoration resolved_style)
        (ResolvedStyle.text_outline resolved_style)
        (ResolvedStyle.unicode_bidi resolved_style)
        (ResolvedStyle.wrap_option resolved_style)
        (match ET.text elem with Some t => t | None => "" end) in
    ctx ← append_content (ASpan span) ctx;
    style_stack ← when_truthy_r style deque.pop style_stack;
    Ok (style_stack, ctx).

Definition _parse_paragraph_content (para : Element) (st : walk_state)
  : result walk_state :=
  _ ← (d ← list_last (ctx_divs (snd st)); list_last (Div.paragraphs d));
  for_each parse_content (ET.children para) st.

(** [elem.get("region", "").strip()] looked up in the region table: the index
    and the style reference of the region, [-1] and the empty string when the
    element has no region reference. *)
Definition lookup_region (elem : Element) (ctx : Context.t) : result (Z * string) :=
  let region_id := Py.strip (ET.get_default elem "region" "") in
  if Py.str_truthy region_id then
    match Context.regions ctx !! region_id with
    | Some entry => Ok entry
    | None => Raise (ParseError ("Invalid region identifier: " ++ region_id))
    end
  else Ok (-1, "").

(** The two tests of [_parse_para] on the region index of the paragraph
    and the one of its division, [-1] standing for no region: the index that
    the paragraph gets. *)
Definition paragraph_region (region_index parent_region_index : Z) : result Z :=
  if negb (region_index =? -1) && negb (parent_region_index =? -1)
  then Raise (ParseError "Multiple regions")
  else if region_index =? -1 then
         if parent_region_index =? -1
         then Raise (ParseError "Missing `region` attribute")
         else Ok parent_region_index
       else Ok region_index.

(** The body of the loop of [_parse_para]. *)
Definition parse_paragraph (parent_region_index : Z) (elem : Element)
    (st : walk_state) : result walk_state :=
  let '(style_stack, ctx) := st in
  if negb (String.eqb (ET.tag elem) P_ELEM) then Ok st
  else
    id ← _parse_id elem true;
    ctx ← Context.add_id ctx id;
    begin ← match get_nonempty elem "begin" with
            | Some v => _parse_timecode "begin" (Py.strip v)
            | None => Raise (ParseError "Missing `begin` attribute")
            end;
    end_ ← match get_nonempty elem "end" with
           | Some v => _parse_timecode "end" (Py.strip v)
           | None => Raise (ParseError "Missing `end` attribute")
           end;
    '(region_index, region_style) ← lookup_region elem ctx;
    region_index ← paragraph_region region_index parent_region_index;
    let style_stack :=
      when_truthy region_style (deque.appendleft region_style) style_stack in
    let style := Py.strip (ET.get_default elem "style" "") in
    let style_stack := when_truthy style (deque.append style) style_stack in
    resolved_style ← _resolve_style style_stack ctx;
    let language := Py.strip (ET.get_default elem LANG_ATTR "") in
    space ← parse_space elem;
    let para :=
      Paragraph.mk id begin end_ region_index language space
        (ResolvedStyle.background_color resolved_style)
        (ResolvedStyle.direction resolved_style)
        (ResolvedStyle.fill_line_gap resolved_style)
        (ResolvedStyle.line_height resolved_style)
        (ResolvedStyle.line_padding resolved_style)
        (ResolvedStyle.multi_row_align resolved_style)
        (ResolvedStyle.text_align resolved_style)
        (ResolvedStyle.unicode_bidi resolved_style)
        [] in
    ctx ← append_paragraph para ctx;
    '(style_stack, ctx) ← _parse_paragraph_content elem (style_stack, ctx);
    style_stack ← when_truthy_r style deque.pop style_stack;
    style_stack ← when_truthy_r region_style deque.popleft style_stack;
    Ok (style_stack, ctx).

Definition _parse_para (div : Element) (parent_region_index : Z) (st : walk_state)
  : result walk_state :=
  _ ← ctx_paragraphs (snd st);
  st ← for_each (parse_paragraph parent_region_index) (ET.children div) st;
  paragraphs ← ctx_paragraphs (snd st);
  if list_truthy paragraphs then Ok st
  else Raise (ParseError "Missing element `p`").

(** The body of the loop of [_parse_div]. *)
Definition parse_division (elem : Element) (st : walk_state) : result walk_state :=
  let '(style_stack, ctx) := st in
  if negb (String.eqb (ET.tag elem) DIV_ELEM) then Ok st
  else
    id ← _parse_id elem false;
    ctx ← (if Py.str_truthy id then Context.add_id ctx id else Ok ctx);
    '(region_index, region_style) ← lookup_region elem ctx;
    let style_stack :=
      when_truthy region_style (deque.appendleft region_style) style_stack in
    let style := Py.strip (ET.get_default elem "style" "") in
    let style_stack := when_truthy style (deque.append style) style_stack in
    resolved_style ← _resolve_style style_stack ctx;
    let background_color := ResolvedStyle.background_color resolved_style in
    let language := Py.strip (ET.get_default elem LANG_ATTR "") in
    let div := Div.mk id language background_color [] in
    let ctx := append_div div ctx in
    '(style_stack, ctx) ← _parse_para elem region_index (style_stack, ctx);
    style_stack ← when_truthy_r style deque.pop style_stack;
    style_stack ← when_truthy_r region_style deque.popleft style_stack;
    Ok (style_stack, ctx).

Definition _parse_div (body : Element) (st : walk_state) : result walk_state :=
  st ← for_each parse_division (ET.children body) st;
  if list_truthy (ctx_divs (snd st)) then Ok st
  else Raise (ParseError "Missing element `div`").

Definition _parse_body (root : Element) (ctx : Context.t) : result Context.t :=
  let '(body, count) := last_and_count (ET.iterfind root BODY_ELEM) in
  match body with
  | None => Raise (ParseError "Missing element `body`")
  | Some body =>
      if 1 <? count then Raise (ParseError "Multiple `body` elements")
      else
        let style_stack : list string := [] in
        let value := Py.strip (ET.get_default body "style" "") in
        let style_stack := when_truthy value (deque.append value) style_stack in
        resolved_style ← _resolve_style style_stack ctx;
        let d := Context.document ctx in
        let ctx :=
          Context.set_document
            (set_doc_body
               (Body.mk (ResolvedStyle.background_color resolved_style)
                  (Body.divs (Document.body d))) d) ctx in
        st ← _parse_div body (style_stack, ctx);
        Ok (snd st)
  end.

(** [parse], from the root element that [ET.fromstring(input)] returns. *)
Definition parse `{!PyFloat} (root : Element) : result Document.t :=
  if negb (String.eqb (ET.tag root) TT_ELEM)
  then Raise (ParseError ("Invalid root element: " ++ ET.tag root))
  else
    match ET.get root TIME_BASE_ATTR with
    | None => Raise (ParseError "Missing `timeBase` attribute")
    | Some v =>
        if negb (String.eqb v "media")
        then Raise (ParseError ("Invalid `timeBase` attribute: " ++ v))
        else
          let document := Document.default in
          document ←
            match get_nonempty root ACTIVE_AREA_ATTR with
            | Some v => a ← ActiveArea.parse v; Ok (set_doc_active_area a document)
            | None => Ok document
            end;
          document ←
            match get_nonempty root CELL_RESOLUTION_ATTR with
            | Some v =>
                c ← CellResolution.parse v; Ok (set_doc_cell_resolution c document)
            | None => Ok document
            end;
          document ←
            match ET.get root LANG_ATTR with
            | Some v => Ok (set_doc_language (Py.strip v) document)
            | None => Raise (ParseError "Missing attribute `lang`")
            end;
          document ←
            match get_nonempty root SPACE_ATTR with
            | Some v => s ← Space.parse v; Ok (set_doc_space s document)
            | None => Ok document
            end;
          let ctx := Context.init document in
          ctx ← _parse_head root ctx;
          ctx ← _parse_body root ctx;
          Ok (Context.document ctx)
    end.

(** ** An instance of [float(str)] for the examples

    [decimal_float] agrees with [float] on the literals made of decimal
    digits with an optional fraction: the quotient of two integers, rounded
    to the nearest binary64 value.  It is used on such literals only. *)

Fixpoint all_decimal (s : string) : bool :=
  match s with
  | EmptyString => true
  | String c s' => Py.is_ascii_decimal c && all_decimal s'
  end.

Definition decimal_digits (s : string) : option Z :=
  if Py.str_truthy s && all_decimal s then Py.int_opt 10 s else None.

Definition decimal_float (s : string) : option float :=
  match Py.split "." s with
  | [i] => n ← decimal_digits i; Some (SF2Prim (binary_normalize prec emax n 0 false))
  | [i; f] =>
      n ← decimal_digits (i ++ f)%string;
      if Nat.eqb (String.length i + String.length f) 0 then None
      else
        Some (SF2Prim
                (SFdiv prec emax
                   (binary_normalize prec emax n 0 false)
                   (binary_normalize prec emax (10 ^ Z.of_nat (String.length f)) 0
                      false)))
  | _ => None
  end.

(** ** Definitions used by the statements *)

(** The value of a hexadecimal digit. *)
Definition hex (c : ascii) : option Z := Py.digit_in 16 c.

(** The value of two hexadecimal digits. *)
Definition hex2 (c1 c2 : ascii) : option Z :=
  d1 ← hex c1; d2 ← hex c2; Some (16 * d1 + d2).

Definition str2 (c1 c2 : ascii) : string := String c1 (String c2 EmptyString).

(** The string [#RRGGBB]. *)
Definition rgb_string (r1 r2 g1 g2 b1 b2 : ascii) : string :=
  String "#" (String r1 (String r2 (String g1 (String g2 (str2 b1 b2))))).

(** The string [#RRGGBBAA]. *)
Definition rgba_string (r1 r2 g1 g2 b1 b2 a1 a2 : ascii) : string :=
  String "#"
    (String r1 (String r2 (String g1 (String g2 (String b1 (String b2 (str2 a1 a2))))))).

(** The stripped value is not [#] followed by six or eight characters. *)
Definition wrong_length (value : string) : Prop :=
  match Py.strip value with
  | String "#" v => String.length v <> 6%nat /\ String.length v <> 8%nat
  | _ => True
  end.

Definition all_ascii : list ascii := List.map ascii_of_nat (List.seq 0 256).

Definition hex_not_space (c : ascii) : bool :=
  match hex c with Some _ => negb (Py.isspace c) | None => true end.

Definition hex_pair_ok (c1 c2 : ascii) : bool :=
  match hex2 c1 c2 with
  | Some n =>
      match Py.int_opt 16 (str2 c1 c2) with
      | Some m => m =? n
      | None => false
      end
  | None => true
  end.

(** ** Documents of the examples *)

(** The paragraphs and the spans of a document, in document order. *)
Definition doc_paragraphs (d : Document.t) : list Paragraph.t :=
  List.flat_map Div.paragraphs (Body.divs (Document.body d)).

Definition paragraph_spans (p : Paragraph.t) : list Span.t :=
  List.flat_map (fun c => match c with ASpan s => [s] | Br => [] end)
    (Paragraph.contents p).

Definition doc_spans (d : Document.t) : list Span.t :=
  List.flat_map paragraph_spans (doc_paragraphs d).

(** A document with the given root attributes, style declarations, one
    region [r1] that is declared with an origin and an extent, and the given
    children of [body]. *)
Definition document_of (root_attrib : list (string * string))
    (styles : list Element) (divs : list Element) : Element :=
  Elem TT_ELEM ((TIME_BASE_ATTR, "media") :: (LANG_ATTR, "en") :: root_attrib) None
    [ Elem HEAD_ELEM [] None
        [ Elem STYLING_ELEM [] None styles;
          Elem LAYOUT_ELEM [] None
            [ Elem REGION_ELEM
                [(ID_ATTR, "r1"); (ORIGIN_ATTR, "10% 10%"); (EXTENT_ATTR, "80% 80%")]
                None [] ] ];
      Elem BODY_ELEM [] None divs ].

Definition style_elem (id : string) (attrib : list (string * string)) : Element :=
  Elem STYLE_ELEM ((ID_ATTR, id) :: attrib) None [].

(** [<p xml:id=id begin="00:00:01.000" end="00:00:02.000" ...>] *)
Definition p_elem (id : string) (attrib : list (string * string))
    (children : list Element) : Element :=
  Elem P_ELEM
    ((ID_ATTR, id) :: ("begin", "00:00:01.000") :: ("end", "00:00:02.000") :: attrib)
    None children.

(** Style [on] declares [fillLineGap="true"], style [off] declares
    [fillLineGap="false"], and the paragraph references [on off]. *)
Definition doc_fill_line_gap : Element :=
  document_of []
    [ style_elem "on" [(FILL_LINE_GAP_ATTR, "true")];
      style_elem "off" [(FILL_LINE_GAP_ATTR, "false")] ]
    [ Elem DIV_ELEM [("region", "r1")] None
        [ p_elem "p1" [("style", "on off")] [] ] ].

(** The styles that the identifiers [ids] name declare nothing for the key
    [key]. *)
Definition none_in {A : Type} (ctx : Context.t) (ids : list string)
    (key : StyleProperties.t -> option A) : Prop :=
  forall id p, In id ids -> Context.styles ctx !! id = Some p -> key p = None.

(** The styles that the reference string [value] names declare nothing for
    the key [key]. *)
Definition declares_none {A : Type} (ctx : Context.t) (value : string)
    (key : StyleProperties.t -> option A) : Prop :=
  none_in ctx (Py.split " " value) key.

(** The step at the entry of the scope of position [index]:
    [if index != 0: resolved_style.inherited()]. *)
Definition scope_entry (index : Z) (st : resolve_state) : resolve_state :=
  if negb (index =? 0) then (ResolvedStyle.inherited (fst st), snd st) else st.

(** The state of the resolver after the scopes [outer] and, in the scope that
    follows them, after the identifiers [before]. *)
Definition resolve_upto (ctx : Context.t) (outer : list string)
    (before : list string) : result resolve_state :=
  st ← resolve_seed ctx;
  st ← for_each (resolve_scope ctx) (enumerate outer) st;
  for_each (resolve_id ctx) before
    (scope_entry (Z.of_nat (List.length outer)) st).

(** A context that holds the given style table, with the default document. *)
Definition ctx_of (styles : list (string * StyleProperties.t)) : Context.t :=
  Context.set_styles (list_to_map styles) (Context.init Document.default).

(** Style [outer] declares a background colour, a colour and a bidi mode;
    style [inner] declares a font style only. *)
Definition cascade_ctx : Context.t :=
  ctx_of
    [ ("outer",
       StyleProperties.put_background_color (Some Color.black)
         (StyleProperties.put_color (Some Color.black)
            (StyleProperties.put_unicode_bidi (Some UnicodeBidi.EMBED)
               StyleProperties.empty)));
      ("inner",
       StyleProperties.put_font_style (Some FontStyle.ITALIC) StyleProperties.empty) ].

Definition cascade_result : ResolvedStyle.t :=
  match _resolve_style ["outer"; "inner"] cascade_ctx with
  | Ok r => r
  | Raise _ => ResolvedStyle.default
  end.

(** Styles [s1] and [s2] both declare a font size of 50%; the document has
    the default cell resolution of 15 rows. *)
Definition halves_ctx : Context.t :=
  ctx_of
    [ ("s1", StyleProperties.put_font_size (Some 0.5%float) StyleProperties.empty);
      ("s2", StyleProperties.put_font_size (Some 0.5%float) StyleProperties.empty) ].


(** The attribute [key] occurs in the attribute list. *)
Definition has_attribute (key : string) (attrib : list (string * string)) : bool :=
  existsb (fun nv => String.eqb (fst nv) key) attrib.

Definition region_state_init : region_state :=
  mk_region_state Region.default false false "".

(** A document whose only region has an origin and no extent. *)
Definition region_without_extent : Element :=
  Elem REGION_ELEM [(ID_ATTR, "r1"); (ORIGIN_ATTR, "10% 10%")] None [].

Definition layout_without_extent : Element :=
  Elem LAYOUT_ELEM [] None [region_without_extent].

Definition head_without_extent : Element :=
  Elem HEAD_ELEM [] None
    [ Elem STYLING_ELEM [] None [style_elem "s1" []]; layout_without_extent ].

Definition doc_region_without_extent : Element :=
  Elem TT_ELEM [(TIME_BASE_ATTR, "media"); (LANG_ATTR, "en")] None
    [ head_without_extent;
      Elem BODY_ELEM [] None
        [ Elem DIV_ELEM [("region", "r1")] None [ p_elem "p1" [] [] ] ] ].

(** The element has a region reference: [elem.get("region", "").strip()] is
    not empty. *)
Definition carries_region (elem : Element) : bool :=
  Py.str_truthy (Py.strip (ET.get_default elem "region" "")).





(** A document whose style declares [tts:color="red"]. *)
Definition doc_bad_color : Element :=
  document_of []
    [ style_elem "s1" [(COLOR_ATTR, "red")] ]
    [ Elem DIV_ELEM [("region", "r1")] None [ p_elem "p1" [] [] ] ].

(** ** The identifiers that a parse registers *)

(** The identifier of an element on which [_parse_id(elem, required=True)]
    is called. *)
Definition required_id (e : Element) : list string :=
  match _parse_id e true with Ok id => [id] | Raise _ => [] end.

(** The identifier of an element on which [_parse_id(elem, required=False)]
    is called, when it has one. *)
Definition optional_id (e : Element) : list string :=
  match _parse_id e false with
  | Ok id => if Py.str_truthy id then [id] else []
  | Raise _ => []
  end.

Definition span_ids (e : Element) : list string :=
  if String.eqb (ET.tag e) SPAN_ELEM then optional_id e else [].

Definition paragraph_ids (e : Element) : list string :=
  if String.eqb (ET.tag e) P_ELEM
  then (required_id e ++ List.flat_map span_ids (ET.children e))%list
  else [].

Definition division_ids (e : Element) : list string :=
  if String.eqb (ET.tag e) DIV_ELEM
  then (optional_id e ++ List.flat_map paragraph_ids (ET.children e))%list
  else [].

Definition style_ids (e : Element) : list string :=
  if String.eqb (ET.tag e) STYLE_ELEM then required_id e else [].

Definition region_ids (e : Element) : list string :=
  if String.eqb (ET.tag e) REGION_ELEM then required_id e else [].

Definition head_child_ids (e : Element) : list string :=
  if String.eqb (ET.tag e) STYLING_ELEM then List.flat_map style_ids (ET.children e)
  else if String.eqb (ET.tag e) LAYOUT_ELEM
       then List.flat_map region_ids (ET.children e)
       else [].

(** The identifiers of the style, region, div, p and span elements of a
    document, in the order of the walk. *)
Definition document_ids (root : Element) : list string :=
  (List.flat_map (fun h => List.flat_map head_child_ids (ET.children h))
     (ET.iterfind root HEAD_ELEM)
   ++ List.flat_map (fun b => List.flat_map division_ids (ET.children b))
        (ET.iterfind root BODY_ELEM))%list.

(** From the registry [ids] to the registry [ids'], the identifiers [l] were
    registered: each of them once, none of them present before. *)
Definition registers (l : list string) (ids ids' : gset string) : Prop :=
  NoDup l /\ (forall i, i ∈ l -> i ∉ ids) /\ ids' = list_to_set l ∪ ids.

(** A document in which the identifier of a style is used again for a
    paragraph. *)
Definition doc_reused_id : Element :=
  document_of []
    [ style_elem "s1" [] ]
    [ Elem DIV_ELEM [("region", "r1")] None [ p_elem "s1" [] [] ] ].

(** ** Binary64 rounding

    The record of a mantissa with no bit shifted out yet. *)
Definition rec0 (m : Z) : shr_record := {| shr_m := m; shr_r := false; shr_s := false |}.

(** The mantissa that rounding to nearest, ties to even, gives for a record. *)
Definition rne (r : shr_record) : Z :=
  round_nearest_even (shr_m r) (loc_of_shr_record r).

(** The value of the mantissa [M] at the least exponent. *)
Definition at_emin (s : bool) (M : Z) : spec_float :=
  match M with
  | Z0 => S754_zero s
  | Zpos p => S754_finite s p (-1074)
  | Zneg _ => S754_nan
  end.

(** The values 0.5 and 0.25. *)
Definition sf_half : spec_float := S754_finite false 4503599627370496 (-53).
Definition sf_quarter : spec_float := S754_finite false 4503599627370496 (-54).

(** ** The style stack of the walk *)

(** A division that carries a region and a style reference, with a paragraph
    and a span that carry style references of their own; a context that
    declares the region and the styles. *)
Definition styled_div : Element :=
  Elem DIV_ELEM [("region", "r1"); ("style", "s1")] None
    [ p_elem "p1" [("style", "s2")]
        [ Elem SPAN_ELEM [("style", "s1 s2")] (Some "text") [];
          Elem BR_ELEM [] None [] ] ].

Definition styled_ctx : Context.t :=
  Context.set_regions {[ "r1" := (0, "s2") ]} halves_ctx.

(** ** The fields of a resolved style that hold no relative unit *)

Record plain_fields : Type := mk_plain_fields {
  pf_background_color : Color.t;
  pf_color : Color.t;
  pf_direction : Direction.t;
  pf_fill_line_gap : bool;
  pf_font_family : list string;
  pf_font_style : FontStyle.t;
  pf_font_weight : FontWeight.t;
  pf_multi_row_align : MultiRowAlign.t;
  pf_text_align : TextAlign.t;
  pf_text_decoration : TextDecoration.t;
  pf_unicode_bidi : UnicodeBidi.t;
  pf_wrap_option : WrapOption.t
}.

(** All the fields of a resolved style but the font size, the line height,
    the line padding and the text outline. *)
Definition plain_of (s : ResolvedStyle.t) : plain_fields :=
  mk_plain_fields (ResolvedStyle.background_color s) (ResolvedStyle.color s)
    (ResolvedStyle.direction s) (ResolvedStyle.fill_line_gap s)
    (ResolvedStyle.font_family s) (ResolvedStyle.font_style s)
    (ResolvedStyle.font_weight s) (ResolvedStyle.multi_row_align s)
    (ResolvedStyle.text_align s) (ResolvedStyle.text_decoration s)
    (ResolvedStyle.unicode_bidi s) (ResolvedStyle.wrap_option s).

(** ** Kinds of exceptions *)

Definition is_value_error (e : exn) : bool :=
  match e with ValueError _ => true | _ => false end.

Definition is_overflow_error (e : exn) : bool :=
  match e with OverflowError _ => true | _ => false end.

Definition is_zero_division_error (e : exn) : bool :=
  match e with ZeroDivisionError _ => true | _ => false end.

(** A timecode whose hours have 310 digits. *)
Definition long_hours : string :=
  String.concat "" (List.repeat "9999999999" 31) ++ ":00:00.000".

(** ** The shape of the document under construction *)

(** The region indices of the paragraphs of a division, and of the divisions
    of the document of a context. *)
Definition div_shape (d : Div.t) : list Z :=
  List.map Paragraph.region_index (Div.paragraphs d).

Definition doc_shape (ctx : Context.t) : list (list Z) :=
  List.map div_shape (ctx_divs ctx).

(** The index is the one of an entry of the region table. *)
Definition in_table (ctx : Context.t) (idx : Z) : Prop :=
  exists id style, Context.regions ctx !! id = Some (idx, style).

(** The indices of the region table are positions in [document.regions]. *)
Definition regions_bounded (ctx : Context.t) : Prop :=
  forall idx, in_table ctx idx ->
    0 <= idx < Z.of_nat (List.length (Document.regions (Context.document ctx))).

(** What the walk below [body] reads and never writes: the region table and
    the regions of the document. *)
Definition region_frame (ctx : Context.t) : gmap string (Z * string) * list Region.t :=
  (Context.regions ctx, Document.regions (Context.document ctx)).

(** Every division has a paragraph, and every paragraph a region index of
    the table. *)
Definition shape_ok (ctx : Context.t) (shape : list (list Z)) : Prop :=
  Forall (fun l => l <> [] /\ Forall (in_table ctx) l) shape.

(** A document with two regions; the division is in the second one, and so
    are its two paragraphs. *)
Definition doc_reused_region : Element :=
  Elem TT_ELEM [(TIME_BASE_ATTR, "media"); (LANG_ATTR, "en")] None
    [ Elem HEAD_ELEM [] None
        [ Elem STYLING_ELEM [] None [ style_elem "s1" [] ];
          Elem LAYOUT_ELEM [] None
            [ Elem REGION_ELEM
                [(ID_ATTR, "r1"); (ORIGIN_ATTR, "10% 10%"); (EXTENT_ATTR, "80% 80%")]
                None [];
              Elem REGION_ELEM
                [(ID_ATTR, "r2"); (ORIGIN_ATTR, "10% 10%"); (EXTENT_ATTR, "80% 80%")]
                None [] ] ];
      Elem BODY_ELEM [] None
        [ Elem DIV_ELEM [("region", "r2")] None
            [ p_elem "p1" [] []; p_elem "p2" [] [] ] ] ].

(** ** The exceptions of the value parsers *)

Definition error_of {A : Type} (r : result A) : option exn :=
  match r with Raise e => Some e | Ok _ => None end.

(** What each value parser of [model.py] raises on the value, if it raises. *)
Definition value_parser_errors `{pf : !PyFloat} (u : Unit.t)
    (max_value : option float) (value : string) : list (option exn) :=
  [ error_of (Unit.parse u value max_value);
    error_of (ActiveArea.parse value);
    error_of (CellResolution.parse value);
    error_of (Color.parse value);
    error_of (Direction.parse value);
    error_of (DisplayAlign.parse value);
    error_of (Extent.parse value);
    error_of (FontSize.parse value);
    error_of (FontStyle.parse value);
    error_of (FontWeight.parse value);
    error_of (LineHeight.parse value);
    error_of (LinePadding.parse value);
    error_of (MultiRowAlign.parse value);
    error_of (Origin.parse value);
    error_of (Overflow.parse value);
    error_of (Padding.parse value);
    error_of (ShowBackground.parse value);
    error_of (TextAlign.parse value);
    error_of (TextDecoration.parse value);
    error_of (TextOutline.parse value);
    error_of (Space.parse value);
    error_of (UnicodeBidi.parse value);
    error_of (WrapOption.parse value);
    error_of (WritingMode.parse value) ].

Definition is_index_error (e : exn) : bool :=
  match e with IndexError _ => true | _ => false end.

(** The document under construction has a division; its last division has a
    paragraph. *)
Definition has_div (ctx : Context.t) : Prop := doc_shape ctx <> [].

Definition has_paragraph (ctx : Context.t) : Prop :=
  exists ds l idx, doc_shape ctx = (ds ++ [l ++ [idx]])%list.

(** ** The header of the document *)

(** What [parse] reads from the attributes of the root element. *)
Definition doc_header (d : Document.t)
  : ActiveArea.t * CellResolution.t * string * Space.t :=
  (Document.active_area d, Document.cell_resolution d, Document.language d,
   Document.space d).

Definition ctx_header (ctx : Context.t) : ActiveArea.t * CellResolution.t * string * Space.t :=
  doc_header (Context.document ctx).

(** The value of an optional attribute of the root: the parsed attribute
    when it is present and not empty, the default otherwise. *)
Definition optional_attribute {A : Type} (root : Element) (key : string)
    (parse : string -> result A) (default : A) : result A :=
  match get_nonempty root key with
  | Some v => parse v
  | None => Ok default
  end.

(** A document with a language between spaces and a cell resolution. *)
Definition doc_two_rows : Element :=
  Elem TT_ELEM
    [(TIME_BASE_ATTR, "media"); (LANG_ATTR, " en "); (CELL_RESOLUTION_ATTR, "40 2")]
    None
    [ Elem HEAD_ELEM [] None
        [ Elem STYLING_ELEM [] None [ style_elem "s1" [] ];
          Elem LAYOUT_ELEM [] None
            [ Elem REGION_ELEM
                [(ID_ATTR, "r1"); (ORIGIN_ATTR, "10% 10%"); (EXTENT_ATTR, "80% 80%")]
                None [] ] ];
      Elem BODY_ELEM [] None
        [ Elem DIV_ELEM [("region", "r1")] None [ p_elem "p1" [] [] ] ] ].

(** ** The document mirrors the element tree *)








(** The cell resolution of the document of a context has two positive
    components. *)
Definition valid_resolution (ctx : Context.t) : Prop :=
  CellResolution.is_valid (Document.cell_resolution (Context.document ctx)) = true.

(** * Properties *)

(** ** Loops and results *)

Lemma for_each_app {A S : Type} (body : A -> S -> result S) (xs ys : list A) (s : S) :
  for_each body (xs ++ ys) s = (s' ← for_each body xs s; for_each body ys s').
Proof.
  revert s. induction xs as [|x xs IH]; intros s; simpl; [reflexivity|].
  destruct (body x s) as [s'|e]; simpl; [apply IH | reflexivity].
Qed.

(** An element on which the body always raises makes the loop raise. *)
Lemma for_each_raises {A S : Type} (body : A -> S -> result S) (x : A) (xs : list A) :
  In x xs -> (forall s, is_ok (body x s) = false) ->
  forall s, is_ok (for_each body xs s) = false.
Proof.
  intros Hin Hx. induction xs as [|y ys IH]; [destruct Hin|].
  intros s. simpl. destruct Hin as [->|Hin].
  - specialize (Hx s). destruct (body x s); [discriminate | reflexivity].
  - destruct (body y s); simpl; [apply IH; assumption | reflexivity].
Qed.

Lemma bind_ok {A B : Type} (m : result A) (f : A -> result B) (b : B) :
  (a ← m; f a) = Ok b -> exists a, m = Ok a /\ f a = Ok b.
Proof. destruct m as [a|e]; simpl; [eauto | discriminate]. Qed.

(** ** Characters *)

Lemma all_ascii_complete (c : ascii) : In c all_ascii.
Proof.
  unfold all_ascii. rewrite <- (ascii_nat_embedding c).
  apply in_map, in_seq. pose proof (nat_ascii_bounded c). lia.
Qed.

Lemma forall_ascii (P : ascii -> bool) :
  forallb P all_ascii = true -> forall c, P c = true.
Proof. intros H c. rewrite forallb_forall in H. apply H, all_ascii_complete. Qed.

Lemma hex_not_space_all (c : ascii) : hex_not_space c = true.
Proof. revert c. apply forall_ascii. vm_compute. reflexivity. Qed.

Lemma hex_pair_ok_all (c1 c2 : ascii) : hex_pair_ok c1 c2 = true.
Proof.
  revert c2. revert c1.
  assert (H : forallb (fun c1 => forallb (hex_pair_ok c1) all_ascii) all_ascii = true)
    by (vm_compute; reflexivity).
  intros c1 c2.
  pose proof (forall_ascii _ H c1) as H1. simpl in H1.
  exact (forall_ascii _ H1 c2).
Qed.

Lemma int16_hex2 (c1 c2 : ascii) (n : Z) :
  hex2 c1 c2 = Some n -> Py.int 16 (str2 c1 c2) = Ok n.
Proof.
  intros H. pose proof (hex_pair_ok_all c1 c2) as Hok.
  unfold hex_pair_ok in Hok. rewrite H in Hok. unfold Py.int.
  destruct (Py.int_opt 16 (str2 c1 c2)) as [m|]; [|discriminate].
  apply Z.eqb_eq in Hok. subst. reflexivity.
Qed.

Lemma hex2_range (c1 c2 : ascii) (n : Z) : hex2 c1 c2 = Some n -> 0 <= n <= 255.
Proof.
  unfold hex2, hex, Py.digit_in. intros H.
  destruct (Py.digit_value c1) as [d1|] eqn:E1; [|discriminate].
  destruct (d1 <? 16) eqn:L1; [|discriminate].
  destruct (Py.digit_value c2) as [d2|] eqn:E2; [|discriminate].
  destruct (d2 <? 16) eqn:L2; [|discriminate].
  simpl in H. injection H as <-.
  apply Z.ltb_lt in L1, L2.
  assert (0 <= d1 /\ 0 <= d2) as [? ?]; [|lia].
  unfold Py.digit_value in E1, E2. split.
  - repeat match type of E1 with
           | (if ?b then _ else _) = _ => destruct b eqn:?
           end; try discriminate; injection E1 as <-; lia.
  - repeat match type of E2 with
           | (if ?b then _ else _) = _ => destruct b eqn:?
           end; try discriminate; injection E2 as <-; lia.
Qed.

Lemma hex2_second_not_space (c1 c2 : ascii) (n : Z) :
  hex2 c1 c2 = Some n -> Py.isspace c2 = false.
Proof.
  unfold hex2. intros H. pose proof (hex_not_space_all c2) as Hs.
  unfold hex_not_space in Hs.
  destruct (hex c1); [|discriminate]. simpl in H.
  destruct (hex c2); [|discriminate].
  apply negb_true_iff in Hs. exact Hs.
Qed.

Lemma rstrip_last (s : string) (c : ascii) :
  Py.last s = Some c -> Py.isspace c = false -> Py.rstrip s = s.
Proof.
  intros Hl Hc. induction s as [|a s IH]; [reflexivity|].
  destruct s as [|a' s'].
  - simpl in Hl. injection Hl as ->. simpl. rewrite Hc. reflexivity.
  - change (Py.last (String a (String a' s'))) with (Py.last (String a' s')) in Hl.
    specialize (IH Hl).
    change (Py.rstrip (String a (String a' s')))
      with (match Py.rstrip (String a' s') with
            | EmptyString => if Py.isspace a then EmptyString else String a EmptyString
            | r => String a r
            end).
    rewrite IH. reflexivity.
Qed.

Lemma color_parse_rgb (r1 r2 g1 g2 b1 b2 : ascii) (r g b : Z) :
  hex2 r1 r2 = Some r -> hex2 g1 g2 = Some g -> hex2 b1 b2 = Some b ->
  Color.parse (rgb_string r1 r2 g1 g2 b1 b2) = Ok (Color.mk r g b 0).
Proof.
  intros Hr Hg Hb. unfold Color.parse, Py.strip, rgb_string, str2.
  cbn [Py.lstrip].
  change (Py.isspace "#") with false. cbv iota.
  erewrite rstrip_last;
    [|reflexivity|exact (hex2_second_not_space _ _ _ Hb)].
  cbv beta iota zeta delta
    [String.length Nat.eqb negb andb Py.slice String.substring Nat.sub].
  change (String r1 (String r2 "")) with (str2 r1 r2).
  change (String g1 (String g2 "")) with (str2 g1 g2).
  change (String b1 (String b2 "")) with (str2 b1 b2).
  rewrite (int16_hex2 _ _ _ Hr), (int16_hex2 _ _ _ Hg), (int16_hex2 _ _ _ Hb).
  cbn -[Color.is_valid].
  pose proof (hex2_range _ _ _ Hr). pose proof (hex2_range _ _ _ Hg).
  pose proof (hex2_range _ _ _ Hb).
  assert (E : Color.is_valid (Color.mk r g b 0) = true).
  { unfold Color.is_valid. cbn [Color.red Color.green Color.blue Color.alpha].
    repeat (apply andb_true_intro; split); apply Z.leb_le; lia. }
  rewrite E. reflexivity.
Qed.

Lemma color_is_valid_range (r g b a : Z) :
  0 <= r <= 255 -> 0 <= g <= 255 -> 0 <= b <= 255 -> 0 <= a <= 255 ->
  Color.is_valid (Color.mk r g b a) = true.
Proof.
  intros. unfold Color.is_valid.
  cbn [Color.red Color.green Color.blue Color.alpha].
  repeat (apply andb_true_intro; split); apply Z.leb_le; lia.
Qed.

Lemma color_parse_rgba (r1 r2 g1 g2 b1 b2 a1 a2 : ascii) (r g b a : Z) :
  hex2 r1 r2 = Some r -> hex2 g1 g2 = Some g -> hex2 b1 b2 = Some b ->
  hex2 a1 a2 = Some a ->
  Color.parse (rgba_string r1 r2 g1 g2 b1 b2 a1 a2) = Ok (Color.mk r g b a).
Proof.
  intros Hr Hg Hb Ha. unfold Color.parse, Py.strip, rgba_string, str2.
  cbn [Py.lstrip].
  change (Py.isspace "#") with false. cbv iota.
  erewrite rstrip_last;
    [|reflexivity|exact (hex2_second_not_space _ _ _ Ha)].
  cbv beta iota zeta delta
    [String.length Nat.eqb negb andb Py.slice String.substring Nat.sub].
  change (String r1 (String r2 "")) with (str2 r1 r2).
  change (String g1 (String g2 "")) with (str2 g1 g2).
  change (String b1 (String b2 "")) with (str2 b1 b2).
  change (String a1 (String a2 "")) with (str2 a1 a2).
  rewrite (int16_hex2 _ _ _ Hr), (int16_hex2 _ _ _ Hg), (int16_hex2 _ _ _ Hb),
    (int16_hex2 _ _ _ Ha).
  cbn -[Color.is_valid].
  rewrite color_is_valid_range by eauto using hex2_range.
  reflexivity.
Qed.

Lemma color_parse_wrong_length (value : string) :
  wrong_length value -> Color.parse value = Raise (ValueError value).
Proof.
  unfold wrong_length, Color.parse. intros H.
  destruct (Py.strip value) as [|c v]; [reflexivity|].
  destruct c as [[] [] [] [] [] [] [] []]; try reflexivity.
  destruct H as [H6 H8].
  apply Nat.eqb_neq in H6, H8. rewrite H6, H8. reflexivity.
Qed.

Lemma color_parse_in_range (value : string) (c : Color.t) :
  Color.parse value = Ok c ->
  0 <= Color.red c <= 255 /\ 0 <= Color.green c <= 255 /\
  0 <= Color.blue c <= 255 /\ 0 <= Color.alpha c <= 255.
Proof.
  unfold Color.parse. intros H.
  destruct (Py.strip value) as [|ch v]; [discriminate|].
  destruct ch as [[] [] [] [] [] [] [] []]; try discriminate.
  destruct (negb _ && negb _); [discriminate|].
  repeat (apply bind_ok in H; destruct H as [? [_ H]]).
  destruct (Color.is_valid _) eqn:E; [|discriminate].
  injection H as <-. unfold Color.is_valid in E.
  cbn [Color.red Color.green Color.blue Color.alpha] in *.
  repeat (apply andb_prop in E; destruct E as [E ?]).
  repeat match goal with H : (_ <=? _) = true |- _ => apply Z.leb_le in H end.
  lia.
Qed.

(** C8.  The colour parser maps [#RRGGBB] to the colour of these channels
    with alpha 0, and [#RRGGBBAA] to alpha [int(AA, 16)]; a value of the wrong
    length is rejected, every accepted colour has its four channels within
    0..255, and the constants [black()] and [white()] have alpha 255. *)
Theorem color_parse_alpha_asymmetry :
  (forall r1 r2 g1 g2 b1 b2 r g b,
      hex2 r1 r2 = Some r -> hex2 g1 g2 = Some g -> hex2 b1 b2 = Some b ->
      Color.parse (rgb_string r1 r2 g1 g2 b1 b2) = Ok (Color.mk r g b 0))
  /\ (forall r1 r2 g1 g2 b1 b2 a1 a2 r g b a,
      hex2 r1 r2 = Some r -> hex2 g1 g2 = Some g -> hex2 b1 b2 = Some b ->
      hex2 a1 a2 = Some a ->
      Py.int 16 (str2 a1 a2) = Ok a
      /\ Color.parse (rgba_string r1 r2 g1 g2 b1 b2 a1 a2) = Ok (Color.mk r g b a))
  /\ (forall value, wrong_length value ->
      Color.parse value = Raise (ValueError value))
  /\ (forall value c, Color.parse value = Ok c ->
      0 <= Color.red c <= 255 /\ 0 <= Color.green c <= 255 /\
      0 <= Color.blue c <= 255 /\ 0 <= Color.alpha c <= 255)
  /\ Color.alpha Color.black = 255 /\ Color.alpha Color.white = 255.
Proof.
  split; [exact color_parse_rgb|].
  split; [intros; split; [apply int16_hex2; assumption|apply color_parse_rgba; assumption]|].
  split; [exact color_parse_wrong_length|].
  split; [exact color_parse_in_range|].
  split; reflexivity.
Qed.

(** ** The identifier registry *)

Lemma add_id_present (ctx : Context.t) (id : string) :
  id ∈ Context.ids ctx ->
  Context.add_id ctx id = Raise (ParseError ("Non unique identifier: " ++ id)).
Proof. intros H. unfold Context.add_id. rewrite bool_decide_eq_true_2; done. Qed.

Lemma add_id_absent (ctx : Context.t) (id : string) :
  id ∉ Context.ids ctx ->
  Context.add_id ctx id = Ok (Context.set_ids ({[ id ]} ∪ Context.ids ctx) ctx).
Proof. intros H. unfold Context.add_id. rewrite bool_decide_eq_false_2; done. Qed.

Lemma add_id_ok (ctx ctx' : Context.t) (id : string) :
  Context.add_id ctx id = Ok ctx' ->
  (id ∉ Context.ids ctx) /\ ctx' = Context.set_ids ({[ id ]} ∪ Context.ids ctx) ctx.
Proof.
  unfold Context.add_id. case_bool_decide; [discriminate|].
  intros [= <-]. done.
Qed.

(** ** Padding *)

Lemma padding_parse_empty `{pf : !PyFloat} (value : string) :
  split_value value = [] -> Padding.parse value = Raise (ValueError value).
Proof. intros H. unfold Padding.parse. rewrite H. reflexivity. Qed.

Lemma padding_parse_one `{pf : !PyFloat} (value v0 : string) (a : float) :
  split_value value = [v0] -> Unit.parse Unit.PERCENT v0 None = Ok a ->
  Padding.parse value = Ok (Padding.mk a a a a).
Proof.
  intros H H0. unfold Padding.parse. rewrite H.
  cbn -[Unit.parse]. rewrite H0. reflexivity.
Qed.

Lemma padding_parse_two `{pf : !PyFloat} (value v0 v1 : string) (a b : float) :
  split_value value = [v0; v1] ->
  Unit.parse Unit.PERCENT v0 None = Ok a -> Unit.parse Unit.PERCENT v1 None = Ok b ->
  Padding.parse value = Ok (Padding.mk a b a b).
Proof.
  intros H H0 H1. unfold Padding.parse. rewrite H.
  cbn -[Unit.parse]. rewrite H0. cbn -[Unit.parse]. rewrite H1. reflexivity.
Qed.

Lemma padding_parse_three `{pf : !PyFloat} (value v0 v1 v2 : string) (a b c : float) :
  split_value value = [v0; v1; v2] ->
  Unit.parse Unit.PERCENT v0 None = Ok a -> Unit.parse Unit.PERCENT v1 None = Ok b ->
  Unit.parse Unit.PERCENT v2 None = Ok c ->
  Padding.parse value = Ok (Padding.mk a b c b).
Proof.
  intros H H0 H1 H2. unfold Padding.parse. rewrite H.
  cbn -[Unit.parse]. rewrite H0. cbn -[Unit.parse]. rewrite H1.
  cbn -[Unit.parse]. rewrite H2. reflexivity.
Qed.

(** More than three values are rejected, whatever they are. *)
Lemma padding_parse_more_than_three `{pf : !PyFloat} (value : string) :
  (3 < List.length (split_value value))%nat ->
  Padding.parse value = Raise (ValueError value).
Proof.
  intros H. unfold Padding.parse.
  apply Nat.ltb_lt in H. rewrite H, orb_true_r. reflexivity.
Qed.

(** C9.  On the four values [1% 2% 3% 4%] the padding parser raises
    [ValueError]: the guard on the number of values rejects the list before
    the loop, whose last case would set the start side, is entered. *)
Theorem padding_parse_four_values_rejected `{pf : !PyFloat} :
  split_value "1% 2% 3% 4%" = ["1%"; "2%"; "3%"; "4%"]
  /\ Padding.parse "1% 2% 3% 4%" = Raise (ValueError "1% 2% 3% 4%").
Proof.
  split; [reflexivity|].
  apply padding_parse_more_than_three. vm_compute. lia.
Qed.

(** ** Merging a style declaration *)

Lemma merge_field_other {A B : Type} (proj : ResolvedStyle.t -> B)
    (truthy : A -> bool) (o : option A) (set : A -> ResolvedStyle.t -> ResolvedStyle.t)
    (s : ResolvedStyle.t) :
  (forall v s', proj (set v s') = proj s') ->
  proj (ResolvedStyle.merge_field truthy o set s) = proj s.
Proof.
  intros Hset. unfold ResolvedStyle.merge_field.
  destruct (get_truthy truthy o); [apply Hset | reflexivity].
Qed.

Lemma merge_field_own {A : Type} (proj : ResolvedStyle.t -> A)
    (truthy : A -> bool) (o : option A) (set : A -> ResolvedStyle.t -> ResolvedStyle.t)
    (s : ResolvedStyle.t) :
  (forall v s', proj (set v s') = v) ->
  proj (ResolvedStyle.merge_field truthy o set s)
  = match get_truthy truthy o with Some v => v | None => proj s end.
Proof.
  intros Hset. unfold ResolvedStyle.merge_field.
  destruct (get_truthy truthy o); [apply Hset | reflexivity].
Qed.

(** The record after the twelve plain keys, before the four keys that set
    the mask. *)
Ltac merge_cases p :=
  unfold ResolvedStyle.merge_properties;
  destruct (StyleProperties.line_height p);
  destruct (StyleProperties.text_outline p);
  destruct (get_truthy Py.float_truthy (StyleProperties.font_size p));
  destruct (get_truthy Py.float_truthy (StyleProperties.line_padding p));
  cbn [fst snd
       ResolvedStyle.set_line_height ResolvedStyle.set_text_outline
       ResolvedStyle.set_font_size ResolvedStyle.set_line_padding
       ResolvedStyle.background_color ResolvedStyle.color
       ResolvedStyle.unicode_bidi ResolvedStyle.font_size
       ResolvedStyle.fill_line_gap ResolvedStyle.font_family
       ResolvedStyle.line_padding].

Ltac through_fields :=
  repeat (rewrite merge_field_other by (intros; reflexivity)).

Lemma merge_background_color (s : ResolvedStyle.t) (p : StyleProperties.t) :
  ResolvedStyle.background_color (fst (ResolvedStyle.merge_properties s p))
  = match StyleProperties.background_color p with
    | Some v => v
    | None => ResolvedStyle.background_color s
    end.
Proof.
  merge_cases p; through_fields;
    (rewrite merge_field_own by (intros; reflexivity)); through_fields;
    destruct (StyleProperties.background_color p); reflexivity.
Qed.

Lemma merge_color (s : ResolvedStyle.t) (p : StyleProperties.t) :
  ResolvedStyle.color (fst (ResolvedStyle.merge_properties s p))
  = match StyleProperties.color p with
    | Some v => v
    | None => ResolvedStyle.color s
    end.
Proof.
  merge_cases p; through_fields;
    (rewrite merge_field_own by (intros; reflexivity)); through_fields;
    destruct (StyleProperties.color p); reflexivity.
Qed.

Lemma merge_unicode_bidi (s : ResolvedStyle.t) (p : StyleProperties.t) :
  ResolvedStyle.unicode_bidi (fst (ResolvedStyle.merge_properties s p))
  = match StyleProperties.unicode_bidi p with
    | Some v => v
    | None => ResolvedStyle.unicode_bidi s
    end.
Proof.
  merge_cases p; through_fields;
    (rewrite merge_field_own by (intros; reflexivity)); through_fields;
    destruct (StyleProperties.unicode_bidi p); reflexivity.
Qed.

Lemma merge_fill_line_gap (s : ResolvedStyle.t) (p : StyleProperties.t) :
  ResolvedStyle.fill_line_gap (fst (ResolvedStyle.merge_properties s p))
  = match StyleProperties.fill_line_gap p with
    | Some true => true
    | _ => ResolvedStyle.fill_line_gap s
    end.
Proof.
  merge_cases p; through_fields;
    (rewrite merge_field_own by (intros; reflexivity)); through_fields;
    destruct (StyleProperties.fill_line_gap p) as [[]|]; reflexivity.
Qed.

Lemma merge_font_family (s : ResolvedStyle.t) (p : StyleProperties.t) :
  ResolvedStyle.font_family (fst (ResolvedStyle.merge_properties s p))
  = match StyleProperties.font_family p with
    | Some (x :: xs) => x :: xs
    | _ => ResolvedStyle.font_family s
    end.
Proof.
  merge_cases p; through_fields;
    (rewrite merge_field_own by (intros; reflexivity)); through_fields;
    destruct (StyleProperties.font_family p) as [[]|]; reflexivity.
Qed.

Lemma merge_font_size (s : ResolvedStyle.t) (p : StyleProperties.t) :
  ResolvedStyle.font_size (fst (ResolvedStyle.merge_properties s p))
  = match get_truthy Py.float_truthy (StyleProperties.font_size p) with
    | Some v => v
    | None => ResolvedStyle.font_size s
    end.
Proof.
  unfold ResolvedStyle.merge_properties;
  destruct (StyleProperties.line_height p);
  destruct (StyleProperties.text_outline p);
  destruct (get_truthy Py.float_truthy (StyleProperties.font_size p));
  destruct (get_truthy Py.float_truthy (StyleProperties.line_padding p));
  cbn [fst snd
       ResolvedStyle.set_line_height ResolvedStyle.set_text_outline
       ResolvedStyle.set_font_size ResolvedStyle.set_line_padding
       ResolvedStyle.font_size];
  through_fields; reflexivity.
Qed.

Lemma merge_line_padding (s : ResolvedStyle.t) (p : StyleProperties.t) :
  ResolvedStyle.line_padding (fst (ResolvedStyle.merge_properties s p))
  = match get_truthy Py.float_truthy (StyleProperties.line_padding p) with
    | Some v => v
    | None => ResolvedStyle.line_padding s
    end.
Proof.
  unfold ResolvedStyle.merge_properties;
  destruct (StyleProperties.line_height p);
  destruct (StyleProperties.text_outline p);
  destruct (get_truthy Py.float_truthy (StyleProperties.font_size p));
  destruct (get_truthy Py.float_truthy (StyleProperties.line_padding p));
  cbn [fst snd
       ResolvedStyle.set_line_height ResolvedStyle.set_text_outline
       ResolvedStyle.set_font_size ResolvedStyle.set_line_padding
       ResolvedStyle.line_padding];
  through_fields; reflexivity.
Qed.

(** The font-size bit of the mask is set exactly when the declared font size
    is merged. *)
Lemma merge_mask_font_size (s : ResolvedStyle.t) (p : StyleProperties.t) :
  ResolvedStyle.bit_set (snd (ResolvedStyle.merge_properties s p))
    COMPUTE_FONT_SIZE_BIT
  = match get_truthy Py.float_truthy (StyleProperties.font_size p) with
    | Some _ => true
    | None => false
    end.
Proof.
  unfold ResolvedStyle.merge_properties;
  destruct (StyleProperties.line_height p);
  destruct (StyleProperties.text_outline p);
  destruct (get_truthy Py.float_truthy (StyleProperties.font_size p));
  destruct (get_truthy Py.float_truthy (StyleProperties.line_padding p));
  reflexivity.
Qed.

(** C4.  A declared value that is false as a condition does not overwrite the
    accumulator: merging a declaration of [fillLineGap] false, of a zero font
    size, of a zero line padding or of an empty font-family list returns the
    accumulator unchanged with an empty mask.  In [doc_fill_line_gap] the
    paragraph references a style that declares [fillLineGap] true and then one
    that declares it false, and resolves to true. *)
Theorem merge_properties_skips_false_values (s : ResolvedStyle.t) :
  ResolvedStyle.merge_properties s
    (StyleProperties.put_fill_line_gap (Some false) StyleProperties.empty) = (s, 0)
  /\ ResolvedStyle.merge_properties s
       (StyleProperties.put_font_size (Some 0%float) StyleProperties.empty) = (s, 0)
  /\ ResolvedStyle.merge_properties s
       (StyleProperties.put_line_padding (Some 0%float) StyleProperties.empty) = (s, 0)
  /\ ResolvedStyle.merge_properties s
       (StyleProperties.put_font_family (Some []) StyleProperties.empty) = (s, 0)
  /\ (Paragraph.fill_line_gap <$>
        match @parse decimal_float doc_fill_line_gap with
        | Ok d => doc_paragraphs d
        | Raise _ => []
        end) = [true].
Proof.
  repeat split; reflexivity.
Qed.

(** ** The unit-computation step *)

Lemma compute_ok_fields (s s' : ResolvedStyle.t) (mask : Z) (parent : option float)
    (cr : CellResolution.t) :
  ResolvedStyle.compute s mask parent cr = Ok s' ->
  ResolvedStyle.background_color s' = ResolvedStyle.background_color s
  /\ ResolvedStyle.color s' = ResolvedStyle.color s
  /\ ResolvedStyle.unicode_bidi s' = ResolvedStyle.unicode_bidi s.
Proof.
  unfold ResolvedStyle.compute. intros H.
  apply bind_ok in H. destruct H as [s1 [H1 H]].
  apply bind_ok in H. destruct H as [s2 [H2 H]].
  injection H as <-.
  assert (E1 : ResolvedStyle.background_color s1 = ResolvedStyle.background_color s
               /\ ResolvedStyle.color s1 = ResolvedStyle.color s
               /\ ResolvedStyle.unicode_bidi s1 = ResolvedStyle.unicode_bidi s).
  { destruct (ResolvedStyle.bit_set mask COMPUTE_FONT_SIZE_BIT).
    - destruct parent.
      + injection H1 as <-. auto.
      + apply bind_ok in H1. destruct H1 as [rows [_ H1]]. injection H1 as <-. auto.
    - injection H1 as <-. auto. }
  destruct E1 as (Eb & Ec & Eu). rewrite <- Eb, <- Ec, <- Eu. clear Eb Ec Eu H1.
  match type of H2 with
  | (if ?c then _ else _) = _ => destruct c
  end.
  - apply bind_ok in H2. destruct H2 as [cols [_ H2]]. injection H2 as <-.
    destruct (_ || _), (_ || _);
      repeat match goal with
             | |- context [match ?o with Some _ => _ | None => _ end] => destruct o
             end; auto.
  - injection H2 as <-.
    destruct (_ || _), (_ || _);
      repeat match goal with
             | |- context [match ?o with Some _ => _ | None => _ end] => destruct o
             end; auto.
Qed.

Lemma compute_font_size (s s' : ResolvedStyle.t) (mask : Z) (parent : float)
    (cr : CellResolution.t) :
  ResolvedStyle.compute s mask (Some parent) cr = Ok s' ->
  ResolvedStyle.font_size s'
  = if ResolvedStyle.bit_set mask COMPUTE_FONT_SIZE_BIT
    then (ResolvedStyle.font_size s * parent)%float
    else ResolvedStyle.font_size s.
Proof.
  unfold ResolvedStyle.compute. intros H.
  apply bind_ok in H. destruct H as [s1 [H1 H]].
  apply bind_ok in H. destruct H as [s2 [H2 H]].
  injection H as <-.
  assert (E1 : ResolvedStyle.font_size s1
               = if ResolvedStyle.bit_set mask COMPUTE_FONT_SIZE_BIT
                 then (ResolvedStyle.font_size s * parent)%float
                 else ResolvedStyle.font_size s).
  { destruct (ResolvedStyle.bit_set mask COMPUTE_FONT_SIZE_BIT);
      injection H1 as <-; reflexivity. }
  rewrite <- E1. clear E1 H1.
  match type of H2 with
  | (if ?c then _ else _) = _ => destruct c
  end.
  - apply bind_ok in H2. destruct H2 as [cols [_ H2]]. injection H2 as <-.
    destruct (_ || _), (_ || _);
      repeat match goal with
             | |- context [match ?o with Some _ => _ | None => _ end] => destruct o
             end; reflexivity.
  - injection H2 as <-.
    destruct (_ || _), (_ || _);
      repeat match goal with
             | |- context [match ?o with Some _ => _ | None => _ end] => destruct o
             end; reflexivity.
Qed.

(** ** The cascade resolver *)

Lemma enumerate_from_app {A : Type} (i : Z) (xs ys : list A) :
  enumerate_from i (xs ++ ys)%list
  = (enumerate_from i xs ++ enumerate_from (i + Z.of_nat (List.length xs)) ys)%list.
Proof.
  revert i. induction xs as [|x xs IH]; intros i; simpl.
  - f_equal. lia.
  - f_equal. rewrite IH. do 2 f_equal. lia.
Qed.

Lemma resolve_scope_entry (ctx : Context.t) (index : Z) (value : string)
    (st : resolve_state) :
  resolve_scope ctx (index, value) st
  = for_each (resolve_id ctx) (Py.split " " value) (scope_entry index st).
Proof. reflexivity. Qed.

(** The resolver on a stack that ends with the scope [value]. *)
Lemma resolve_style_snoc (ctx : Context.t) (outer : list string) (value : string) :
  _resolve_style (outer ++ [value])%list ctx
  = (st ← resolve_upto ctx outer (Py.split " " value); Ok (fst st)).
Proof.
  unfold _resolve_style, resolve_upto, enumerate.
  destruct (resolve_seed ctx) as [st0|e]; [|reflexivity]. simpl.
  rewrite enumerate_from_app, for_each_app.
  destruct (for_each (resolve_scope ctx) (enumerate_from 0 outer) st0) as [st1|e];
    [|reflexivity].
  simpl. destruct (for_each _ _ _); reflexivity.
Qed.

(** One identifier: the three plain properties and the font size. *)
Lemma resolve_id_ok (ctx : Context.t) (id : string) (st st' : resolve_state) :
  resolve_id ctx id st = Ok st' ->
  (id = "" /\ st' = st)
  \/ (id <> "" /\ exists p,
        Context.styles ctx !! id = Some p
        /\ ResolvedStyle.background_color (fst st')
           = match StyleProperties.background_color p with
             | Some v => v | None => ResolvedStyle.background_color (fst st) end
        /\ ResolvedStyle.color (fst st')
           = match StyleProperties.color p with
             | Some v => v | None => ResolvedStyle.color (fst st) end
        /\ ResolvedStyle.unicode_bidi (fst st')
           = match StyleProperties.unicode_bidi p with
             | Some v => v | None => ResolvedStyle.unicode_bidi (fst st) end
        /\ ResolvedStyle.font_size (fst st')
           = match get_truthy Py.float_truthy (StyleProperties.font_size p) with
             | Some v => (v * snd st)%float
             | None => ResolvedStyle.font_size (fst st) end
        /\ snd st' = ResolvedStyle.font_size (fst st')).
Proof.
  unfold resolve_id. destruct id as [|c id]; simpl.
  - intros [= <-]. left. auto.
  - intros H. right. split; [discriminate|].
    destruct (Context.styles ctx !! String c id) as [p|]; [|discriminate].
    exists p. split; [reflexivity|].
    destruct (ResolvedStyle.merge_properties (fst st) p) as [rs mask] eqn:Em.
    apply bind_ok in H. destruct H as [rs' [Hc H]]. injection H as <-.
    pose proof (compute_ok_fields _ _ _ _ _ Hc) as (Eb & Ec & Eu).
    pose proof (compute_font_size _ _ _ _ _ Hc) as Ef.
    pose proof (merge_background_color (fst st) p) as Mb.
    pose proof (merge_color (fst st) p) as Mc.
    pose proof (merge_unicode_bidi (fst st) p) as Mu.
    pose proof (merge_font_size (fst st) p) as Mf.
    pose proof (merge_mask_font_size (fst st) p) as Mm.
    rewrite Em in Mb, Mc, Mu, Mf, Mm. simpl in Mb, Mc, Mu, Mf, Mm.
    simpl. rewrite Eb, Ec, Eu, Ef, Mb, Mc, Mu, Mm, Mf.
    destruct (get_truthy Py.float_truthy (StyleProperties.font_size p)); auto.
Qed.

Lemma none_in_cons {A : Type} (ctx : Context.t) (id : string) (ids : list string)
    (key : StyleProperties.t -> option A) :
  none_in ctx (id :: ids) key ->
  (forall p, Context.styles ctx !! id = Some p -> key p = None)
  /\ none_in ctx ids key.
Proof.
  intros H. split.
  - intros p Hp. apply (H id p); [left; reflexivity | exact Hp].
  - intros i p Hi Hp. apply (H i p); [right; exact Hi | exact Hp].
Qed.

(** The identifiers of a scope that declare nothing for a property leave it
    as it was at the entry of the scope. *)
Lemma resolve_ids_keep (ctx : Context.t) (ids : list string) (st st' : resolve_state) :
  for_each (resolve_id ctx) ids st = Ok st' ->
  (none_in ctx ids StyleProperties.background_color ->
   ResolvedStyle.background_color (fst st') = ResolvedStyle.background_color (fst st))
  /\ (none_in ctx ids StyleProperties.color ->
      ResolvedStyle.color (fst st') = ResolvedStyle.color (fst st))
  /\ (none_in ctx ids StyleProperties.unicode_bidi ->
      ResolvedStyle.unicode_bidi (fst st') = ResolvedStyle.unicode_bidi (fst st))
  /\ (none_in ctx ids StyleProperties.font_size ->
      ResolvedStyle.font_size (fst st') = ResolvedStyle.font_size (fst st)).
Proof.
  revert st. induction ids as [|id ids IH]; intros st H.
  - injection H as <-. auto.
  - simpl in H. apply bind_ok in H. destruct H as [st1 [H1 H]].
    specialize (IH _ H). destruct IH as (Ib & Ic & Iu & If).
    apply resolve_id_ok in H1.
    destruct H1 as [[_ ->]|[_ (p & Hp & Eb & Ec & Eu & Ef & _)]].
    + repeat split; intros Hn; apply none_in_cons in Hn; destruct Hn as [_ Hn]; auto.
    + repeat split; intros Hn; apply none_in_cons in Hn; destruct Hn as [Hn1 Hn];
        specialize (Hn1 p Hp).
      * rewrite (Ib Hn), Eb, Hn1. reflexivity.
      * rewrite (Ic Hn), Ec, Hn1. reflexivity.
      * rewrite (Iu Hn), Eu, Hn1. reflexivity.
      * rewrite (If Hn), Ef, Hn1. reflexivity.
Qed.


Lemma scope_entry_font_size (index : Z) (st : resolve_state) :
  ResolvedStyle.font_size (fst (scope_entry index st)) = ResolvedStyle.font_size (fst st)
  /\ ResolvedStyle.color (fst (scope_entry index st)) = ResolvedStyle.color (fst st)
  /\ snd (scope_entry index st) = snd st.
Proof. unfold scope_entry. destruct (negb _); auto. Qed.

Lemma scope_entry_reset (index : Z) (st : resolve_state) :
  index <> 0 ->
  ResolvedStyle.background_color (fst (scope_entry index st)) = Color.transparent
  /\ ResolvedStyle.unicode_bidi (fst (scope_entry index st)) = UnicodeBidi.NORMAL.
Proof.
  intros H. unfold scope_entry. apply Z.eqb_neq in H. rewrite H. auto.
Qed.


Lemma resolve_seed_basis (ctx : Context.t) (st : resolve_state) :
  resolve_seed ctx = Ok st -> snd st = ResolvedStyle.font_size (fst st).
Proof.
  unfold resolve_seed. intros H. apply bind_ok in H.
  destruct H as [rs [_ H]]. injection H as <-. reflexivity.
Qed.


(** C3.  In a resolution over a stack of at least two scopes, an inner scope
    whose styles declare no background colour resolves it to transparent, one
    whose styles declare no bidi mode resolves it to normal, whatever the
    outer scopes set; an inner scope whose styles declare no colour keeps
    the colour that the outer scopes resolve to. *)
Theorem non_inheriting_reset (ctx : Context.t) (outer : list string)
    (inner : string) (r : ResolvedStyle.t) :
  outer <> [] ->
  _resolve_style (outer ++ [inner])%list ctx = Ok r ->
  (declares_none ctx inner StyleProperties.background_color ->
   ResolvedStyle.background_color r = Color.transparent)
  /\ (declares_none ctx inner StyleProperties.unicode_bidi ->
      ResolvedStyle.unicode_bidi r = UnicodeBidi.NORMAL)
  /\ (declares_none ctx inner StyleProperties.color ->
      exists r0, _resolve_style outer ctx = Ok r0
        /\ ResolvedStyle.color r = ResolvedStyle.color r0).
Proof.
  intros Hne H. rewrite resolve_style_snoc in H.
  apply bind_ok in H. destruct H as [st [H Hr]]. injection Hr as <-.
  assert (Hidx : Z.of_nat (List.length outer) <> 0)
    by (destruct outer; [congruence | simpl; lia]).
  unfold resolve_upto in H.
  apply bind_ok in H. destruct H as [st0 [H0 H]].
  apply bind_ok in H. destruct H as [st1 [H1 H]].
  destruct (resolve_ids_keep _ _ _ _ H) as (Kb & Kc & Ku & _).
  destruct (scope_entry_reset _ st1 Hidx) as [Rb Ru].
  destruct (scope_entry_font_size (Z.of_nat (List.length outer)) st1) as (_ & Rc & _).
  split; [|split].
  - intros Hn. rewrite (Kb Hn). exact Rb.
  - intros Hn. rewrite (Ku Hn). exact Ru.
  - intros Hn. exists (fst st1). split.
    + unfold _resolve_style. rewrite H0. simpl. rewrite H1. reflexivity.
    + rewrite (Kc Hn). exact Rc.
Qed.

Lemma non_inheriting_reset_witness :
  ResolvedStyle.background_color cascade_result = Color.transparent
  /\ ResolvedStyle.unicode_bidi cascade_result = UnicodeBidi.NORMAL
  /\ exists r0, _resolve_style ["outer"] cascade_ctx = Ok r0
       /\ ResolvedStyle.color cascade_result = ResolvedStyle.color r0.
Proof.
  assert (Hne : ["outer"] <> []) by discriminate.
  assert (H : _resolve_style (["outer"] ++ ["inner"])%list cascade_ctx
              = Ok cascade_result) by (vm_compute; reflexivity).
  assert (Hn : forall (A : Type) (key : StyleProperties.t -> option A),
             key (StyleProperties.put_font_style (Some FontStyle.ITALIC)
                    StyleProperties.empty) = None ->
             declares_none cascade_ctx "inner" key).
  { intros A key Hk id p Hin Hp. simpl in Hin. destruct Hin as [<-|[]].
    vm_compute in Hp. injection Hp as <-. exact Hk. }
  destruct (non_inheriting_reset cascade_ctx ["outer"] "inner" cascade_result Hne H)
    as (Hb & Hu & Hc).
  split; [apply Hb, Hn; reflexivity|].
  split; [apply Hu, Hn; reflexivity|].
  apply Hc, Hn; reflexivity.
Defined.






(** ** Regions *)

Lemma lookup_none_has_attribute (key : string) (attrib : list (string * string)) :
  ET.lookup key attrib = None -> has_attribute key attrib = false.
Proof.
  induction attrib as [|[k v] attrib IH]; simpl; [reflexivity|].
  destruct (String.eqb k key); [discriminate|]. exact IH.
Qed.

Lemma parse_region_attribute_flags `{pf : !PyFloat} (nv : string * string)
    (st st' : region_state) :
  parse_region_attribute nv st = Ok st' ->
  rs_origin_parsed st' = rs_origin_parsed st || String.eqb (fst nv) ORIGIN_ATTR
  /\ rs_extent_parsed st' = rs_extent_parsed st || String.eqb (fst nv) EXTENT_ATTR.
Proof.
  destruct nv as [name value]. unfold parse_region_attribute. cbn [fst].
  destruct (String.eqb name ORIGIN_ATTR) eqn:Eo.
  { apply String.eqb_eq in Eo. subst name. intros H.
    apply bind_ok in H. destruct H as [v [_ H]]. injection H as <-.
    cbn [rs_origin_parsed rs_extent_parsed].
    rewrite orb_true_r.
    change (String.eqb ORIGIN_ATTR EXTENT_ATTR) with false.
    rewrite orb_false_r. auto. }
  destruct (String.eqb name EXTENT_ATTR) eqn:Ee.
  { intros H. apply bind_ok in H. destruct H as [v [_ H]]. injection H as <-.
    cbn [rs_origin_parsed rs_extent_parsed].
    rewrite orb_true_r, orb_false_r. auto. }
  rewrite !orb_false_r.
  repeat match goal with
         | |- (if ?c then _ else _) = _ -> _ => destruct c
         end; intros H;
    try (apply bind_ok in H; destruct H as [v [_ H]]);
    injection H as <-; auto.
Qed.

Lemma region_attributes_flags `{pf : !PyFloat} (attrib : list (string * string))
    (st st' : region_state) :
  for_each parse_region_attribute attrib st = Ok st' ->
  rs_origin_parsed st' = rs_origin_parsed st || has_attribute ORIGIN_ATTR attrib
  /\ rs_extent_parsed st' = rs_extent_parsed st || has_attribute EXTENT_ATTR attrib.
Proof.
  revert st. induction attrib as [|nv attrib IH]; intros st H.
  - injection H as <-. simpl. rewrite !orb_false_r. auto.
  - cbn [for_each] in H. apply bind_ok in H. destruct H as [st1 [H1 H]].
    apply parse_region_attribute_flags in H1. destruct H1 as [Eo Ee].
    apply IH in H. destruct H as [-> ->]. rewrite Eo, Ee.
    unfold has_attribute. cbn [existsb]. rewrite !orb_assoc. auto.
Qed.

(** A region element without an origin or without an extent is rejected, and
    with the missing-attribute error once its identifier and its attributes
    are accepted. *)
Lemma parse_region_missing `{pf : !PyFloat} (region : Element) (ctx : Context.t) :
  ET.tag region = REGION_ELEM ->
  ET.get region ORIGIN_ATTR = None \/ ET.get region EXTENT_ATTR = None ->
  exists e, parse_region region ctx = Raise e
    /\ (forall id ctx1 st,
          _parse_id region true = Ok id -> Context.add_id ctx id = Ok ctx1 ->
          for_each parse_region_attribute (ET.items region) region_state_init = Ok st ->
          e = ParseError "Missing `origin` attribute"
          \/ e = ParseError "Missing `extent` attribute").
Proof.
  intros Ht Hmiss. unfold parse_region. rewrite Ht.
  change (negb (String.eqb REGION_ELEM REGION_ELEM)) with false. cbv iota.
  destruct (_parse_id region true) as [id|e] eqn:Ei.
  2: { exists e. split; [reflexivity|]. intros ? ? ? [=]. }
  cbn [mbind result_bind].
  destruct (Context.add_id ctx id) as [ctx1|e] eqn:Ec.
  2: { exists e. split; [reflexivity|]. intros ? ? ? [= <-]. congruence. }
  fold region_state_init.
  destruct (for_each parse_region_attribute (ET.items region) region_state_init)
    as [st|e] eqn:Ea.
  2: { exists e. split; [reflexivity|]. intros ? ? ? _ _ [=]. }
  cbn [mbind result_bind].
  apply region_attributes_flags in Ea. destruct Ea as [Eo Ee].
  cbn [rs_origin_parsed rs_extent_parsed region_state_init orb] in Eo, Ee.
  destruct (rs_origin_parsed st) eqn:Fo; cbn [negb].
  - destruct (rs_extent_parsed st) eqn:Fe; cbn [negb].
    + exfalso. destruct Hmiss as [Hm|Hm];
        apply lookup_none_has_attribute in Hm; unfold ET.get in *; congruence.
    + eexists. split; [reflexivity|]. auto.
  - eexists. split; [reflexivity|]. auto.
Qed.

Lemma last_and_count_from (elems : list Element) (acc : option Element * Z) :
  snd (List.fold_left (fun acc elem => (Some elem, snd acc + 1)) elems acc)
  = snd acc + Z.of_nat (List.length elems).
Proof.
  revert acc. induction elems as [|x elems IH]; intros acc.
  - simpl. lia.
  - cbn [List.fold_left]. rewrite IH. cbn [snd List.length]. lia.
Qed.

(** The element that [functools.reduce] returns is any of the elements, when
    there are not several of them. *)
Lemma last_and_count_in (elems : list Element) (h : Element) :
  In h elems ->
  (1 <? snd (last_and_count elems)) = true
  \/ last_and_count elems = (Some h, 1).
Proof.
  intros Hin. destruct elems as [|x [|y elems]].
  - destruct Hin.
  - right. destruct Hin as [->|[]]. reflexivity.
  - left. unfold last_and_count. rewrite last_and_count_from.
    cbn [snd List.length]. apply Z.ltb_lt. lia.
Qed.

Lemma parse_regions_missing `{pf : !PyFloat} (layout region : Element) :
  In region (ET.children layout) -> ET.tag region = REGION_ELEM ->
  ET.get region ORIGIN_ATTR = None \/ ET.get region EXTENT_ATTR = None ->
  forall ctx, is_ok (_parse_regions layout ctx) = false.
Proof.
  intros Hin Ht Hm. unfold _parse_regions.
  apply (for_each_raises _ region); [exact Hin|].
  intros ctx. destruct (parse_region_missing region ctx Ht Hm) as (e & -> & _).
  reflexivity.
Qed.

Lemma parse_head_child_missing `{pf : !PyFloat} (layout region : Element) :
  ET.tag layout = LAYOUT_ELEM ->
  In region (ET.children layout) -> ET.tag region = REGION_ELEM ->
  ET.get region ORIGIN_ATTR = None \/ ET.get region EXTENT_ATTR = None ->
  forall st, is_ok (parse_head_child layout st) = false.
Proof.
  intros Hl Hin Ht Hm st. unfold parse_head_child. rewrite Hl.
  change (String.eqb LAYOUT_ELEM STYLING_ELEM) with false.
  change (String.eqb LAYOUT_ELEM LAYOUT_ELEM) with true. cbv iota.
  destruct (negb (hs_layout_count st =? 0)); [reflexivity|].
  pose proof (parse_regions_missing layout region Hin Ht Hm (hs_ctx st)) as H.
  destruct (_parse_regions layout (hs_ctx st)); [discriminate | reflexivity].
Qed.

Lemma parse_head_missing `{pf : !PyFloat} (root head layout region : Element) :
  In head (ET.iterfind root HEAD_ELEM) ->
  In layout (ET.children head) -> ET.tag layout = LAYOUT_ELEM ->
  In region (ET.children layout) -> ET.tag region = REGION_ELEM ->
  ET.get region ORIGIN_ATTR = None \/ ET.get region EXTENT_ATTR = None ->
  forall ctx, is_ok (_parse_head root ctx) = false.
Proof.
  intros Hh Hl Htl Hr Htr Hm ctx. unfold _parse_head.
  destruct (last_and_count_in _ _ Hh) as [Hc|Hc].
  - destruct (last_and_count (ET.iterfind root HEAD_ELEM)) as [[h|] count];
      [|reflexivity].
    cbn [snd] in Hc. rewrite Hc. reflexivity.
  - rewrite Hc. change (1 <? 1) with false. cbv iota.
    pose proof (for_each_raises parse_head_child layout (ET.children head) Hl
                  (parse_head_child_missing layout region Htl Hr Htr Hm)
                  (mk_head_state 0 0 ctx)) as H.
    destruct (for_each parse_head_child (ET.children head) (mk_head_state 0 0 ctx));
      [discriminate | reflexivity].
Qed.

Lemma parse_fails_with_head `{pf : !PyFloat} (root : Element) :
  (forall ctx, is_ok (_parse_head root ctx) = false) -> is_ok (parse root) = false.
Proof.
  intros H. unfold parse.
  destruct (negb _); [reflexivity|].
  destruct (ET.get root TIME_BASE_ATTR); [|reflexivity].
  destruct (negb _); [reflexivity|].
  repeat match goal with
         | |- is_ok (mbind _ ?m) = false =>
             lazymatch m with
             | _parse_head _ _ => fail
             | _ => destruct m; cbn [mbind result_bind]; [|reflexivity]
             end
         end.
  match goal with
  | |- is_ok (mbind _ (_parse_head root ?c)) = false =>
      specialize (H c); destruct (_parse_head root c); [discriminate | reflexivity]
  end.
Qed.

(** C10.  A region element that lacks the origin attribute or the extent
    attribute makes the whole parse fail; the region itself is rejected with
    the missing-attribute error as soon as its identifier and its present
    attributes are accepted, although [Region()] has a default origin and a
    default extent. *)
Theorem region_requires_origin_and_extent `{pf : !PyFloat}
    (root head layout region : Element) :
  In head (ET.iterfind root HEAD_ELEM) ->
  In layout (ET.children head) -> ET.tag layout = LAYOUT_ELEM ->
  In region (ET.children layout) -> ET.tag region = REGION_ELEM ->
  ET.get region ORIGIN_ATTR = None \/ ET.get region EXTENT_ATTR = None ->
  is_ok (parse root) = false
  /\ (forall ctx, exists e, parse_region region ctx = Raise e
        /\ (forall id ctx1 st,
              _parse_id region true = Ok id -> Context.add_id ctx id = Ok ctx1 ->
              for_each parse_region_attribute (ET.items region) region_state_init
              = Ok st ->
              e = ParseError "Missing `origin` attribute"
              \/ e = ParseError "Missing `extent` attribute"))
  /\ Region.origin Region.default = Origin.default
  /\ Region.extent Region.default = Extent.default.
Proof.
  intros Hh Hl Htl Hr Htr Hm. split; [|split; [|split; reflexivity]].
  - apply parse_fails_with_head.
    exact (parse_head_missing root head layout region Hh Hl Htl Hr Htr Hm).
  - intros ctx. exact (parse_region_missing region ctx Htr Hm).
Qed.

Lemma region_requires_origin_and_extent_witness :
  is_ok (@parse decimal_float doc_region_without_extent) = false
  /\ @parse_region decimal_float region_without_extent
       (Context.init Document.default)
     = Raise (ParseError "Missing `extent` attribute").
Proof.
  assert (Hh : In head_without_extent
                 (ET.iterfind doc_region_without_extent HEAD_ELEM))
    by (left; reflexivity).
  assert (Hl : In layout_without_extent (ET.children head_without_extent))
    by (right; left; reflexivity).
  assert (Htl : ET.tag layout_without_extent = LAYOUT_ELEM) by reflexivity.
  assert (Hr : In region_without_extent (ET.children layout_without_extent))
    by (left; reflexivity).
  assert (Htr : ET.tag region_without_extent = REGION_ELEM) by reflexivity.
  assert (Hm : ET.get region_without_extent ORIGIN_ATTR = None
               \/ ET.get region_without_extent EXTENT_ATTR = None)
    by (right; reflexivity).
  destruct (@region_requires_origin_and_extent decimal_float
              doc_region_without_extent head_without_extent layout_without_extent
              region_without_extent Hh Hl Htl Hr Htr Hm) as (Hp & _ & _).
  split; [exact Hp | vm_compute; reflexivity].
Defined.

(** ** The walk below [body] *)

Lemma for_each_preserves {A S B : Type} (f : S -> B) (body : A -> S -> result S)
    (xs : list A) :
  (forall x s s', body x s = Ok s' -> f s' = f s) ->
  forall s s', for_each body xs s = Ok s' -> f s' = f s.
Proof.
  intros Hb. induction xs as [|x xs IH]; intros s s' H.
  - injection H as <-. reflexivity.
  - cbn [for_each] in H. apply bind_ok in H. destruct H as [s1 [H1 H]].
    rewrite (IH _ _ H). exact (Hb _ _ _ H1).
Qed.







Lemma list_last_snoc {A : Type} (xs : list A) (x : A) : list_last (xs ++ [x]) = Ok x.
Proof. unfold list_last. rewrite rev_unit. reflexivity. Qed.


Lemma ctx_divs_set (v : list Div.t) (ctx : Context.t) : ctx_divs (set_ctx_divs v ctx) = v.
Proof. reflexivity. Qed.






(** ** The region of a paragraph *)

Lemma lookup_region_ok (elem : Element) (ctx : Context.t) (idx : Z) (style : string) :
  lookup_region elem ctx = Ok (idx, style) ->
  if carries_region elem
  then Context.regions ctx !! Py.strip (ET.get_default elem "region" "")
       = Some (idx, style)
  else idx = -1 /\ style = "".
Proof.
  unfold lookup_region, carries_region.
  destruct (Py.str_truthy _).
  - destruct (Context.regions ctx !! _) as [[i s]|]; [|discriminate].
    intros [= -> ->]. reflexivity.
  - intros [= <- <-]. auto.
Qed.

(** The index that a paragraph gets: the one of exactly one of the two
    levels. *)
Lemma paragraph_region_spec (own parent : Z) :
  match paragraph_region own parent with
  | Ok idx => (own <> -1 /\ parent = -1 /\ idx = own)
              \/ (own = -1 /\ parent <> -1 /\ idx = parent)
  | Raise e => (own <> -1 /\ parent <> -1 /\ e = ParseError "Multiple regions")
               \/ (own = -1 /\ parent = -1
                   /\ e = ParseError "Missing `region` attribute")
  end.
Proof.
  unfold paragraph_region.
  destruct (Z.eqb_spec own (-1)), (Z.eqb_spec parent (-1)); cbn [negb andb];
    intuition auto.
Qed.

(** What a paragraph element that is accepted went through. *)
Lemma parse_paragraph_ok (parent : Z) (elem : Element) (stack : list string)
    (ctx : Context.t) (st' : walk_state) :
  ET.tag elem = P_ELEM ->
  parse_paragraph parent elem (stack, ctx) = Ok st' ->
  exists id ctx1 own style idx para ctx2 stack2 st3,
    _parse_id elem true = Ok id
    /\ Context.add_id ctx id = Ok ctx1
    /\ lookup_region elem ctx1 = Ok (own, style)
    /\ paragraph_region own parent = Ok idx
    /\ Paragraph.id para = id
    /\ Paragraph.region_index para = idx
    /\ append_paragraph para ctx1 = Ok ctx2
    /\ _parse_paragraph_content elem (stack2, ctx2) = Ok st3
    /\ snd st' = snd st3.
Proof.
  intros Ht. unfold parse_paragraph. rewrite Ht.
  change (negb (String.eqb P_ELEM P_ELEM)) with false. cbv iota. intros H.
  apply bind_ok in H. destruct H as [id [Hid H]].
  apply bind_ok in H. destruct H as [ctx1 [H1 H]].
  apply bind_ok in H. destruct H as [b [_ H]].
  apply bind_ok in H. destruct H as [e [_ H]].
  apply bind_ok in H. destruct H as [[own style] [Hl H]].
  apply bind_ok in H. destruct H as [idx [Hr H]].
  apply bind_ok in H. destruct H as [rs [_ H]].
  apply bind_ok in H. destruct H as [sp [_ H]].
  apply bind_ok in H. destruct H as [ctx2 [H2 H]].
  apply bind_ok in H. destruct H as [[stack3 ctx3] [H3 H]].
  apply bind_ok in H. destruct H as [stack4 [_ H]].
  apply bind_ok in H. destruct H as [stack5 [_ H]].
  injection H as <-.
  exists id, ctx1, own, style, idx.
  match type of H2 with append_paragraph ?p _ = _ => exists p end.
  exists ctx2. eexists. exists (stack3, ctx3).
  repeat split; try assumption. exact H3.
Qed.










(** ** Exceptions that reach the caller *)

(** C5.  On a document whose style declares the colour [red], the parse
    raises the [ValueError] of the colour parser, not a [ParseError]; the
    timecode parser is the one place that turns the [ValueError] of its
    scanner into a [ParseError] that names the attribute and the value. *)
Theorem value_error_escapes `{pf : !PyFloat} :
  parse doc_bad_color = Raise (ValueError "red")
  /\ is_parse_error (parse doc_bad_color) = false
  /\ _parse_timecode "begin" "1:2" =
     Raise (ParseError "Invalid `begin` attribute value: 1:2").
Proof. repeat split; vm_compute; reflexivity. Qed.

Lemma registers_nil (ids : gset string) : registers [] ids ids.
Proof.
  split; [constructor|]. split; [intros i Hi; inversion Hi|].
  simpl. set_solver.
Qed.

Lemma registers_app (l1 l2 : list string) (s s1 s2 : gset string) :
  registers l1 s s1 -> registers l2 s1 s2 -> registers (l1 ++ l2)%list s s2.
Proof.
  intros (N1 & F1 & ->) (N2 & F2 & ->). split; [|split].
  - apply NoDup_app. split; [exact N1|]. split; [|exact N2].
    intros x H1 H2. apply (F2 x H2). set_solver.
  - intros i Hi. apply elem_of_app in Hi. destruct Hi as [Hi|Hi]; [auto|].
    specialize (F2 i Hi). set_solver.
  - rewrite list_to_set_app_L. set_solver.
Qed.

Lemma registers_add_id (ctx ctx' : Context.t) (id : string) :
  Context.add_id ctx id = Ok ctx' ->
  registers [id] (Context.ids ctx) (Context.ids ctx').
Proof.
  intros H. apply add_id_ok in H. destruct H as [Hn ->].
  split; [apply NoDup_singleton|]. split.
  - intros i Hi. apply list_elem_of_singleton in Hi. subst. exact Hn.
  - simpl. set_solver.
Qed.

Lemma registers_eq (l : list string) (s s1 s1' : gset string) :
  s1' = s1 -> registers l s s1 -> registers l s s1'.
Proof. intros ->. auto. Qed.

Lemma for_each_registers {A S : Type} (get : S -> gset string)
    (ids_of : A -> list string) (body : A -> S -> result S) (xs : list A) :
  (forall x s s', body x s = Ok s' -> registers (ids_of x) (get s) (get s')) ->
  forall s s', for_each body xs s = Ok s' ->
    registers (List.flat_map ids_of xs) (get s) (get s').
Proof.
  intros Hb. induction xs as [|x xs IH]; intros s s' H.
  - injection H as <-. apply registers_nil.
  - cbn [for_each] in H. apply bind_ok in H. destruct H as [s1 [H1 H]].
    cbn [List.flat_map]. eapply registers_app; [exact (Hb _ _ _ H1)|].
    exact (IH _ _ H).
Qed.

Lemma append_content_ids (c : content) (ctx ctx' : Context.t) :
  append_content c ctx = Ok ctx' -> Context.ids ctx' = Context.ids ctx.
Proof.
  unfold append_content. intros H.
  apply bind_ok in H. destruct H as [d [_ H]].
  apply bind_ok in H. destruct H as [p [_ H]].
  injection H as <-. reflexivity.
Qed.

Lemma append_paragraph_ids (para : Paragraph.t) (ctx ctx' : Context.t) :
  append_paragraph para ctx = Ok ctx' -> Context.ids ctx' = Context.ids ctx.
Proof.
  unfold append_paragraph. intros H.
  apply bind_ok in H. destruct H as [d [_ H]].
  injection H as <-. reflexivity.
Qed.

(** The registration of an optional identifier:
    [if id := _parse_id(elem, required=False): ctx.add_id(id)]. *)
Lemma registers_optional (elem : Element) (id : string) (ctx ctx' : Context.t) :
  _parse_id elem false = Ok id ->
  (if Py.str_truthy id then Context.add_id ctx id else Ok ctx) = Ok ctx' ->
  registers (optional_id elem) (Context.ids ctx) (Context.ids ctx').
Proof.
  intros Hid H. unfold optional_id. rewrite Hid.
  destruct (Py.str_truthy id).
  - exact (registers_add_id _ _ _ H).
  - injection H as <-. apply registers_nil.
Qed.

Lemma registers_required (elem : Element) (id : string) (ctx ctx' : Context.t) :
  _parse_id elem true = Ok id -> Context.add_id ctx id = Ok ctx' ->
  registers (required_id elem) (Context.ids ctx) (Context.ids ctx').
Proof.
  intros Hid H. unfold required_id. rewrite Hid. exact (registers_add_id _ _ _ H).
Qed.

Lemma parse_content_registers (elem : Element) (st st' : walk_state) :
  parse_content elem st = Ok st' ->
  registers (span_ids elem) (Context.ids (snd st)) (Context.ids (snd st')).
Proof.
  destruct st as [stack ctx]. unfold parse_content, span_ids. cbn [snd].
  destruct (String.eqb (ET.tag elem) BR_ELEM) eqn:Eb.
  { apply String.eqb_eq in Eb. rewrite Eb.
    change (String.eqb BR_ELEM SPAN_ELEM) with false. cbv iota.
    intros H. apply bind_ok in H. destruct H as [c [Hc H]]. injection H as <-.
    cbn [snd]. rewrite (append_content_ids _ _ _ Hc). apply registers_nil. }
  destruct (String.eqb (ET.tag elem) SPAN_ELEM); cbn [negb];
    [|intros [= <-]; apply registers_nil].
  intros H.
  apply bind_ok in H. destruct H as [id [Hid H]].
  apply bind_ok in H. destruct H as [ctx1 [H1 H]].
  apply bind_ok in H. destruct H as [rs [_ H]].
  apply bind_ok in H. destruct H as [sp [_ H]].
  apply bind_ok in H. destruct H as [ctx2 [H2 H]].
  apply bind_ok in H. destruct H as [stack' [_ H]].
  injection H as <-. cbn [snd].
  rewrite (append_content_ids _ _ _ H2).
  exact (registers_optional _ _ _ _ Hid H1).
Qed.

Lemma parse_paragraph_registers (parent : Z) (elem : Element) (st st' : walk_state) :
  parse_paragraph parent elem st = Ok st' ->
  registers (paragraph_ids elem) (Context.ids (snd st)) (Context.ids (snd st')).
Proof.
  destruct st as [stack ctx]. intros H. unfold paragraph_ids.
  destruct (String.eqb (ET.tag elem) P_ELEM) eqn:Et.
  - apply String.eqb_eq in Et.
    destruct (parse_paragraph_ok _ _ _ _ _ Et H)
      as (id & ctx1 & own & style & idx & para & ctx2 & stack2 & st3
          & Hid & H1 & _ & _ & _ & _ & H2 & H3 & E).
    rewrite E. cbn [snd].
    eapply registers_app; [exact (registers_required _ _ _ _ Hid H1)|].
    rewrite <- (append_paragraph_ids _ _ _ H2).
    unfold _parse_paragraph_content in H3.
    apply bind_ok in H3. destruct H3 as [q [_ H3]].
    exact (for_each_registers (fun s => Context.ids (snd s)) span_ids _ _
             parse_content_registers _ _ H3).
  - unfold parse_paragraph in H. rewrite Et in H. injection H as <-.
    apply registers_nil.
Qed.

Lemma parse_division_registers (elem : Element) (st st' : walk_state) :
  parse_division elem st = Ok st' ->
  registers (division_ids elem) (Context.ids (snd st)) (Context.ids (snd st')).
Proof.
  destruct st as [stack ctx]. unfold parse_division, division_ids. cbn [snd].
  destruct (String.eqb (ET.tag elem) DIV_ELEM); cbn [negb];
    [|intros [= <-]; apply registers_nil].
  intros H.
  apply bind_ok in H. destruct H as [id [Hid H]].
  apply bind_ok in H. destruct H as [ctx1 [H1 H]].
  apply bind_ok in H. destruct H as [[ri rstyle] [_ H]].
  apply bind_ok in H. destruct H as [rs [_ H]].
  apply bind_ok in H. destruct H as [[stack3 ctx3] [H3 H]].
  apply bind_ok in H. destruct H as [stack4 [_ H]].
  apply bind_ok in H. destruct H as [stack5 [_ H]].
  injection H as <-. cbn [snd].
  eapply registers_app; [exact (registers_optional _ _ _ _ Hid H1)|].
  unfold _parse_para in H3.
  apply bind_ok in H3. destruct H3 as [ps [_ H3]].
  apply bind_ok in H3. destruct H3 as [st4 [H4 H3]].
  apply bind_ok in H3. destruct H3 as [ps' [_ H3]].
  destruct (list_truthy ps'); [|discriminate]. injection H3 as ->.
  exact (for_each_registers (fun s => Context.ids (snd s)) paragraph_ids _ _
           (parse_paragraph_registers ri) _ _ H4).
Qed.

Lemma parse_body_registers (root : Element) (ctx ctx' : Context.t) :
  _parse_body root ctx = Ok ctx' ->
  registers
    (List.flat_map (fun b => List.flat_map division_ids (ET.children b))
       (ET.iterfind root BODY_ELEM))
    (Context.ids ctx) (Context.ids ctx').
Proof.
  unfold _parse_body.
  destruct (ET.iterfind root BODY_ELEM) as [|b [|b' bodies]] eqn:Eb.
  - discriminate.
  - cbn [last_and_count List.fold_left snd Z.add]. change (1 <? 0 + 1) with false.
    cbv iota. intros H.
    apply bind_ok in H. destruct H as [rs [_ H]].
    apply bind_ok in H. destruct H as [st [Hd H]]. injection H as <-.
    unfold _parse_div in Hd.
    apply bind_ok in Hd. destruct Hd as [st1 [H1 Hd]].
    destruct (list_truthy _); [|discriminate]. injection Hd as <-.
    cbn [List.flat_map]. rewrite app_nil_r.
    exact (for_each_registers (fun s => Context.ids (snd s)) division_ids _ _
             parse_division_registers _ _ H1).
  - destruct (last_and_count_in (b :: b' :: bodies) b (or_introl eq_refl)) as [Hc|Hc].
    + destruct (last_and_count (b :: b' :: bodies)) as [[h|] count];
        [|discriminate].
      cbn [snd] in Hc. rewrite Hc. discriminate.
    + exfalso. unfold last_and_count in Hc.
      apply (f_equal snd) in Hc. rewrite last_and_count_from in Hc.
      cbn [snd List.length] in Hc. lia.
Qed.

Lemma parse_style_registers `{pf : !PyFloat} (elem : Element) (ctx ctx' : Context.t) :
  parse_style elem ctx = Ok ctx' ->
  registers (style_ids elem) (Context.ids ctx) (Context.ids ctx').
Proof.
  unfold parse_style, style_ids.
  destruct (String.eqb (ET.tag elem) STYLE_ELEM); cbn [negb];
    [|intros [= <-]; apply registers_nil].
  intros H.
  apply bind_ok in H. destruct H as [id [Hid H]].
  apply bind_ok in H. destruct H as [ctx1 [H1 H]].
  apply bind_ok in H. destruct H as [props [_ H]].
  injection H as <-. exact (registers_required _ _ _ _ Hid H1).
Qed.

Lemma parse_region_registers `{pf : !PyFloat} (elem : Element) (ctx ctx' : Context.t) :
  parse_region elem ctx = Ok ctx' ->
  registers (region_ids elem) (Context.ids ctx) (Context.ids ctx').
Proof.
  unfold parse_region, region_ids.
  destruct (String.eqb (ET.tag elem) REGION_ELEM); cbn [negb];
    [|intros [= <-]; apply registers_nil].
  intros H.
  apply bind_ok in H. destruct H as [id [Hid H]].
  apply bind_ok in H. destruct H as [ctx1 [H1 H]].
  apply bind_ok in H. destruct H as [st [_ H]].
  destruct (negb (rs_origin_parsed st)); [discriminate|].
  destruct (negb (rs_extent_parsed st)); [discriminate|].
  injection H as <-. exact (registers_required _ _ _ _ Hid H1).
Qed.

Lemma parse_head_child_registers `{pf : !PyFloat} (elem : Element)
    (st st' : head_state) :
  parse_head_child elem st = Ok st' ->
  registers (head_child_ids elem) (Context.ids (hs_ctx st)) (Context.ids (hs_ctx st')).
Proof.
  unfold parse_head_child, head_child_ids.
  destruct (String.eqb (ET.tag elem) STYLING_ELEM).
  { destruct (negb _); [discriminate|]. intros H.
    apply bind_ok in H. destruct H as [ctx1 [H1 H]].
    destruct (dict_is_empty _); [discriminate|]. injection H as <-.
    exact (for_each_registers Context.ids style_ids _ _
             parse_style_registers _ _ H1). }
  destruct (String.eqb (ET.tag elem) LAYOUT_ELEM).
  { destruct (negb _); [discriminate|]. intros H.
    apply bind_ok in H. destruct H as [ctx1 [H1 H]].
    destruct (list_truthy _); [|discriminate]. injection H as <-.
    exact (for_each_registers Context.ids region_ids _ _
             parse_region_registers _ _ H1). }
  intros [= <-]. apply registers_nil.
Qed.

Lemma parse_head_registers `{pf : !PyFloat} (root : Element) (ctx ctx' : Context.t) :
  _parse_head root ctx = Ok ctx' ->
  registers
    (List.flat_map (fun h => List.flat_map head_child_ids (ET.children h))
       (ET.iterfind root HEAD_ELEM))
    (Context.ids ctx) (Context.ids ctx').
Proof.
  unfold _parse_head.
  destruct (ET.iterfind root HEAD_ELEM) as [|h [|h' heads]] eqn:Eh.
  - discriminate.
  - cbn [last_and_count List.fold_left snd Z.add]. change (1 <? 0 + 1) with false.
    cbv iota. intros H.
    apply bind_ok in H. destruct H as [st [Hs H]].
    destruct (hs_styling_count st =? 0); [discriminate|].
    destruct (hs_layout_count st =? 0); [discriminate|].
    injection H as <-. cbn [List.flat_map]. rewrite app_nil_r.
    exact (for_each_registers (fun s => Context.ids (hs_ctx s)) head_child_ids _ _
             parse_head_child_registers _ _ Hs).
  - destruct (last_and_count_in (h :: h' :: heads) h (or_introl eq_refl)) as [Hc|Hc].
    + destruct (last_and_count (h :: h' :: heads)) as [[x|] count];
        [|discriminate].
      cbn [snd] in Hc. rewrite Hc. discriminate.
    + exfalso. unfold last_and_count in Hc.
      apply (f_equal snd) in Hc. rewrite last_and_count_from in Hc.
      cbn [snd List.length] in Hc. lia.
Qed.

(** The identifiers of an accepted document are pairwise distinct, whatever
    the kinds of the elements that carry them. *)
Lemma parse_ids_distinct `{pf : !PyFloat} (root : Element) (doc : Document.t) :
  parse root = Ok doc -> NoDup (document_ids root).
Proof.
  unfold parse. intros H.
  destruct (negb _); [discriminate|].
  destruct (ET.get root TIME_BASE_ATTR); [|discriminate].
  destruct (negb _); [discriminate|].
  apply bind_ok in H. destruct H as [d1 [_ H]].
  apply bind_ok in H. destruct H as [d2 [_ H]].
  apply bind_ok in H. destruct H as [d3 [_ H]].
  apply bind_ok in H. destruct H as [d4 [_ H]].
  apply bind_ok in H. destruct H as [ctx1 [H1 H]].
  apply bind_ok in H. destruct H as [ctx2 [H2 H]].
  apply parse_head_registers in H1. apply parse_body_registers in H2.
  destruct (registers_app _ _ _ _ _ H1 H2) as [Hn _]. exact Hn.
Qed.

(** C7.  Registering an identifier that the registry holds raises the
    uniqueness error; a registration that succeeds is one of an identifier
    that the registry did not hold, and adds it; so the identifiers of the
    style, region, div, p and span elements of every accepted document are
    pairwise distinct, and a document that uses the identifier of a style
    again for a paragraph is rejected with the uniqueness error. *)
Theorem identifier_registry_unique `{pf : !PyFloat} :
  (forall ctx id, id ∈ Context.ids ctx ->
     Context.add_id ctx id = Raise (ParseError ("Non unique identifier: " ++ id)))
  /\ (forall ctx id ctx', Context.add_id ctx id = Ok ctx' ->
        (id ∉ Context.ids ctx) /\ Context.ids ctx' = {[ id ]} ∪ Context.ids ctx)
  /\ (forall root doc, parse root = Ok doc -> NoDup (document_ids root))
  /\ document_ids doc_reused_id = ["s1"; "r1"; "s1"]
  /\ @parse decimal_float doc_reused_id
     = Raise (ParseError "Non unique identifier: s1").
Proof.
  split; [exact add_id_present|].
  split.
  { intros ctx id ctx' H. apply add_id_ok in H. destruct H as [Hn ->]. auto. }
  split; [exact parse_ids_distinct|].
  split; vm_compute; reflexivity.
Qed.

(** ** Halving a binary64 value twice *)

Lemma shr_52 (m : positive) :
  SpecFloat.iter_pos shr_1 52 (rec0 (Zpos (4503599627370496 * m))) = rec0 (Zpos m).
Proof. reflexivity. Qed.

Lemma shr_53 (m : positive) :
  SpecFloat.iter_pos shr_1 53 (rec0 (Zpos (4503599627370496 * m))) = shr_1 (rec0 (Zpos m)).
Proof. reflexivity. Qed.

Lemma shr_54 (m : positive) :
  SpecFloat.iter_pos shr_1 54 (rec0 (Zpos (4503599627370496 * m)))
  = shr_1 (shr_1 (rec0 (Zpos m))).
Proof. reflexivity. Qed.

Lemma digits_scaled (m : positive) :
  Zdigits2 (Zpos (4503599627370496 * m)) = Zpos (digits2_pos m) + 52.
Proof.
  change (Zdigits2 (Zpos (4503599627370496 * m)))
    with (Zpos (Pos.iter Pos.succ (digits2_pos m) 52)).
  cbn [Pos.iter]. rewrite !Pos2Z.inj_succ. lia.
Qed.

Lemma fexp_eq (x : Z) : fexp prec emax x = Z.max (x - 53) (-1074).
Proof. reflexivity. Qed.

Lemma shr_fexp_noshift (M e : Z) :
  fexp prec emax (Zdigits2 M + e) - e <= 0 ->
  shr_fexp prec emax M e loc_Exact = (rec0 M, e).
Proof.
  intros H. unfold shr_fexp, shr.
  destruct (fexp prec emax (Zdigits2 M + e) - e); try reflexivity. lia.
Qed.

Lemma shr_fexp_scaled (m : positive) (E n : Z) :
  fexp prec emax (Zpos (digits2_pos m) + 52 + E) - E = n ->
  shr_fexp prec emax (Zpos (4503599627370496 * m)) E loc_Exact
  = shr (rec0 (Zpos (4503599627370496 * m))) E n.
Proof.
  intros H. unfold shr_fexp. rewrite digits_scaled, H. reflexivity.
Qed.

Lemma digits_succ (p : positive) :
  Zpos (digits2_pos (Pos.succ p)) <= Zpos (digits2_pos p) + 1.
Proof.
  induction p as [p IH|p IH|].
  - change (Pos.succ p~1) with (Pos.succ p)~0%positive.
    cbn [digits2_pos]. rewrite !Pos2Z.inj_succ. lia.
  - change (Pos.succ p~0) with p~1%positive.
    cbn [digits2_pos]. rewrite !Pos2Z.inj_succ. lia.
  - change (Pos.succ 1) with 2%positive. cbn. lia.
Qed.

Lemma digits_xO (p : positive) :
  Zpos (digits2_pos (xO p)) = Zpos (digits2_pos p) + 1.
Proof. cbn [digits2_pos]. rewrite Pos2Z.inj_succ. lia. Qed.

Lemma digits_xI (p : positive) :
  Zpos (digits2_pos (xI p)) = Zpos (digits2_pos p) + 1.
Proof. cbn [digits2_pos]. rewrite Pos2Z.inj_succ. lia. Qed.

Lemma digits_pos (p : positive) : 1 <= Zpos (digits2_pos p).
Proof. lia. Qed.

(** One more bit shifted out, then rounded: the digits do not grow. *)
Lemma digits_rne_1 (m : positive) :
  Zdigits2 (rne (shr_1 (rec0 (Zpos m)))) <= Zpos (digits2_pos m).
Proof.
  destruct m as [p|p|]; cbn [rec0 shr_1 rne shr_m shr_r shr_s orb loc_of_shr_record
                              round_nearest_even].
  - rewrite digits_xI. destruct (Z.even (Zpos p)).
    + cbn [Zdigits2]. lia.
    + change (Zpos p + 1) with (Zpos (p + 1)). rewrite Pos.add_1_r.
      cbn [Zdigits2]. pose proof (digits_succ p). lia.
  - rewrite digits_xO. cbn [Zdigits2]. lia.
  - cbn. lia.
Qed.

Lemma digits_rne_2 (m : positive) :
  Zdigits2 (rne (shr_1 (shr_1 (rec0 (Zpos m))))) <= Zpos (digits2_pos m).
Proof.
  destruct m as [[p|p|]|[p|p|]|];
    cbn [rec0 shr_1 rne shr_m shr_r shr_s orb loc_of_shr_record round_nearest_even];
    repeat (rewrite ?digits_xI, ?digits_xO);
    try (destruct (Z.even (Zpos p)));
    try change (Zpos p + 1) with (Zpos (p + 1)); rewrite ?Pos.add_1_r;
    cbn [Zdigits2]; try pose proof (digits_succ p);
    first [lia | vm_compute; congruence].
Qed.

(** Rounding twice by one bit is rounding once by two bits. *)
Lemma rne_twice (m : positive) :
  rne (shr_1 (rec0 (rne (shr_1 (rec0 (Zpos m))))))
  = rne (shr_1 (shr_1 (rec0 (Zpos m)))).
Proof.
  destruct m as [[p|p|]|[p|p|]|];
    cbn [rec0 shr_1 rne shr_m shr_r shr_s orb loc_of_shr_record round_nearest_even
         Z.even]; try reflexivity.
  - change (Zpos p~1 + 1) with (Zpos (Pos.succ p)~0).
    cbn [rec0 shr_1 rne shr_m shr_r shr_s orb loc_of_shr_record round_nearest_even].
    change (Zpos p + 1) with (Zpos (p + 1)). rewrite Pos.add_1_r. reflexivity.
Qed.

Lemma round_scaled_exact (s : bool) (m : positive) (E : Z) :
  Zpos (digits2_pos m) = 53 -> -1074 <= E + 52 <= 971 ->
  binary_round_aux prec emax s (Zpos (4503599627370496 * m)) E loc_Exact
  = S754_finite s m (E + 52).
Proof.
  intros Hd HE. unfold binary_round_aux.
  rewrite (shr_fexp_scaled m E 52) by (rewrite fexp_eq; lia).
  unfold shr. rewrite shr_52.
  cbn [rec0 shr_m shr_r shr_s loc_of_shr_record round_nearest_even].
  rewrite shr_fexp_noshift by (cbn [Zdigits2]; rewrite fexp_eq; lia).
  cbn [rec0 shr_m].
  replace (E + 52 <=? emax - prec) with true
    by (symmetry; apply Z.leb_le; change (emax - prec) with 971; lia).
  reflexivity.
Qed.

Lemma round_scaled_1 (s : bool) (m : positive) :
  Zpos (digits2_pos m) <= 53 ->
  binary_round_aux prec emax s (Zpos (4503599627370496 * m)) (-1127) loc_Exact
  = at_emin s (rne (shr_1 (rec0 (Zpos m)))).
Proof.
  intros Hd. unfold binary_round_aux.
  rewrite (shr_fexp_scaled m (-1127) 53) by (rewrite fexp_eq; lia).
  unfold shr. rewrite shr_53.
  change (-1127 + 53) with (-1074).
  fold (rne (shr_1 (rec0 (Zpos m)))).
  pose proof (digits_rne_1 m) as Hr.
  rewrite shr_fexp_noshift by (rewrite fexp_eq; lia).
  cbn [rec0 shr_m]. unfold at_emin.
  destruct (rne (shr_1 (rec0 (Zpos m)))); reflexivity.
Qed.

Lemma round_scaled_2 (s : bool) (m : positive) :
  Zpos (digits2_pos m) <= 53 ->
  binary_round_aux prec emax s (Zpos (4503599627370496 * m)) (-1128) loc_Exact
  = at_emin s (rne (shr_1 (shr_1 (rec0 (Zpos m))))).
Proof.
  intros Hd. unfold binary_round_aux.
  rewrite (shr_fexp_scaled m (-1128) 54) by (rewrite fexp_eq; lia).
  unfold shr. rewrite shr_54.
  change (-1128 + 54) with (-1074).
  fold (rne (shr_1 (shr_1 (rec0 (Zpos m))))).
  pose proof (digits_rne_2 m) as Hr.
  rewrite shr_fexp_noshift by (rewrite fexp_eq; lia).
  cbn [rec0 shr_m]. unfold at_emin.
  destruct (rne (shr_1 (shr_1 (rec0 (Zpos m))))); reflexivity.
Qed.

(** What validity says of a finite value. *)
Lemma bounded_cases (m : positive) (e : Z) :
  bounded prec emax m e = true ->
  e <= 971
  /\ ((Zpos (digits2_pos m) = 53 /\ -1074 <= e)
      \/ (Zpos (digits2_pos m) <= 53 /\ e = -1074)).
Proof.
  unfold bounded, canonical_mantissa. intros H.
  apply andb_prop in H. destruct H as [Hc He].
  apply Z.eqb_eq in Hc. apply Z.leb_le in He.
  change (emax - prec) with 971 in He. rewrite fexp_eq in Hc. lia.
Qed.

Lemma half_finite (s : bool) (m : positive) (e : Z) :
  bounded prec emax m e = true ->
  SF64mul sf_half (S754_finite s m e)
  = if e =? -1074 then at_emin s (rne (shr_1 (rec0 (Zpos m))))
    else S754_finite s m (e - 1).
Proof.
  intros Hb. apply bounded_cases in Hb. destruct Hb as [He Hc].
  unfold SF64mul, sf_half. cbn [SFmul xorb].
  destruct (Z.eqb_spec e (-1074)) as [->|Hne].
  - change (-53 + -1074) with (-1127). apply round_scaled_1. lia.
  - rewrite round_scaled_exact by lia. f_equal. lia.
Qed.

Lemma quarter_finite (s : bool) (m : positive) (e : Z) :
  bounded prec emax m e = true ->
  SF64mul sf_quarter (S754_finite s m e)
  = if e =? -1074 then at_emin s (rne (shr_1 (shr_1 (rec0 (Zpos m)))))
    else if e =? -1073 then at_emin s (rne (shr_1 (rec0 (Zpos m))))
    else S754_finite s m (e - 2).
Proof.
  intros Hb. apply bounded_cases in Hb. destruct Hb as [He Hc].
  unfold SF64mul, sf_quarter. cbn [SFmul xorb].
  destruct (Z.eqb_spec e (-1074)) as [->|Hne].
  - change (-54 + -1074) with (-1128). apply round_scaled_2. lia.
  - destruct (Z.eqb_spec e (-1073)) as [->|Hne'].
    + change (-54 + -1073) with (-1127). apply round_scaled_1. lia.
    + rewrite round_scaled_exact by lia. f_equal. lia.
Qed.

Lemma bounded_intro (m : positive) (e : Z) :
  e <= 971 ->
  (Zpos (digits2_pos m) = 53 /\ -1074 <= e)
  \/ (Zpos (digits2_pos m) <= 53 /\ e = -1074) ->
  bounded prec emax m e = true.
Proof.
  intros He Hc. unfold bounded, canonical_mantissa.
  apply andb_true_intro. split.
  - apply Z.eqb_eq. rewrite fexp_eq. lia.
  - apply Z.leb_le. change (emax - prec) with 971. exact He.
Qed.

Lemma rne_1_nonneg (m : positive) : 0 <= rne (shr_1 (rec0 (Zpos m))).
Proof.
  destruct m as [p|p|];
    cbn [rec0 shr_1 rne shr_m shr_r shr_s orb loc_of_shr_record round_nearest_even];
    try destruct (Z.even (Zpos p)); cbn; lia.
Qed.

Lemma sf_half_half (X : spec_float) :
  SpecFloat.valid_binary prec emax X = true ->
  SF64mul sf_half (SF64mul sf_half X) = SF64mul sf_quarter X.
Proof.
  destruct X as [s|s| |s m e]; try (intros _; destruct s; reflexivity);
    [intros _; reflexivity|].
  cbn [SpecFloat.valid_binary]. intros Hb.
  rewrite (half_finite s m e Hb), (quarter_finite s m e Hb).
  apply bounded_cases in Hb. destruct Hb as [He Hc].
  destruct (Z.eqb_spec e (-1074)) as [->|Hne].
  - pose proof (digits_rne_1 m) as Hd. pose proof (rne_1_nonneg m) as Hn.
    rewrite <- rne_twice.
    destruct (rne (shr_1 (rec0 (Zpos m)))) as [|m1|m1]; [destruct s; reflexivity| |lia].
    cbn [at_emin Zdigits2] in *.
    rewrite half_finite by (apply bounded_intro; lia).
    reflexivity.
  - destruct (Z.eqb_spec e (-1073)) as [->|Hne'].
    + change (-1073 - 1) with (-1074).
      rewrite half_finite by (apply bounded_intro; lia). reflexivity.
    + rewrite half_finite by (apply bounded_intro; lia).
      destruct (Z.eqb_spec (e - 1) (-1074)); [lia|]. f_equal. lia.
Qed.

(** Halving twice is quartering, on every binary64 value. *)
Lemma half_half_quarter (x : float) :
  (0.5 * (0.5 * x) = 0.25 * x)%float.
Proof.
  apply Prim2SF_inj. rewrite !mul_spec.
  change (Prim2SF 0.5) with sf_half. change (Prim2SF 0.25) with sf_quarter.
  apply sf_half_half. exact (Prim2SF_valid x).
Qed.

(** ** The style stack of the walk *)

Lemma push_pop (style : string) (d : list string) :
  when_truthy_r style deque.pop (when_truthy style (deque.append style) d) = Ok d.
Proof.
  unfold when_truthy_r, when_truthy.
  destruct (Py.str_truthy style); [|reflexivity].
  unfold deque.pop, deque.append.
  destruct (d ++ [style])%list eqn:E.
  - destruct d; discriminate.
  - rewrite <- E, removelast_last. reflexivity.
Qed.

Lemma pushleft_popleft (style : string) (d : list string) :
  when_truthy_r style deque.popleft (when_truthy style (deque.appendleft style) d)
  = Ok d.
Proof.
  unfold when_truthy_r, when_truthy. destruct (Py.str_truthy style); reflexivity.
Qed.

Lemma parse_content_stack (elem : Element) (st st' : walk_state) :
  parse_content elem st = Ok st' -> fst st' = fst st.
Proof.
  destruct st as [stack ctx]. unfold parse_content.
  destruct (String.eqb (ET.tag elem) BR_ELEM).
  { intros H. apply bind_ok in H. destruct H as [c [_ H]]. injection H as <-.
    reflexivity. }
  destruct (negb _); [intros [= <-]; reflexivity|].
  intros H.
  apply bind_ok in H. destruct H as [id [_ H]].
  apply bind_ok in H. destruct H as [ctx1 [_ H]].
  apply bind_ok in H. destruct H as [rs [_ H]].
  apply bind_ok in H. destruct H as [sp [_ H]].
  apply bind_ok in H. destruct H as [ctx2 [_ H]].
  apply bind_ok in H. destruct H as [stack' [Hs H]].
  injection H as <-. rewrite push_pop in Hs. injection Hs as <-. reflexivity.
Qed.

Lemma parse_paragraph_stack (idx : Z) (elem : Element) (st st' : walk_state) :
  parse_paragraph idx elem st = Ok st' -> fst st' = fst st.
Proof.
  destruct st as [stack ctx]. unfold parse_paragraph.
  destruct (negb _); [intros [= <-]; reflexivity|].
  intros H.
  apply bind_ok in H. destruct H as [id [_ H]].
  apply bind_ok in H. destruct H as [ctx1 [_ H]].
  apply bind_ok in H. destruct H as [b [_ H]].
  apply bind_ok in H. destruct H as [e [_ H]].
  apply bind_ok in H. destruct H as [[ri rstyle] [_ H]].
  apply bind_ok in H. destruct H as [ri' [_ H]].
  apply bind_ok in H. destruct H as [rs [_ H]].
  apply bind_ok in H. destruct H as [sp [_ H]].
  apply bind_ok in H. destruct H as [ctx2 [_ H]].
  apply bind_ok in H. destruct H as [[stack3 ctx3] [Hc H]].
  apply bind_ok in H. destruct H as [stack4 [H4 H]].
  apply bind_ok in H. destruct H as [stack5 [H5 H]].
  injection H as <-. cbn [fst].
  unfold _parse_paragraph_content in Hc.
  apply bind_ok in Hc. destruct Hc as [p [_ Hc]].
  apply (for_each_preserves fst _ _ parse_content_stack) in Hc.
  cbn [fst] in Hc. subst stack3.
  rewrite push_pop in H4. injection H4 as <-.
  rewrite pushleft_popleft in H5. injection H5 as <-. reflexivity.
Qed.

Lemma parse_division_stack (elem : Element) (st st' : walk_state) :
  parse_division elem st = Ok st' -> fst st' = fst st.
Proof.
  destruct st as [stack ctx]. unfold parse_division.
  destruct (negb _); [intros [= <-]; reflexivity|].
  intros H.
  apply bind_ok in H. destruct H as [id [_ H]].
  apply bind_ok in H. destruct H as [ctx1 [_ H]].
  apply bind_ok in H. destruct H as [[ri rstyle] [_ H]].
  apply bind_ok in H. destruct H as [rs [_ H]].
  apply bind_ok in H. destruct H as [[stack3 ctx3] [Hc H]].
  apply bind_ok in H. destruct H as [stack4 [H4 H]].
  apply bind_ok in H. destruct H as [stack5 [H5 H]].
  injection H as <-. cbn [fst].
  unfold _parse_para in Hc.
  apply bind_ok in Hc. destruct Hc as [ps0 [_ Hc]].
  apply bind_ok in Hc. destruct Hc as [st1 [Hc Hl]].
  apply bind_ok in Hl. destruct Hl as [ps [_ Hl]].
  destruct (list_truthy ps); [|discriminate]. injection Hl as ->.
  apply (for_each_preserves fst _ _ (parse_paragraph_stack ri)) in Hc.
  cbn [fst] in Hc. subst stack3.
  rewrite push_pop in H4. injection H4 as <-.
  rewrite pushleft_popleft in H5. injection H5 as <-. reflexivity.
Qed.

(** X1.  The walk below [body] leaves the deque of style references as it
    found it: when [_parse_div] returns, every reference that a division, a
    paragraph or a span pushed, at either end, was popped again. *)
Theorem walk_restores_style_stack (body : Element) (st st' : walk_state) :
  _parse_div body st = Ok st' -> fst st' = fst st.
Proof.
  unfold _parse_div. intros H.
  apply bind_ok in H. destruct H as [st1 [H1 H]].
  destruct (list_truthy _); [|discriminate]. injection H as <-.
  exact (for_each_preserves fst _ _ parse_division_stack _ _ H1).
Qed.

Lemma walk_restores_style_stack_witness :
  exists st',
    _parse_div (Elem BODY_ELEM [] None [styled_div]) (["s1"], styled_ctx) = Ok st'
    /\ fst st' = ["s1"].
Proof.
  eexists. split; [vm_compute; reflexivity|].
  apply (walk_restores_style_stack (Elem BODY_ELEM [] None [styled_div])
           (["s1"], styled_ctx)).
  vm_compute. reflexivity.
Defined.

(** ** Basis chaining over two scopes *)

(** The seed of the cascade: the font size of one cell row. *)
Lemma resolve_seed_font_size (ctx : Context.t) (st : resolve_state) (rf : float) :
  Py.float_of_int (CellResolution.rows (Document.cell_resolution (Context.document ctx)))
  = Ok rf ->
  resolve_seed ctx = Ok st ->
  ResolvedStyle.font_size (fst st) = (1 / rf)%float.
Proof.
  intros Hr H. unfold resolve_seed, ResolvedStyle.compute in H.
  change (ResolvedStyle.bit_set COMPUTE_ALL_MASK COMPUTE_FONT_SIZE_BIT) with true in H.
  change (ResolvedStyle.bit_set COMPUTE_ALL_MASK COMPUTE_LINE_PADDING_BIT) with true in H.
  unfold Py.float_div_int in H. rewrite Hr in H. cbn [mbind result_bind orb] in H.
  destruct (CellResolution.rows _ =? 0); [discriminate H|].
  cbn [mbind result_bind] in H.
  destruct (Py.float_of_int (CellResolution.columns _)) as [cf|e]; [|discriminate H].
  cbn [mbind result_bind] in H.
  destruct (CellResolution.columns _ =? 0); [discriminate H|].
  cbn [mbind result_bind] in H. injection H as <-. reflexivity.
Qed.

(** One scope that names one style. *)
Lemma resolve_single_id (ctx : Context.t) (index : Z) (value id : string)
    (p : StyleProperties.t) (f : float) (st st' : resolve_state) :
  Py.split " " value = [id] -> id <> "" ->
  Context.styles ctx !! id = Some p ->
  StyleProperties.font_size p = Some f -> Py.float_truthy f = true ->
  resolve_scope ctx (index, value) st = Ok st' ->
  ResolvedStyle.font_size (fst st') = (f * snd st)%float
  /\ snd st' = ResolvedStyle.font_size (fst st').
Proof.
  intros Hs Hid Hp Hf Ht H.
  rewrite resolve_scope_entry, Hs in H. cbn [for_each] in H.
  apply bind_ok in H. destruct H as [st1 [H1 H]]. injection H as <-.
  apply resolve_id_ok in H1.
  destruct H1 as [[E _]|[_ (p' & Hp' & _ & _ & _ & Ef & Eb)]]; [contradiction|].
  rewrite Hp in Hp'. injection Hp' as <-.
  rewrite Hf in Ef. cbn [get_truthy] in Ef. rewrite Ht in Ef.
  destruct (scope_entry_font_size index st) as (_ & _ & Es).
  rewrite Es in Ef. split; assumption.
Qed.

(** X2.  Basis chaining over two scopes.  When the outer scope names the one
    style [d], of font size [f1], and the inner scope names the one style
    [s], of font size [f2], both not zero, the inner scope resolves to [f2]
    times [f1] times the seed, the height of one cell row; for two
    declarations of 50% that is a quarter of a cell row. *)
Theorem two_scope_basis_chaining (ctx : Context.t) (outer inner d s : string)
    (pd ps : StyleProperties.t) (f1 f2 rf : float) (r : ResolvedStyle.t) :
  Py.split " " outer = [d] -> d <> "" ->
  Py.split " " inner = [s] -> s <> "" ->
  Context.styles ctx !! d = Some pd ->
  StyleProperties.font_size pd = Some f1 -> Py.float_truthy f1 = true ->
  Context.styles ctx !! s = Some ps ->
  StyleProperties.font_size ps = Some f2 -> Py.float_truthy f2 = true ->
  Py.float_of_int (CellResolution.rows (Document.cell_resolution (Context.document ctx)))
  = Ok rf ->
  _resolve_style [outer; inner] ctx = Ok r ->
  ResolvedStyle.font_size r = (f2 * (f1 * (1 / rf)))%float
  /\ (f1 = 0.5%float -> f2 = 0.5%float ->
      ResolvedStyle.font_size r = (0.25 * (1 / rf))%float).
Proof.
  intros Hd Hdn Hs Hsn Hpd Hfd Htd Hps Hfs Hts Hr H.
  assert (E : ResolvedStyle.font_size r = (f2 * (f1 * (1 / rf)))%float).
  { unfold _resolve_style, enumerate in H. cbn [enumerate_from for_each] in H.
    apply bind_ok in H. destruct H as [st0 [H0 H]].
    apply bind_ok in H. destruct H as [st2 [H H2]]. injection H2 as <-.
    apply bind_ok in H. destruct H as [st1 [H1 H]].
    apply bind_ok in H. destruct H as [st2' [H2 H]]. injection H as <-.
    destruct (resolve_single_id _ _ _ _ _ _ _ _ Hd Hdn Hpd Hfd Htd H1) as [E1 B1].
    destruct (resolve_single_id _ _ _ _ _ _ _ _ Hs Hsn Hps Hfs Hts H2) as [E2 _].
    rewrite E2, B1, E1, (resolve_seed_basis _ _ H0).
    rewrite (resolve_seed_font_size _ _ _ Hr H0). reflexivity. }
  split; [exact E|].
  intros -> ->. rewrite E. apply half_half_quarter.
Qed.

Lemma two_scope_basis_chaining_witness :
  exists r, _resolve_style ["s1"; "s2"] halves_ctx = Ok r
    /\ ResolvedStyle.font_size r = (0.25 * (1 / 15))%float.
Proof.
  eexists. split; [vm_compute; reflexivity|].
  refine (proj2 (two_scope_basis_chaining halves_ctx "s1" "s2" "s1" "s2"
                   (StyleProperties.put_font_size (Some 0.5%float) StyleProperties.empty)
                   (StyleProperties.put_font_size (Some 0.5%float) StyleProperties.empty)
                   0.5 0.5 15 _ _ _ _ _ _ _ _ _ _ _ _ _) _ _);
    first [reflexivity | discriminate | (vm_compute; reflexivity)].
Defined.

(** ** The unit-computation step, on every field *)

Lemma bit_unset (mask bit : Z) :
  Z.land mask COMPUTE_ALL_MASK = 0 -> Z.land COMPUTE_ALL_MASK bit = bit ->
  ResolvedStyle.bit_set mask bit = false.
Proof.
  intros H Hb. unfold ResolvedStyle.bit_set.
  rewrite <- Hb, Z.land_assoc, H. reflexivity.
Qed.

(** X3.  The unit-computation step writes the font size, the line height, the
    line padding and the text outline only: every other field of the record
    is as before, and with a mask that holds none of the four bits the
    record is returned as it is. *)
Theorem compute_keeps_plain_fields (s s' : ResolvedStyle.t) (mask : Z)
    (parent : option float) (cr : CellResolution.t) :
  ResolvedStyle.compute s mask parent cr = Ok s' ->
  plain_of s' = plain_of s
  /\ (Z.land mask COMPUTE_ALL_MASK = 0 -> s' = s).
Proof.
  intros H. split.
  - unfold ResolvedStyle.compute in H.
    apply bind_ok in H. destruct H as [s1 [H1 H]].
    apply bind_ok in H. destruct H as [s2 [H2 H]].
    injection H as <-.
    assert (E1 : plain_of s1 = plain_of s).
    { destruct (ResolvedStyle.bit_set mask COMPUTE_FONT_SIZE_BIT).
      - destruct parent.
        + injection H1 as <-. reflexivity.
        + apply bind_ok in H1. destruct H1 as [rows [_ H1]]. injection H1 as <-.
          reflexivity.
      - injection H1 as <-. reflexivity. }
    rewrite <- E1. clear E1 H1.
    match type of H2 with
    | (if ?c then _ else _) = _ => destruct c
    end.
    + apply bind_ok in H2. destruct H2 as [cols [_ H2]]. injection H2 as <-.
      destruct (_ || _), (_ || _);
        repeat match goal with
               | |- context [match ?o with Some _ => _ | None => _ end] => destruct o
               end; reflexivity.
    + injection H2 as <-.
      destruct (_ || _), (_ || _);
        repeat match goal with
               | |- context [match ?o with Some _ => _ | None => _ end] => destruct o
               end; reflexivity.
  - intros Hm. unfold ResolvedStyle.compute in H.
    rewrite !(bit_unset mask _ Hm) in H by reflexivity.
    cbn [mbind result_bind orb] in H. injection H as <-. reflexivity.
Qed.

Lemma compute_keeps_plain_fields_witness :
  exists s',
    ResolvedStyle.compute ResolvedStyle.default COMPUTE_ALL_MASK None
      CellResolution.default = Ok s'
    /\ plain_of s' = plain_of ResolvedStyle.default.
Proof.
  eexists. split; [vm_compute; reflexivity|].
  refine (proj1 (compute_keeps_plain_fields ResolvedStyle.default _ COMPUTE_ALL_MASK
                   None CellResolution.default _)).
  vm_compute. reflexivity.
Defined.

(** ** Timecodes *)

Lemma count_digits_split (s : string) :
  let n := Scanner.count_digits s in
  s = Py.slice 0 n s ++ Py.drop n s
  /\ all_decimal (Py.slice 0 n s) = true
  /\ String.length (Py.slice 0 n s) = n.
Proof.
  cbv zeta. unfold Py.slice. induction s as [|c s IH]; [repeat split|].
  cbn [Scanner.count_digits]. destruct (Py.is_ascii_decimal c) eqn:Ec.
  - destruct IH as (I1 & I2 & I3). rewrite Nat.sub_0_r in *.
    cbn [String.substring Py.drop String.append all_decimal String.length].
    rewrite Ec, I2, I3. repeat split. rewrite I1 at 1. reflexivity.
  - repeat split.
Qed.

Lemma scan_int_ok (self : Scanner.t) (num_digits : nat) (limit n : Z)
    (rest : Scanner.t) :
  Scanner.scan_int self num_digits limit = Ok (n, rest) ->
  exists ds, self = ds ++ rest
    /\ ds <> "" /\ all_decimal ds = true
    /\ (num_digits <> O -> String.length ds = num_digits)
    /\ Py.int 10 ds = Ok n
    /\ (0 < limit -> n <= limit).
Proof.
  unfold Scanner.scan_int. intros H.
  destruct (count_digits_split self) as (E1 & E2 & E3).
  destruct (Nat.eqb_spec (Scanner.count_digits self) 0) as [|Hn]; [discriminate H|].
  cbn [orb] in H.
  destruct (Nat.ltb_spec 0 num_digits) as [Hd|Hd];
    [destruct (Nat.eqb_spec (Scanner.count_digits self) num_digits) as [Hc|Hc];
       [|discriminate H] |];
    cbn [andb negb] in H;
    apply bind_ok in H; destruct H as [k [Hk H]];
    (destruct ((0 <? limit) && (limit <? k)) eqn:El; [discriminate H|]);
    injection H as <- <-;
    exists (Py.slice 0 (Scanner.count_digits self) self);
    (split; [exact E1|]);
    (split; [intros E0; rewrite E0 in E3; cbn in E3; congruence|]);
    (split; [exact E2|]);
    (split; [intros Hz; rewrite E3; lia|]);
    (split; [exact Hk|]);
    intros Hl; apply andb_false_iff in El; destruct El as [El|El];
    [apply Z.ltb_ge in El; lia | apply Z.ltb_ge in El; exact El
    |apply Z.ltb_ge in El; lia | apply Z.ltb_ge in El; exact El].
Qed.

Lemma scan_char_ok (self rest : Scanner.t) (c : ascii) :
  Scanner.scan_char self c = Ok rest -> self = String c rest.
Proof.
  unfold Scanner.scan_char. destruct self as [|c0 s]; [discriminate|].
  destruct (Ascii.eqb_spec c0 c) as [->|]; [|discriminate].
  intros [= <-]. reflexivity.
Qed.

Lemma string_app_nil_r (s : string) : s ++ "" = s.
Proof.
  induction s as [|c s IH]; [reflexivity|].
  change (String c s ++ "") with (String c (s ++ "")). f_equal. exact IH.
Qed.

(** X4.  The timecodes that [_parse_timecode] accepts: a run of decimal
    digits that is not empty, a colon, two digits of at most 59, a colon, two
    digits of at most 59, a point and three digits, with nothing before,
    between or after; the result is the sum of the four fields in seconds, in
    binary64 arithmetic. *)
Theorem parse_timecode_accepts (attr input : string) (secs : float) :
  _parse_timecode attr input = Ok secs ->
  exists h m s ms nh nm ns nms fh fm fs fms,
    input = h ++ ":" ++ m ++ ":" ++ s ++ "." ++ ms
    /\ (h <> "" /\ all_decimal h = true)
    /\ (all_decimal m = true /\ String.length m = 2%nat)
    /\ (all_decimal s = true /\ String.length s = 2%nat)
    /\ (all_decimal ms = true /\ String.length ms = 3%nat)
    /\ (Py.int 10 h = Ok nh /\ Py.int 10 m = Ok nm
        /\ Py.int 10 s = Ok ns /\ Py.int 10 ms = Ok nms)
    /\ (nm <= 59 /\ ns <= 59)
    /\ (Py.float_of_int nh = Ok fh /\ Py.float_of_int nm = Ok fm
        /\ Py.float_of_int ns = Ok fs /\ Py.float_of_int nms = Ok fms)
    /\ secs = (fh * 3600 + fm * 60 + fs + fms * 0.001)%float.
Proof.
  unfold _parse_timecode. intros H.
  destruct (timecode_body input) as [[secs' sc]|e] eqn:Hb;
    [|destruct e; discriminate H].
  destruct sc; [|discriminate H]. injection H as ->.
  unfold timecode_body in Hb.
  apply bind_ok in Hb. destruct Hb as [[nh sc1] [H1 Hb]].
  apply bind_ok in Hb. destruct Hb as [fh [F1 Hb]].
  apply bind_ok in Hb. destruct Hb as [sc2 [C1 Hb]].
  apply bind_ok in Hb. destruct Hb as [[nm sc3] [H2 Hb]].
  apply bind_ok in Hb. destruct Hb as [fm [F2 Hb]].
  apply bind_ok in Hb. destruct Hb as [sc4 [C2 Hb]].
  apply bind_ok in Hb. destruct Hb as [[ns sc5] [H3 Hb]].
  apply bind_ok in Hb. destruct Hb as [fs [F3 Hb]].
  apply bind_ok in Hb. destruct Hb as [sc6 [C3 Hb]].
  apply bind_ok in Hb. destruct Hb as [[nms sc7] [H4 Hb]].
  apply bind_ok in Hb. destruct Hb as [fms [F4 Hb]].
  injection Hb as <- ->.
  apply scan_int_ok in H1, H2, H3, H4.
  destruct H1 as (h & E1 & Hn1 & D1 & _ & I1 & _).
  destruct H2 as (m & E2 & _ & D2 & L2 & I2 & B2).
  destruct H3 as (s & E3 & _ & D3 & L3 & I3 & B3).
  destruct H4 as (ms & E4 & _ & D4 & L4 & I4 & _).
  apply scan_char_ok in C1, C2, C3.
  exists h, m, s, ms, nh, nm, ns, nms, fh, fm, fs, fms.
  split.
  { rewrite E1, C1, E2, C2, E3, C3, E4, string_app_nil_r. reflexivity. }
  repeat split; auto; lia.
Qed.

Lemma parse_timecode_accepts_witness :
  exists secs h m s ms,
    _parse_timecode "begin" "01:02:03.004" = Ok secs
    /\ "01:02:03.004" = h ++ ":" ++ m ++ ":" ++ s ++ "." ++ ms.
Proof.
  assert (H : _parse_timecode "begin" "01:02:03.004"
              = Ok (1 * 3600 + 2 * 60 + 3 + 4 * 0.001)%float)
    by (vm_compute; reflexivity).
  destruct (parse_timecode_accepts _ _ _ H)
    as (h & m & s & ms & _ & _ & _ & _ & _ & _ & _ & _ & E & _).
  exists (1 * 3600 + 2 * 60 + 3 + 4 * 0.001)%float, h, m, s, ms.
  split; [exact H | exact E].
Defined.

Lemma bind_raise {A B : Type} (m : result A) (f : A -> result B) (e : exn) :
  (a ← m; f a) = Raise e -> m = Raise e \/ exists a, m = Ok a /\ f a = Raise e.
Proof. destruct m as [a|e']; simpl; [eauto | intros [= ->]; auto]. Qed.

Lemma int_raises (base : Z) (s : string) (e : exn) :
  Py.int base s = Raise e -> is_value_error e = true.
Proof. unfold Py.int. destruct (Py.int_opt base s); [discriminate|]. intros [= <-]. reflexivity. Qed.

Lemma float_of_int_raises (n : Z) (e : exn) :
  Py.float_of_int n = Raise e -> is_overflow_error e = true.
Proof.
  unfold Py.float_of_int. destruct (PrimFloat.is_infinity _); [|discriminate].
  intros [= <-]. reflexivity.
Qed.

Lemma scan_char_raises (self : Scanner.t) (c : ascii) (e : exn) :
  Scanner.scan_char self c = Raise e -> is_value_error e = true.
Proof.
  unfold Scanner.scan_char. destruct self as [|c0 s]; [intros [= <-]; reflexivity|].
  destruct (Ascii.eqb c0 c); [discriminate|]. intros [= <-]. reflexivity.
Qed.

Lemma scan_int_raises (self : Scanner.t) (num_digits : nat) (limit : Z) (e : exn) :
  Scanner.scan_int self num_digits limit = Raise e -> is_value_error e = true.
Proof.
  unfold Scanner.scan_int. destruct (_ || _); [intros [= <-]; reflexivity|].
  intros H. apply bind_raise in H. destruct H as [H|[n [_ H]]].
  - exact (int_raises _ _ _ H).
  - destruct (_ && _); [|discriminate]. injection H as <-. reflexivity.
Qed.

Lemma timecode_body_raises (scanner : Scanner.t) (e : exn) :
  timecode_body scanner = Raise e ->
  is_value_error e = true \/ is_overflow_error e = true.
Proof.
  unfold timecode_body. intros H.
  repeat (apply bind_raise in H;
          destruct H as [H|[? [_ H]]];
          [first [left; exact (scan_int_raises _ _ _ _ H)
                 |left; exact (scan_char_raises _ _ _ H)
                 |right; exact (float_of_int_raises _ _ H)]
          |try match type of H with (let '(_, _) := ?x in _) = _ => destruct x end]).
  discriminate H.
Qed.

(** X5.  [_parse_timecode] turns every [ValueError] of the scanner into a
    [ParseError] that names the attribute and the input; the one other
    exception that it lets through is the [OverflowError] of the conversion
    of a field to [float], which hours of more than 309 digits raise. *)
Theorem parse_timecode_errors (attr input : string) (e : exn) :
  _parse_timecode attr input = Raise e ->
  e = ParseError ("Invalid `" ++ attr ++ "` attribute value: " ++ input)
  \/ is_overflow_error e = true.
Proof.
  unfold _parse_timecode.
  destruct (timecode_body input) as [[secs sc]|e'] eqn:Hb.
  - destruct (Py.str_truthy sc); [|discriminate]. intros [= <-]. left. reflexivity.
  - apply timecode_body_raises in Hb.
    destruct e'; intros [= <-]; auto; destruct Hb; discriminate.
Qed.

Lemma parse_timecode_errors_witness :
  _parse_timecode "begin" long_hours
  = Raise (OverflowError "int too large to convert to float")
  /\ (OverflowError "int too large to convert to float"
      = ParseError ("Invalid `" ++ "begin" ++ "` attribute value: " ++ long_hours)
      \/ is_overflow_error (OverflowError "int too large to convert to float") = true).
Proof.
  assert (H : _parse_timecode "begin" long_hours
              = Raise (OverflowError "int too large to convert to float"))
    by (vm_compute; reflexivity).
  split; [exact H|]. exact (parse_timecode_errors _ _ _ H).
Defined.

(** ** The head: the region table *)

Lemma parse_style_frame `{pf : !PyFloat} (elem : Element) (ctx ctx' : Context.t) :
  parse_style elem ctx = Ok ctx' ->
  region_frame ctx' = region_frame ctx
  /\ Document.body (Context.document ctx') = Document.body (Context.document ctx).
Proof.
  unfold parse_style. destruct (negb _); [intros [= <-]; auto|].
  intros H.
  apply bind_ok in H. destruct H as [id [_ H]].
  apply bind_ok in H. destruct H as [ctx1 [H1 H]].
  apply bind_ok in H. destruct H as [props [_ H]].
  injection H as <-. apply add_id_ok in H1. destruct H1 as [_ ->]. auto.
Qed.

Lemma parse_region_bounded `{pf : !PyFloat} (elem : Element) (ctx ctx' : Context.t) :
  parse_region elem ctx = Ok ctx' ->
  (regions_bounded ctx -> regions_bounded ctx')
  /\ Document.body (Context.document ctx') = Document.body (Context.document ctx).
Proof.
  unfold parse_region. destruct (negb _); [intros [= <-]; auto|].
  intros H.
  apply bind_ok in H. destruct H as [id [_ H]].
  apply bind_ok in H. destruct H as [ctx1 [H1 H]].
  apply bind_ok in H. destruct H as [st [_ H]].
  destruct (negb (rs_origin_parsed st)); [discriminate H|].
  destruct (negb (rs_extent_parsed st)); [discriminate H|].
  injection H as <-. apply add_id_ok in H1. destruct H1 as [_ ->].
  split; [|reflexivity].
  intros Hb idx (i & style & Hi).
  cbn [Context.regions Context.set_document Context.set_regions Context.set_ids
       Context.document Document.regions set_doc_regions] in Hi |- *.
  rewrite length_app, Nat2Z.inj_add. cbn [List.length].
  apply lookup_insert_Some in Hi. destruct Hi as [[_ Hi]|[_ Hi]].
  - injection Hi as <- _. lia.
  - assert (Hin : in_table ctx idx) by (exists i, style; exact Hi).
    specialize (Hb idx Hin). lia.
Qed.

Lemma for_each_inv {A S : Type} (Inv : S -> Prop) (body : A -> S -> result S)
    (xs : list A) :
  (forall x s s', Inv s -> body x s = Ok s' -> Inv s') ->
  forall s s', Inv s -> for_each body xs s = Ok s' -> Inv s'.
Proof.
  intros Hb. induction xs as [|x xs IH]; intros s s' Hs H.
  - injection H as <-. exact Hs.
  - cbn [for_each] in H. apply bind_ok in H. destruct H as [s1 [H1 H]].
    exact (IH _ _ (Hb _ _ _ Hs H1) H).
Qed.

Lemma regions_bounded_frame (ctx ctx' : Context.t) :
  region_frame ctx' = region_frame ctx -> regions_bounded ctx -> regions_bounded ctx'.
Proof.
  unfold region_frame, regions_bounded, in_table. intros [= -> ->]. auto.
Qed.

(** The invariant of the loop of [_parse_head]. *)
Lemma parse_head_child_inv `{pf : !PyFloat} (body0 : Body.t) (elem : Element)
    (st st' : head_state) :
  (regions_bounded (hs_ctx st)
   /\ Document.body (Context.document (hs_ctx st)) = body0
   /\ (hs_layout_count st <> 0 ->
       Document.regions (Context.document (hs_ctx st)) <> [])) ->
  parse_head_child elem st = Ok st' ->
  regions_bounded (hs_ctx st')
  /\ Document.body (Context.document (hs_ctx st')) = body0
  /\ (hs_layout_count st' <> 0 ->
      Document.regions (Context.document (hs_ctx st')) <> []).
Proof.
  intros (Hb & Hbody & Hl). unfold parse_head_child.
  destruct (String.eqb (ET.tag elem) STYLING_ELEM).
  { destruct (negb _); [discriminate|]. intros H.
    apply bind_ok in H. destruct H as [ctx [H1 H]].
    destruct (dict_is_empty _); [discriminate|]. injection H as <-.
    cbn [hs_ctx hs_layout_count].
    assert (E : region_frame ctx = region_frame (hs_ctx st)
                /\ Document.body (Context.document ctx) = body0).
    { revert H1. unfold _parse_styles.
      apply (for_each_inv
               (fun c => region_frame c = region_frame (hs_ctx st)
                         /\ Document.body (Context.document c) = body0));
        [|auto].
      intros x s s' [I1 I2] Hx. apply parse_style_frame in Hx.
      destruct Hx as [F1 F2]. rewrite F1, F2. auto. }
    destruct E as [E1 E2]. split; [exact (regions_bounded_frame _ _ E1 Hb)|].
    split; [exact E2|].
    intros Hc. specialize (Hl Hc). injection E1 as _ ->. exact Hl. }
  destruct (String.eqb (ET.tag elem) LAYOUT_ELEM); [|intros [= <-]; auto].
  destruct (negb _); [discriminate|]. intros H.
  apply bind_ok in H. destruct H as [ctx [H1 H]].
  destruct (Document.regions (Context.document ctx)) as [|r rs] eqn:Er;
    [discriminate|].
  injection H as <-. cbn [hs_ctx hs_layout_count].
  assert (E : regions_bounded ctx /\ Document.body (Context.document ctx) = body0).
  { revert H1. unfold _parse_regions.
    apply (for_each_inv
             (fun c => regions_bounded c /\ Document.body (Context.document c) = body0));
      [|auto].
    intros x s s' [I1 I2] Hx. apply parse_region_bounded in Hx.
    destruct Hx as [F1 F2]. rewrite F2. auto. }
  destruct E as [E1 E2]. rewrite Er.
  split; [exact E1|]. split; [exact E2|]. intros _. discriminate.
Qed.

Lemma parse_head_bounded `{pf : !PyFloat} (root : Element) (ctx ctx' : Context.t) :
  regions_bounded ctx ->
  _parse_head root ctx = Ok ctx' ->
  regions_bounded ctx'
  /\ Document.body (Context.document ctx') = Document.body (Context.document ctx)
  /\ Document.regions (Context.document ctx') <> [].
Proof.
  intros Hb. unfold _parse_head.
  destruct (last_and_count _) as [[head|] count]; [|discriminate].
  destruct (1 <? count); [discriminate|]. intros H.
  apply bind_ok in H. destruct H as [st [H1 H]].
  destruct (hs_styling_count st =? 0); [discriminate|].
  destruct (Z.eqb_spec (hs_layout_count st) 0) as [|Hl]; [discriminate|].
  injection H as <-.
  apply (for_each_inv _ _ _
           (parse_head_child_inv (Document.body (Context.document ctx)))) in H1.
  - destruct H1 as (I1 & I2 & I3). auto.
  - cbn [hs_ctx hs_layout_count]. split; [exact Hb|]. split; [reflexivity|].
    intros Hc. exfalso. apply Hc. reflexivity.
Qed.

(** ** The walk: what it reads and what it builds *)

Lemma add_id_frame (ctx ctx' : Context.t) (id : string) :
  Context.add_id ctx id = Ok ctx' ->
  region_frame ctx' = region_frame ctx /\ doc_shape ctx' = doc_shape ctx.
Proof. intros H. apply add_id_ok in H. destruct H as [_ ->]. auto. Qed.

Lemma optional_add_id_frame (ctx ctx' : Context.t) (id : string) :
  (if Py.str_truthy id then Context.add_id ctx id else Ok ctx) = Ok ctx' ->
  region_frame ctx' = region_frame ctx /\ doc_shape ctx' = doc_shape ctx.
Proof.
  destruct (Py.str_truthy id); [apply add_id_frame|]. intros [= <-]. auto.
Qed.

Lemma list_last_ok {A : Type} (xs : list A) (x : A) :
  list_last xs = Ok x -> xs = (List.removelast xs ++ [x])%list.
Proof.
  unfold list_last. destruct (List.rev xs) as [|y ys] eqn:E; [discriminate|].
  intros [= <-]. apply (f_equal (@List.rev A)) in E.
  rewrite rev_involutive in E. cbn [List.rev] in E. subst xs.
  rewrite removelast_last. reflexivity.
Qed.

Lemma map_set_list_last {A B : Type} (f : A -> B) (xs : list A) (x y : A) :
  list_last xs = Ok x -> f y = f x ->
  List.map f (set_list_last y xs) = List.map f xs.
Proof.
  intros H E. apply list_last_ok in H. rewrite H at 2.
  unfold set_list_last. rewrite !map_app. cbn [List.map]. rewrite E. reflexivity.
Qed.

Lemma append_content_frame (c : content) (ctx ctx' : Context.t) :
  append_content c ctx = Ok ctx' ->
  region_frame ctx' = region_frame ctx /\ doc_shape ctx' = doc_shape ctx.
Proof.
  unfold append_content. intros H.
  apply bind_ok in H. destruct H as [d [Hd H]].
  apply bind_ok in H. destruct H as [p [Hp H]].
  injection H as <-. split; [reflexivity|].
  unfold doc_shape. rewrite ctx_divs_set.
  apply (map_set_list_last _ _ _ _ Hd).
  unfold div_shape. cbn [Div.paragraphs Div.set_paragraphs].
  apply (map_set_list_last _ _ _ _ Hp). reflexivity.
Qed.

(** A paragraph is appended to the last division. *)
Lemma append_paragraph_frame (para : Paragraph.t) (ctx ctx' : Context.t) :
  append_paragraph para ctx = Ok ctx' ->
  region_frame ctx' = region_frame ctx
  /\ exists ds l,
       doc_shape ctx = (ds ++ [l])%list
       /\ doc_shape ctx' = (ds ++ [l ++ [Paragraph.region_index para]])%list.
Proof.
  unfold append_paragraph. intros H.
  apply bind_ok in H. destruct H as [d [Hd H]].
  injection H as <-. split; [reflexivity|].
  exists (List.map div_shape (List.removelast (ctx_divs ctx))), (div_shape d).
  unfold doc_shape. rewrite ctx_divs_set. split.
  - rewrite (list_last_ok _ _ Hd) at 1. rewrite map_app. reflexivity.
  - unfold set_list_last. rewrite map_app. cbn [List.map]. f_equal. f_equal.
    unfold div_shape. cbn [Div.paragraphs Div.set_paragraphs].
    rewrite map_app. reflexivity.
Qed.

Lemma parse_content_frame (elem : Element) (st st' : walk_state) :
  parse_content elem st = Ok st' ->
  region_frame (snd st') = region_frame (snd st)
  /\ doc_shape (snd st') = doc_shape (snd st).
Proof.
  destruct st as [stack ctx]. unfold parse_content. cbn [snd].
  destruct (String.eqb (ET.tag elem) BR_ELEM).
  { intros H. apply bind_ok in H. destruct H as [c [Hc H]]. injection H as <-.
    exact (append_content_frame _ _ _ Hc). }
  destruct (negb _); [intros [= <-]; auto|].
  intros H.
  apply bind_ok in H. destruct H as [id [_ H]].
  apply bind_ok in H. destruct H as [ctx1 [H1 H]].
  apply bind_ok in H. destruct H as [rs [_ H]].
  apply bind_ok in H. destruct H as [sp [_ H]].
  apply bind_ok in H. destruct H as [ctx2 [H2 H]].
  apply bind_ok in H. destruct H as [stack' [_ H]].
  injection H as <-. cbn [snd].
  apply append_content_frame in H2. apply optional_add_id_frame in H1.
  destruct H1 as [F1 S1], H2 as [F2 S2]. rewrite F2, S2, F1, S1. auto.
Qed.

Lemma parse_paragraph_content_frame (para : Element) (st st' : walk_state) :
  _parse_paragraph_content para st = Ok st' ->
  region_frame (snd st') = region_frame (snd st)
  /\ doc_shape (snd st') = doc_shape (snd st).
Proof.
  unfold _parse_paragraph_content. intros H.
  apply bind_ok in H. destruct H as [p [_ H]].
  pose proof (for_each_preserves
                (fun s => (region_frame (snd s), doc_shape (snd s))) parse_content
                (ET.children para)) as P.
  assert (E : (region_frame (snd st'), doc_shape (snd st'))
              = (region_frame (snd st), doc_shape (snd st))).
  { apply P; [|exact H]. intros x s s' Hx. apply parse_content_frame in Hx.
    destruct Hx as [-> ->]. reflexivity. }
  split; [exact (f_equal fst E) | exact (f_equal snd E)].
Qed.

Lemma in_table_frame (ctx ctx' : Context.t) (idx : Z) :
  region_frame ctx' = region_frame ctx -> in_table ctx' idx -> in_table ctx idx.
Proof. unfold region_frame, in_table. intros [= -> _]. auto. Qed.

Lemma lookup_region_in_table (elem : Element) (ctx : Context.t) (idx : Z)
    (style : string) :
  lookup_region elem ctx = Ok (idx, style) -> idx = -1 \/ in_table ctx idx.
Proof.
  intros H. apply lookup_region_ok in H. destruct (carries_region elem).
  - right. eexists. eexists. exact H.
  - left. apply H.
Qed.

(** One child of a division: nothing, or one more paragraph in the last
    division, with a region index of the table. *)
Lemma parse_paragraph_shape (parent : Z) (elem : Element) (st st' : walk_state) :
  parent = -1 \/ in_table (snd st) parent ->
  parse_paragraph parent elem st = Ok st' ->
  region_frame (snd st') = region_frame (snd st)
  /\ (doc_shape (snd st') = doc_shape (snd st)
      \/ exists ds l idx,
           doc_shape (snd st) = (ds ++ [l])%list
           /\ doc_shape (snd st') = (ds ++ [l ++ [idx]])%list
           /\ in_table (snd st) idx).
Proof.
  intros Hpar H. destruct st as [stack ctx]. cbn [snd] in *.
  destruct (String.eqb_spec (ET.tag elem) P_ELEM) as [Ht|Ht].
  2: { unfold parse_paragraph in H. apply String.eqb_neq in Ht. rewrite Ht in H.
       injection H as <-. auto. }
  apply (parse_paragraph_ok _ _ _ _ _ Ht) in H.
  destruct H as (id & ctx1 & own & style & idx & para & ctx2 & stack2 & st3
                 & _ & H1 & Hl & Hr & _ & Hi & H2 & H3 & ->).
  apply add_id_frame in H1. destruct H1 as [F1 S1].
  apply append_paragraph_frame in H2. destruct H2 as [F2 (ds & l & E1 & E2)].
  apply parse_paragraph_content_frame in H3. cbn [snd] in H3. destruct H3 as [F3 S3].
  split; [rewrite F3, F2, F1; reflexivity|].
  right. exists ds, l, idx. rewrite S3, E2, <- S1, E1, Hi.
  split; [reflexivity|]. split; [reflexivity|].
  apply lookup_region_in_table in Hl.
  pose proof (paragraph_region_spec own parent) as Hs. rewrite Hr in Hs.
  destruct Hs as [(Ho & _ & ->)|(_ & Hp & ->)].
  - destruct Hl as [Hl|Hl]; [contradiction|]. exact (in_table_frame _ _ _ F1 Hl).
  - destruct Hpar as [Hpar|Hpar]; [contradiction|]. exact Hpar.
Qed.

Lemma parse_paragraphs_shape (parent : Z) (elems : list Element) :
  forall (st st' : walk_state) (ds : list (list Z)) (l : list Z),
    parent = -1 \/ in_table (snd st) parent ->
    doc_shape (snd st) = (ds ++ [l])%list ->
    for_each (parse_paragraph parent) elems st = Ok st' ->
    region_frame (snd st') = region_frame (snd st)
    /\ exists l', doc_shape (snd st') = (ds ++ [l ++ l'])%list
                  /\ Forall (in_table (snd st)) l'.
Proof.
  induction elems as [|elem elems IH]; intros st st' ds l Hpar Hs H.
  - injection H as <-. split; [reflexivity|]. exists [].
    rewrite app_nil_r. auto.
  - cbn [for_each] in H. apply bind_ok in H. destruct H as [st1 [H1 H]].
    apply (parse_paragraph_shape _ _ _ _ Hpar) in H1. destruct H1 as [F1 S1].
    assert (Hpar1 : parent = -1 \/ in_table (snd st1) parent).
    { destruct Hpar as [|Hp]; [auto|]. right.
      apply (in_table_frame _ _ _ (eq_sym F1)). exact Hp. }
    destruct S1 as [S1|(ds0 & l0 & idx & E0 & E1 & Hi)].
    + rewrite <- S1 in Hs.
      destruct (IH _ _ _ _ Hpar1 Hs H) as [F (l' & E & Hf)].
      split; [rewrite F, F1; reflexivity|]. exists l'. split; [exact E|].
      eapply Forall_impl; [exact Hf|]. intros i. apply in_table_frame. exact F1.
    + rewrite Hs in E0. apply app_inj_tail in E0. destruct E0 as [<- <-].
      destruct (IH _ _ _ _ Hpar1 E1 H) as [F (l' & E & Hf)].
      split; [rewrite F, F1; reflexivity|]. exists (idx :: l').
      split; [rewrite E, <- app_assoc; reflexivity|].
      constructor; [exact Hi|].
      eapply Forall_impl; [exact Hf|]. intros i. apply in_table_frame. exact F1.
Qed.

Lemma shape_ok_frame (ctx ctx' : Context.t) (shape : list (list Z)) :
  region_frame ctx' = region_frame ctx -> shape_ok ctx shape -> shape_ok ctx' shape.
Proof.
  intros F H. eapply Forall_impl; [exact H|]. intros l [Hn Hl].
  split; [exact Hn|]. eapply Forall_impl; [exact Hl|].
  intros i. apply in_table_frame. symmetry. exact F.
Qed.

Lemma ctx_paragraphs_shape (ctx : Context.t) (ps : list Paragraph.t) :
  ctx_paragraphs ctx = Ok ps ->
  exists ds, doc_shape ctx = (ds ++ [List.map Paragraph.region_index ps])%list.
Proof.
  unfold ctx_paragraphs. intros H.
  apply bind_ok in H. destruct H as [d [Hd H]]. injection H as <-.
  exists (List.map div_shape (List.removelast (ctx_divs ctx))).
  unfold doc_shape. rewrite (list_last_ok _ _ Hd) at 1. rewrite map_app. reflexivity.
Qed.

(** One child of [body]: nothing, or one more division that has a paragraph. *)
Lemma parse_division_shape (elem : Element) (st st' : walk_state) :
  shape_ok (snd st) (doc_shape (snd st)) ->
  parse_division elem st = Ok st' ->
  region_frame (snd st') = region_frame (snd st)
  /\ shape_ok (snd st') (doc_shape (snd st')).
Proof.
  destruct st as [stack ctx]. cbn [snd]. intros Hok. unfold parse_division.
  destruct (negb _); [intros [= <-]; auto|].
  intros H.
  apply bind_ok in H. destruct H as [id [_ H]].
  apply bind_ok in H. destruct H as [ctx1 [H1 H]].
  apply bind_ok in H. destruct H as [[ri rstyle] [Hl H]].
  apply bind_ok in H. destruct H as [rs [_ H]].
  apply bind_ok in H. destruct H as [[stack3 ctx3] [Hc H]].
  apply bind_ok in H. destruct H as [stack4 [_ H]].
  apply bind_ok in H. destruct H as [stack5 [_ H]].
  injection H as <-. cbn [snd].
  apply optional_add_id_frame in H1. destruct H1 as [F1 S1].
  apply lookup_region_in_table in Hl.
  unfold _parse_para in Hc.
  apply bind_ok in Hc. destruct Hc as [ps0 [_ Hc]].
  apply bind_ok in Hc. destruct Hc as [st1 [Hc Hp]].
  apply bind_ok in Hp. destruct Hp as [ps [Hps Hp]].
  destruct ps as [|p ps]; [discriminate Hp|]. injection Hp as ->.
  apply (parse_paragraphs_shape _ _ _ _ (doc_shape ctx1) []) in Hc;
    [|exact Hl | cbn [snd]; unfold doc_shape, append_div;
                 rewrite ctx_divs_set, map_app; reflexivity].
  cbn [snd] in Hc. destruct Hc as [F3 (l' & E & Hf)].
  assert (F : region_frame ctx3 = region_frame ctx) by (rewrite F3, <- F1; reflexivity).
  split; [exact F|].
  apply ctx_paragraphs_shape in Hps. cbn [snd] in Hps. destruct Hps as [ds Hps].
  rewrite E in Hps. apply app_inj_tail in Hps. destruct Hps as [_ El].
  rewrite E. apply Forall_app. split.
  - rewrite S1. exact (shape_ok_frame _ _ _ F Hok).
  - constructor; [|constructor]. split.
    + rewrite El. discriminate.
    + eapply Forall_impl; [exact Hf|]. intros i Hi.
      apply (in_table_frame _ _ _ (eq_sym F3)). exact Hi.
Qed.

Lemma parse_body_shape (root : Element) (ctx ctx' : Context.t) :
  ctx_divs ctx = [] ->
  _parse_body root ctx = Ok ctx' ->
  region_frame ctx' = region_frame ctx
  /\ shape_ok ctx' (doc_shape ctx')
  /\ ctx_divs ctx' <> [].
Proof.
  intros Hd. unfold _parse_body.
  destruct (last_and_count _) as [[body|] count]; [|discriminate].
  destruct (1 <? count); [discriminate|]. intros H.
  apply bind_ok in H. destruct H as [rs [_ H]].
  apply bind_ok in H. destruct H as [st [H1 H]]. injection H as <-.
  unfold _parse_div in H1.
  apply bind_ok in H1. destruct H1 as [st1 [H1 H]].
  destruct (ctx_divs (snd st1)) as [|d ds] eqn:E; [discriminate H|].
  injection H as <-.
  apply (for_each_inv
           (fun s => region_frame (snd s) = region_frame ctx
                     /\ shape_ok (snd s) (doc_shape (snd s)))) in H1.
  - destruct H1 as [F S]. rewrite E.
    split; [exact F|]. split; [exact S|]. discriminate.
  - intros x s s' [F S] Hx. apply (parse_division_shape _ _ _ S) in Hx.
    destruct Hx as [F' S']. split; [rewrite F', F; reflexivity | exact S'].
  - cbn [snd]. split; [reflexivity|].
    unfold doc_shape. cbn [ctx_divs Context.document Context.set_document
      Document.body set_doc_body Body.divs]. fold (ctx_divs ctx). rewrite Hd.
    constructor.
Qed.

(** The documents that [parse] returns, with the context at the end of the
    parse. *)
Lemma parse_shape `{pf : !PyFloat} (root : Element) (doc : Document.t) :
  parse root = Ok doc ->
  exists ctx, Context.document ctx = doc
    /\ regions_bounded ctx
    /\ shape_ok ctx (doc_shape ctx)
    /\ ctx_divs ctx <> []
    /\ Document.regions doc <> [].
Proof.
  unfold parse. destruct (negb _); [discriminate|].
  destruct (ET.get root TIME_BASE_ATTR) as [v|]; [|discriminate].
  destruct (negb _); [discriminate|]. intros H.
  apply bind_ok in H. destruct H as [d1 [H1 H]].
  apply bind_ok in H. destruct H as [d2 [H2 H]].
  apply bind_ok in H. destruct H as [d3 [H3 H]].
  apply bind_ok in H. destruct H as [d4 [H4 H]].
  apply bind_ok in H. destruct H as [ctx1 [Hh H]].
  apply bind_ok in H. destruct H as [ctx2 [Hb H]]. injection H as <-.
  assert (E1 : Document.body d1 = Document.body Document.default
               /\ Document.regions d1 = []).
  { destruct (get_nonempty root ACTIVE_AREA_ATTR).
    - apply bind_ok in H1. destruct H1 as [a [_ H1]]. injection H1 as <-. auto.
    - injection H1 as <-. auto. }
  assert (E2 : Document.body d2 = Document.body Document.default
               /\ Document.regions d2 = []).
  { destruct (get_nonempty root CELL_RESOLUTION_ATTR).
    - apply bind_ok in H2. destruct H2 as [a [_ H2]]. injection H2 as <-. exact E1.
    - injection H2 as <-. exact E1. }
  assert (E3 : Document.body d3 = Document.body Document.default
               /\ Document.regions d3 = []).
  { destruct (ET.get root LANG_ATTR); [|discriminate H3].
    injection H3 as <-. exact E2. }
  assert (E4 : Document.body d4 = Document.body Document.default
               /\ Document.regions d4 = []).
  { destruct (get_nonempty root SPACE_ATTR).
    - apply bind_ok in H4. destruct H4 as [a [_ H4]]. injection H4 as <-. exact E3.
    - injection H4 as <-. exact E3. }
  destruct E4 as [E4 _].
  apply parse_head_bounded in Hh.
  2: { intros idx (i & style & Hi). cbn in Hi. rewrite lookup_empty in Hi.
       discriminate Hi. }
  destruct Hh as (Hbd & Hbody & Hreg).
  apply parse_body_shape in Hb.
  2: { unfold ctx_divs. rewrite Hbody. cbn [Context.init Context.document].
       rewrite E4. reflexivity. }
  destruct Hb as (F & S & Hn).
  exists ctx2. split; [reflexivity|].
  split; [exact (regions_bounded_frame _ _ F Hbd)|].
  split; [exact S|]. split; [exact Hn|].
  injection F as _ ->. exact Hreg.
Qed.


Lemma shape_ok_divs (ctx : Context.t) (divs : list Div.t) :
  regions_bounded ctx ->
  shape_ok ctx (List.map div_shape divs) ->
  Forall (fun d => Div.paragraphs d <> []) divs
  /\ Forall (fun p => 0 <= Paragraph.region_index p
                      < Z.of_nat (List.length (Document.regions (Context.document ctx))))
       (List.flat_map Div.paragraphs divs).
Proof.
  intros Hb. unfold shape_ok.
  induction divs as [|d divs IH]; intros H; [split; constructor|].
  cbn [List.map] in H. apply Forall_cons in H. destruct H as [[Hn Hd] H].
  destruct (IH H) as [I1 I2]. split.
  - constructor; [|exact I1]. intros E. apply Hn. unfold div_shape. rewrite E.
    reflexivity.
  - cbn [List.flat_map]. apply Forall_app. split; [|exact I2].
    clear -Hb Hd. unfold div_shape in Hd.
    induction (Div.paragraphs d) as [|p ps IHp]; [constructor|].
    cbn [List.map] in Hd. apply Forall_cons in Hd. destruct Hd as [Hp Hd].
    constructor; [exact (Hb _ Hp) | exact (IHp Hd)].
Qed.

(** X6.  A document that [parse] returns has a region, has a division, and
    has a paragraph in every division. *)
Theorem parsed_document_not_empty `{pf : !PyFloat} (root : Element)
    (doc : Document.t) :
  parse root = Ok doc ->
  Document.regions doc <> []
  /\ Body.divs (Document.body doc) <> []
  /\ Forall (fun d => Div.paragraphs d <> []) (Body.divs (Document.body doc)).
Proof.
  intros H. apply parse_shape in H.
  destruct H as (ctx & <- & Hb & Hs & Hn & Hr).
  split; [exact Hr|]. split; [exact Hn|].
  exact (proj1 (shape_ok_divs _ _ Hb Hs)).
Qed.

Lemma parsed_document_not_empty_witness :
  exists doc,
    @parse decimal_float doc_fill_line_gap = Ok doc
    /\ Document.regions doc <> []
    /\ Body.divs (Document.body doc) <> []
    /\ Forall (fun d => Div.paragraphs d <> []) (Body.divs (Document.body doc)).
Proof.
  eexists. split; [vm_compute; reflexivity|].
  apply (@parsed_document_not_empty decimal_float doc_fill_line_gap).
  vm_compute. reflexivity.
Defined.

(** X7.  In a document that [parse] returns, the region index of every
    paragraph is a position in the list of regions of the document. *)
Theorem paragraph_region_in_range `{pf : !PyFloat} (root : Element)
    (doc : Document.t) :
  parse root = Ok doc ->
  Forall (fun p => 0 <= Paragraph.region_index p
                   < Z.of_nat (List.length (Document.regions doc)))
    (doc_paragraphs doc).
Proof.
  intros H. apply parse_shape in H.
  destruct H as (ctx & <- & Hb & Hs & Hn & Hr).
  exact (proj2 (shape_ok_divs _ _ Hb Hs)).
Qed.

Lemma paragraph_region_in_range_witness :
  exists doc,
    @parse decimal_float doc_reused_region = Ok doc
    /\ Forall (fun p => 0 <= Paragraph.region_index p
                        < Z.of_nat (List.length (Document.regions doc)))
         (doc_paragraphs doc).
Proof.
  eexists. split; [vm_compute; reflexivity|].
  apply (@paragraph_region_in_range decimal_float doc_reused_region).
  vm_compute. reflexivity.
Defined.

(** ** The cascade resolver: the identifiers it accepts, the errors it raises *)

Lemma for_each_ok_in {A S : Type} (body : A -> S -> result S) (x : A) (xs : list A) :
  In x xs -> forall s s', for_each body xs s = Ok s' ->
  exists s1 s2, body x s1 = Ok s2.
Proof.
  induction xs as [|y ys IH]; intros Hin s s' H; [destruct Hin|].
  cbn [for_each] in H. apply bind_ok in H. destruct H as [s1 [H1 H]].
  destruct Hin as [->|Hin]; [eauto | exact (IH Hin _ _ H)].
Qed.

Lemma for_each_raise_in {A S : Type} (body : A -> S -> result S) (xs : list A)
    (e : exn) :
  forall s, for_each body xs s = Raise e ->
  exists x s1, In x xs /\ body x s1 = Raise e.
Proof.
  induction xs as [|y ys IH]; intros s H; [discriminate H|].
  cbn [for_each] in H. apply bind_raise in H. destruct H as [H|[s1 [_ H]]].
  - exists y, s. split; [left; reflexivity | exact H].
  - destruct (IH _ H) as (x & s2 & Hin & Hx). exists x, s2.
    split; [right; exact Hin | exact Hx].
Qed.

Lemma enumerate_from_in {A : Type} (x : A) (xs : list A) (k : Z) :
  In x xs -> exists i, In (i, x) (enumerate_from k xs).
Proof.
  revert k. induction xs as [|y ys IH]; intros k Hin; [destruct Hin|].
  cbn [enumerate_from]. destruct Hin as [->|Hin].
  - exists k. left. reflexivity.
  - destruct (IH (k + 1) Hin) as [i Hi]. exists i. right. exact Hi.
Qed.

(** X8.  When the cascade resolver returns, every identifier that a scope
    of the stack names, the empty pieces between spaces apart, is declared
    in the style table. *)
Theorem resolved_styles_declared (style_stack : list string) (ctx : Context.t)
    (r : ResolvedStyle.t) (value id : string) :
  _resolve_style style_stack ctx = Ok r ->
  In value style_stack -> In id (Py.split " " value) -> id <> "" ->
  exists properties, Context.styles ctx !! id = Some properties.
Proof.
  unfold _resolve_style. intros H Hv Hid Hne.
  apply bind_ok in H. destruct H as [st0 [_ H]].
  apply bind_ok in H. destruct H as [st1 [H _]].
  destruct (enumerate_from_in value style_stack 0 Hv) as [i Hi].
  destruct (for_each_ok_in _ _ _ Hi _ _ H) as (s1 & s2 & Hs).
  rewrite resolve_scope_entry in Hs.
  destruct (for_each_ok_in _ _ _ Hid _ _ Hs) as (s3 & s4 & Hr).
  apply resolve_id_ok in Hr.
  destruct Hr as [[E _]|[_ (p & Hp & _)]]; [contradiction|].
  exists p. exact Hp.
Qed.

Lemma resolved_styles_declared_witness :
  exists properties, Context.styles halves_ctx !! "s2" = Some properties.
Proof.
  apply (resolved_styles_declared ["s1"; " s1  s2"] halves_ctx
           (match _resolve_style ["s1"; " s1  s2"] halves_ctx with
            | Ok r => r | Raise _ => ResolvedStyle.default end) " s1  s2" "s2").
  - vm_compute. reflexivity.
  - right. left. reflexivity.
  - vm_compute. auto.
  - discriminate.
Defined.

Lemma float_div_int_raises (x : float) (n : Z) (e : exn) :
  Py.float_div_int x n = Raise e ->
  is_overflow_error e = true \/ (is_zero_division_error e = true /\ n = 0).
Proof.
  unfold Py.float_div_int. intros H.
  apply bind_raise in H. destruct H as [H|[f [_ H]]].
  - left. exact (float_of_int_raises _ _ H).
  - destruct (Z.eqb_spec n 0) as [->|]; [|discriminate H].
    injection H as <-. right. auto.
Qed.

(** The unit-computation step raises on a cell resolution that does not
    convert to [float], or that has a zero component. *)
Lemma compute_raises (s : ResolvedStyle.t) (mask : Z) (parent : option float)
    (cr : CellResolution.t) (e : exn) :
  ResolvedStyle.compute s mask parent cr = Raise e ->
  is_overflow_error e = true
  \/ (is_zero_division_error e = true /\ CellResolution.is_valid cr = false).
Proof.
  unfold ResolvedStyle.compute, CellResolution.is_valid. intros H.
  apply bind_raise in H. destruct H as [H|[s1 [_ H]]].
  - destruct (ResolvedStyle.bit_set mask COMPUTE_FONT_SIZE_BIT); [|discriminate H].
    destruct parent; [discriminate H|].
    apply bind_raise in H. destruct H as [H|[rows [_ H]]]; [|discriminate H].
    apply float_div_int_raises in H. destruct H as [H|[H ->]]; [left; exact H|].
    right. split; [exact H|]. apply andb_false_r.
  - apply bind_raise in H. destruct H as [H|[s2 [_ H]]]; [|discriminate H].
    destruct (ResolvedStyle.bit_set mask COMPUTE_LINE_PADDING_BIT); [|discriminate H].
    apply bind_raise in H. destruct H as [H|[cols [_ H]]]; [|discriminate H].
    apply float_div_int_raises in H. destruct H as [H|[H ->]]; [left; exact H|].
    right. split; [exact H|]. reflexivity.
Qed.

(** X9.  When the cascade resolver fails, it is on an identifier that the
    style table does not declare, with a message that holds the text
    [{id}] and not the identifier, or with the [OverflowError] of the
    conversion of the cell resolution to [float], or with the
    [ZeroDivisionError] of the division by a component of the cell
    resolution that is zero. *)
Theorem resolve_style_errors (style_stack : list string) (ctx : Context.t) (e : exn) :
  _resolve_style style_stack ctx = Raise e ->
  (e = ParseError "Invalid style id: {id}"
   /\ exists value id, In value style_stack /\ In id (Py.split " " value)
        /\ id <> "" /\ Context.styles ctx !! id = None)
  \/ is_overflow_error e = true
  \/ (is_zero_division_error e = true
      /\ CellResolution.is_valid (Document.cell_resolution (Context.document ctx))
         = false).
Proof.
  unfold _resolve_style. intros H.
  apply bind_raise in H. destruct H as [H|[st0 [_ H]]].
  { right. unfold resolve_seed in H.
    apply bind_raise in H. destruct H as [H|[rs [_ H]]]; [|discriminate H].
    exact (compute_raises _ _ _ _ _ H). }
  apply bind_raise in H. destruct H as [H|[st1 [_ H]]]; [|discriminate H].
  apply for_each_raise_in in H. destruct H as ([i value] & s1 & Hin & H).
  rewrite resolve_scope_entry in H.
  apply for_each_raise_in in H. destruct H as (id & s2 & Hid & H).
  unfold resolve_id in H.
  destruct (Py.str_truthy id) eqn:Et; [|discriminate H]. cbn [negb] in H.
  destruct (Context.styles ctx !! id) as [p|] eqn:Ep.
  - right. destruct (ResolvedStyle.merge_properties (fst s2) p) as [rs mask].
    apply bind_raise in H. destruct H as [H|[rs' [_ H]]]; [|discriminate H].
    exact (compute_raises _ _ _ _ _ H).
  - left. injection H as <-. split; [reflexivity|].
    exists value, id. split.
    + clear -Hin. unfold enumerate in Hin. revert Hin. generalize 0.
      induction style_stack as [|v vs IH]; intros k Hin; [destruct Hin|].
      cbn [enumerate_from] in Hin. destruct Hin as [[= _ ->]|Hin];
        [left; reflexivity | right; exact (IH _ Hin)].
    + split; [exact Hid|]. split; [|exact Ep].
      intros ->. discriminate Et.
Qed.

Lemma resolve_style_errors_witness :
  (ParseError "Invalid style id: {id}" = ParseError "Invalid style id: {id}"
   /\ exists value id, In value ["s1"; "s3"] /\ In id (Py.split " " value)
        /\ id <> "" /\ Context.styles halves_ctx !! id = None)
  \/ is_overflow_error (ParseError "Invalid style id: {id}") = true
  \/ (is_zero_division_error (ParseError "Invalid style id: {id}") = true
      /\ CellResolution.is_valid
           (Document.cell_resolution (Context.document halves_ctx)) = false).
Proof.
  apply (resolve_style_errors ["s1"; "s3"] halves_ctx).
  vm_compute. reflexivity.
Defined.

(** ** Value parsers *)

Lemma split_no_sep (sep : ascii) (s v : string) (c : ascii) :
  In v (Py.split sep s) -> In c (list_ascii_of_string v) -> c <> sep.
Proof.
  revert v. induction s as [|a s IH]; intros v Hv Hc.
  - destruct Hv as [<-|[]]. destruct Hc.
  - cbn [Py.split] in Hv. destruct (Ascii.eqb_spec a sep) as [->|Ha].
    + destruct Hv as [<-|Hv]; [destruct Hc | exact (IH _ Hv Hc)].
    + destruct (Py.split sep s) as [|h t] eqn:E.
      * destruct Hv as [<-|[]]. destruct Hc as [<-|[]]. exact Ha.
      * destruct Hv as [<-|Hv].
        -- destruct Hc as [<-|Hc]; [exact Ha|].
           apply (IH h); [left; reflexivity | exact Hc].
        -- apply (IH v); [right; exact Hv | exact Hc].
Qed.

(** X10.  The pieces that [split_value] returns are not empty and hold no
    space. *)
Theorem split_value_pieces (value v : string) :
  In v (split_value value) ->
  v <> "" /\ forall c, In c (list_ascii_of_string v) -> c <> " "%char.
Proof.
  unfold split_value. intros H. apply List.filter_In in H. destruct H as [Hin Ht].
  split.
  - intros ->. discriminate Ht.
  - intros c Hc. exact (split_no_sep _ _ _ _ Hin Hc).
Qed.

Lemma split_value_pieces_witness :
  "80%" <> "" /\ forall c, In c (list_ascii_of_string "80%") -> c <> " "%char.
Proof.
  apply (split_value_pieces "  10%   80% " "80%"). vm_compute. auto.
Defined.

(** X11.  A cell resolution that [CellResolution.parse] returns has two
    positive components, the integers that the two pieces of the value
    denote. *)
Theorem cell_resolution_parse_valid (value : string) (c : CellResolution.t) :
  CellResolution.parse value = Ok c ->
  0 < CellResolution.columns c /\ 0 < CellResolution.rows c
  /\ exists v0 v1, split_value value = [v0; v1]
       /\ Py.int 10 v0 = Ok (CellResolution.columns c)
       /\ Py.int 10 v1 = Ok (CellResolution.rows c).
Proof.
  unfold CellResolution.parse. intros H.
  destruct (split_value value) as [|v0 [|v1 [|v2 vs]]]; try discriminate H.
  apply bind_ok in H. destruct H as [cols [Hc H]].
  apply bind_ok in H. destruct H as [rows [Hr H]].
  destruct (CellResolution.is_valid _) eqn:Ev; [|discriminate H].
  injection H as <-. unfold CellResolution.is_valid in Ev.
  cbn [CellResolution.columns CellResolution.rows] in *.
  apply andb_prop in Ev. destruct Ev as [E1 E2].
  apply Z.ltb_lt in E1, E2. split; [exact E1|]. split; [exact E2|].
  exists v0, v1. auto.
Qed.

Lemma cell_resolution_parse_valid_witness :
  0 < 40 /\ 0 < 24
  /\ exists v0 v1, split_value " 40  24" = [v0; v1]
       /\ Py.int 10 v0 = Ok 40 /\ Py.int 10 v1 = Ok 24.
Proof.
  apply (cell_resolution_parse_valid " 40  24" (CellResolution.mk 40 24)).
  vm_compute. reflexivity.
Defined.

Create HintDb raises.

Lemma parse_enum_raises {A : Type} (table : list (string * A)) (value stripped : string)
    (e : exn) :
  parse_enum table value stripped = Raise e -> is_value_error e = true.
Proof.
  induction table as [|[k a] table IH]; cbn [parse_enum].
  - intros [= <-]. reflexivity.
  - destruct (String.eqb stripped k); [discriminate | exact IH].
Qed.

Lemma py_float_raises `{pf : !PyFloat} (s : string) (e : exn) :
  Py.float s = Raise e -> is_value_error e = true.
Proof. unfold Py.float. destruct (py_float s); [discriminate|]. intros [= <-]. reflexivity. Qed.

#[local] Hint Resolve parse_enum_raises py_float_raises int_raises : raises.

(** The case analysis of a parser that raised. *)
Ltac raise_cases H :=
  repeat first
    [ discriminate H
    | (injection H as <-; reflexivity)
    | solve [eauto with raises]
    | match type of H with
      | mbind _ ?m = Raise _ =>
          apply bind_raise in H; destruct H as [H|[? [_ H]]]
      | (if ?c then _ else _) = Raise _ => destruct c
      | (let '(_, _) := ?x in _) = Raise _ => destruct x
      | match ?x with _ => _ end = Raise _ => destruct x
      end ].

Lemma unit_parse_raises `{pf : !PyFloat} (u : Unit.t) (value : string)
    (m : option float) (e : exn) :
  Unit.parse u value m = Raise e -> is_value_error e = true.
Proof. unfold Unit.parse. intros H. raise_cases H. Qed.

#[local] Hint Resolve unit_parse_raises : raises.

Lemma active_area_parse_raises `{pf : !PyFloat} (value : string) (e : exn) :
  ActiveArea.parse value = Raise e -> is_value_error e = true.
Proof. unfold ActiveArea.parse. intros H. raise_cases H. Qed.

Lemma cell_resolution_parse_raises (value : string) (e : exn) :
  CellResolution.parse value = Raise e -> is_value_error e = true.
Proof. unfold CellResolution.parse. intros H. raise_cases H. Qed.

Lemma color_parse_raises (value : string) (e : exn) :
  Color.parse value = Raise e -> is_value_error e = true.
Proof.
  unfold Color.parse. intros H.
  destruct (Py.strip value) as [|c v]; [raise_cases H|].
  destruct (Ascii.eqb_spec c "#") as [->|Hc].
  - raise_cases H.
  - destruct c as [[] [] [] [] [] [] [] []]; try (injection H as <-; reflexivity).
    contradiction Hc. reflexivity.
Qed.

Lemma extent_parse_raises `{pf : !PyFloat} (value : string) (e : exn) :
  Extent.parse value = Raise e -> is_value_error e = true.
Proof. unfold Extent.parse. intros H. raise_cases H. Qed.

Lemma origin_parse_raises `{pf : !PyFloat} (value : string) (e : exn) :
  Origin.parse value = Raise e -> is_value_error e = true.
Proof. unfold Origin.parse. intros H. raise_cases H. Qed.

Lemma line_height_parse_raises `{pf : !PyFloat} (value : string) (e : exn) :
  LineHeight.parse value = Raise e -> is_value_error e = true.
Proof. unfold LineHeight.parse. intros H. raise_cases H. Qed.

Lemma padding_parse_raises `{pf : !PyFloat} (value : string) (e : exn) :
  Padding.parse value = Raise e -> is_value_error e = true.
Proof.
  unfold Padding.parse. intros H.
  destruct (_ || _); [injection H as <-; reflexivity|].
  apply for_each_raise_in in H. destruct H as ([i v] & p & _ & H).
  unfold Padding.parse_step in H. raise_cases H.
Qed.

(** The thickness of a text outline is read from a list that is not empty:
    the index error of [values[0]] is never raised. *)
Lemma text_outline_parse_raises `{pf : !PyFloat} (value : string) (e : exn) :
  TextOutline.parse value = Raise e -> is_value_error e = true.
Proof.
  unfold TextOutline.parse. intros H.
  destruct (split_value value) as [|v0 rest]; [raise_cases H|].
  destruct (_ && _); [discriminate H|].
  destruct (Nat.ltb 3 _); [raise_cases H|].
  apply bind_raise in H. destruct H as [H|[[color values] [Hc H]]].
  - destruct (Py.startswith "#" v0); [|discriminate H].
    destruct (Nat.eqb _ 1); [raise_cases H|].
    apply bind_raise in H. destruct H as [H|[c [_ H]]]; [|discriminate H].
    exact (color_parse_raises _ _ H).
  - assert (Hv : values <> []).
    { destruct (Py.startswith "#" v0).
      - destruct rest as [|r rest]; [discriminate Hc|].
        cbn [List.length Nat.eqb] in Hc.
        apply bind_ok in Hc. destruct Hc as [c [_ Hc]]. injection Hc as _ <-.
        discriminate.
      - injection Hc as _ <-. discriminate. }
    destruct values as [|t0 values']; [contradiction|].
    raise_cases H.
Qed.

(** X12.  Every value parser of the model raises [ValueError] and nothing
    else: no index error, whatever the value. *)
Theorem value_parsers_raise_value_error `{pf : !PyFloat} (u : Unit.t)
    (max_value : option float) (value : string) (e : exn) :
  In (Some e) (value_parser_errors u max_value value) -> is_value_error e = true.
Proof.
  unfold value_parser_errors. intros H.
  repeat (destruct H as [H|H];
          [match type of H with
           | error_of ?r = _ => destruct r eqn:E; [discriminate H|]
           end;
           injection H as ->;
           first [ exact (unit_parse_raises _ _ _ _ E)
                 | exact (active_area_parse_raises _ _ E)
                 | exact (cell_resolution_parse_raises _ _ E)
                 | exact (color_parse_raises _ _ E)
                 | exact (extent_parse_raises _ _ E)
                 | exact (origin_parse_raises _ _ E)
                 | exact (line_height_parse_raises _ _ E)
                 | exact (padding_parse_raises _ _ E)
                 | exact (text_outline_parse_raises _ _ E)
                 | exact (parse_enum_raises _ _ _ _ E) ]
          |]).
  destruct H.
Qed.

Lemma value_parsers_raise_value_error_witness :
  In (Some (ValueError "#12345"))
    (@value_parser_errors decimal_float Unit.PERCENT None "#12345 5%")
  /\ is_value_error (ValueError "#12345") = true.
Proof.
  assert (H : In (Some (ValueError "#12345"))
                (@value_parser_errors decimal_float Unit.PERCENT None "#12345 5%")).
  { vm_compute. do 19 right. left. reflexivity. }
  split; [exact H|].
  exact (@value_parsers_raise_value_error decimal_float _ _ _ _ H).
Defined.

(** ** No index error leaves the parse *)

#[local] Hint Resolve active_area_parse_raises cell_resolution_parse_raises
  color_parse_raises extent_parse_raises origin_parse_raises
  line_height_parse_raises padding_parse_raises text_outline_parse_raises : raises.

Lemma font_size_parse_raises `{pf : !PyFloat} (value : string) (e : exn) :
  FontSize.parse value = Raise e -> is_value_error e = true.
Proof. apply unit_parse_raises. Qed.

Lemma line_padding_parse_raises `{pf : !PyFloat} (value : string) (e : exn) :
  LinePadding.parse value = Raise e -> is_value_error e = true.
Proof. apply unit_parse_raises. Qed.

#[local] Hint Resolve font_size_parse_raises line_padding_parse_raises : raises.

Lemma value_error_not_index (e : exn) :
  is_value_error e = true -> is_index_error e = false.
Proof. destruct e; (discriminate || reflexivity). Qed.

Lemma overflow_error_not_index (e : exn) :
  is_overflow_error e = true -> is_index_error e = false.
Proof. destruct e; (discriminate || reflexivity). Qed.

Lemma compute_no_index (s : ResolvedStyle.t) (mask : Z) (parent : option float)
    (cr : CellResolution.t) (e : exn) :
  ResolvedStyle.compute s mask parent cr = Raise e -> is_index_error e = false.
Proof.
  intros H. apply compute_raises in H.
  destruct H as [H|[H _]]; destruct e; (discriminate || reflexivity).
Qed.

Create HintDb noindex.

(** The case analysis of a step of the parse that raised. *)
Ltac index_cases H :=
  repeat first
    [ discriminate H
    | (injection H as <-; reflexivity)
    | solve [eauto with noindex]
    | solve [apply value_error_not_index;
             first [exact (parse_enum_raises _ _ _ _ H) | eauto with raises]]
    | match type of H with
      | mbind _ ?m = Raise _ =>
          apply bind_raise in H; destruct H as [H|[? [_ H]]]
      | (if ?c then _ else _) = Raise _ => destruct c
      | (let '(_, _) := ?x in _) = Raise _ => destruct x
      | match ?x with _ => _ end = Raise _ => destruct x
      end ].

Lemma parse_id_no_index (elem : Element) (required : bool) (e : exn) :
  _parse_id elem required = Raise e -> is_index_error e = false.
Proof. unfold _parse_id. intros H. index_cases H. Qed.

Lemma add_id_no_index (ctx : Context.t) (id : string) (e : exn) :
  Context.add_id ctx id = Raise e -> is_index_error e = false.
Proof. unfold Context.add_id. intros H. index_cases H. Qed.

#[local] Hint Resolve parse_id_no_index add_id_no_index : noindex.

Lemma for_each_raise_inv {A S : Type} (Inv : S -> Prop) (P : exn -> Prop)
    (body : A -> S -> result S) (xs : list A) :
  (forall x s s', Inv s -> body x s = Ok s' -> Inv s') ->
  (forall x s e, Inv s -> body x s = Raise e -> P e) ->
  forall s e, Inv s -> for_each body xs s = Raise e -> P e.
Proof.
  intros Hok Hr. induction xs as [|x xs IH]; intros s e Hs H; [discriminate H|].
  cbn [for_each] in H. apply bind_raise in H. destruct H as [H|[s1 [H1 H]]].
  - exact (Hr _ _ _ Hs H).
  - exact (IH _ _ (Hok _ _ _ Hs H1) H).
Qed.

Lemma for_each_no_index {A S : Type} (body : A -> S -> result S) (xs : list A) :
  (forall x s e, body x s = Raise e -> is_index_error e = false) ->
  forall s e, for_each body xs s = Raise e -> is_index_error e = false.
Proof.
  intros Hb s e H. apply for_each_raise_in in H. destruct H as (x & s1 & _ & H).
  exact (Hb _ _ _ H).
Qed.

Lemma parse_style_attribute_no_index `{pf : !PyFloat} (nv : string * string)
    (properties : StyleProperties.t) (e : exn) :
  parse_style_attribute nv properties = Raise e -> is_index_error e = false.
Proof. unfold parse_style_attribute. intros H. destruct nv as [name value]. index_cases H. Qed.

Lemma parse_style_no_index `{pf : !PyFloat} (elem : Element) (ctx : Context.t)
    (e : exn) :
  parse_style elem ctx = Raise e -> is_index_error e = false.
Proof.
  unfold parse_style. intros H. destruct (negb _); [discriminate H|].
  apply bind_raise in H. destruct H as [H|[id [_ H]]]; [eauto with noindex|].
  apply bind_raise in H. destruct H as [H|[ctx1 [_ H]]]; [eauto with noindex|].
  apply bind_raise in H. destruct H as [H|[props [_ H]]]; [|discriminate H].
  revert H. apply for_each_no_index. intros x s e'.
  apply parse_style_attribute_no_index.
Qed.

Lemma parse_region_attribute_no_index `{pf : !PyFloat} (nv : string * string)
    (st : region_state) (e : exn) :
  parse_region_attribute nv st = Raise e -> is_index_error e = false.
Proof. unfold parse_region_attribute. intros H. destruct nv as [name value]. index_cases H. Qed.

Lemma parse_region_no_index `{pf : !PyFloat} (elem : Element) (ctx : Context.t)
    (e : exn) :
  parse_region elem ctx = Raise e -> is_index_error e = false.
Proof.
  unfold parse_region. intros H. destruct (negb _); [discriminate H|].
  apply bind_raise in H. destruct H as [H|[id [_ H]]]; [eauto with noindex|].
  apply bind_raise in H. destruct H as [H|[ctx1 [_ H]]]; [eauto with noindex|].
  apply bind_raise in H. destruct H as [H|[st [_ H]]].
  - revert H. apply for_each_no_index. intros x s e'.
    apply parse_region_attribute_no_index.
  - index_cases H.
Qed.

Lemma parse_head_no_index `{pf : !PyFloat} (root : Element) (ctx : Context.t)
    (e : exn) :
  _parse_head root ctx = Raise e -> is_index_error e = false.
Proof.
  unfold _parse_head. intros H.
  destruct (last_and_count _) as [[head|] count]; [|index_cases H].
  destruct (1 <? count); [index_cases H|].
  apply bind_raise in H. destruct H as [H|[st [_ H]]]; [|index_cases H].
  revert H. apply for_each_no_index. intros x s e'. unfold parse_head_child.
  intros H.
  destruct (String.eqb (ET.tag x) STYLING_ELEM).
  { destruct (negb _); [index_cases H|].
    apply bind_raise in H. destruct H as [H|[c [_ H]]]; [|index_cases H].
    revert H. apply for_each_no_index. intros y c e''. apply parse_style_no_index. }
  destruct (String.eqb (ET.tag x) LAYOUT_ELEM); [|discriminate H].
  destruct (negb _); [index_cases H|].
  apply bind_raise in H. destruct H as [H|[c [_ H]]]; [|index_cases H].
  revert H. apply for_each_no_index. intros y c e''. apply parse_region_no_index.
Qed.

Lemma list_last_nonempty {A : Type} (xs : list A) :
  xs <> [] -> exists x, list_last xs = Ok x.
Proof.
  intros H. destruct (exists_last H) as (ys & y & ->).
  exists y. apply list_last_snoc.
Qed.

Lemma has_div_last (ctx : Context.t) :
  has_div ctx -> exists d, list_last (ctx_divs ctx) = Ok d.
Proof.
  unfold has_div, doc_shape. intros H. apply list_last_nonempty.
  intros E. rewrite E in H. apply H. reflexivity.
Qed.

Lemma has_paragraph_last (ctx : Context.t) :
  has_paragraph ctx ->
  exists d p, list_last (ctx_divs ctx) = Ok d /\ list_last (Div.paragraphs d) = Ok p.
Proof.
  intros (ds & l & idx & E).
  destruct (has_div_last ctx) as [d Hd].
  { unfold has_div. rewrite E. destruct ds; discriminate. }
  exists d. unfold doc_shape in E. rewrite (list_last_ok _ _ Hd) in E at 1.
  rewrite map_app in E. cbn [List.map] in E. apply app_inj_tail in E.
  destruct E as [_ E].
  destruct (list_last_nonempty (Div.paragraphs d)) as [p Hp].
  { intros E'. unfold div_shape in E. rewrite E' in E. destruct l; discriminate E. }
  exists p. auto.
Qed.

Lemma has_paragraph_div (ctx : Context.t) : has_paragraph ctx -> has_div ctx.
Proof. intros (ds & l & idx & E). unfold has_div. rewrite E. destruct ds; discriminate. Qed.

Lemma list_last_no_index_div (ctx : Context.t) (e : exn) :
  has_div ctx -> list_last (ctx_divs ctx) = Raise e -> is_index_error e = false.
Proof. intros H. destruct (has_div_last _ H) as [d ->]. discriminate. Qed.

Lemma append_content_no_index (c : content) (ctx : Context.t) (e : exn) :
  has_paragraph ctx -> append_content c ctx = Raise e -> is_index_error e = false.
Proof.
  intros H. destruct (has_paragraph_last _ H) as (d & p & Hd & Hp).
  unfold append_content. rewrite Hd. cbn [mbind result_bind]. rewrite Hp.
  discriminate.
Qed.

Lemma append_paragraph_no_index (para : Paragraph.t) (ctx : Context.t) (e : exn) :
  has_div ctx -> append_paragraph para ctx = Raise e -> is_index_error e = false.
Proof.
  intros H. destruct (has_div_last _ H) as [d Hd].
  unfold append_paragraph. rewrite Hd. discriminate.
Qed.

Lemma resolve_style_no_index (style_stack : list string) (ctx : Context.t) (e : exn) :
  _resolve_style style_stack ctx = Raise e -> is_index_error e = false.
Proof.
  unfold _resolve_style. intros H.
  apply bind_raise in H. destruct H as [H|[st0 [_ H]]].
  { unfold resolve_seed in H.
    apply bind_raise in H. destruct H as [H|[rs [_ H]]]; [|discriminate H].
    exact (compute_no_index _ _ _ _ _ H). }
  apply bind_raise in H. destruct H as [H|[st1 [_ H]]]; [|discriminate H].
  revert H. apply for_each_no_index. intros [i value] s e' H.
  rewrite resolve_scope_entry in H.
  revert H. apply for_each_no_index. intros id s' e'' H.
  unfold resolve_id in H.
  destruct (negb _); [discriminate H|].
  destruct (Context.styles ctx !! id) as [p|]; [|injection H as <-; reflexivity].
  destruct (ResolvedStyle.merge_properties (fst s') p) as [rs mask].
  apply bind_raise in H. destruct H as [H|[rs' [_ H]]]; [|discriminate H].
  exact (compute_no_index _ _ _ _ _ H).
Qed.

Lemma parse_timecode_no_index (attr input : string) (e : exn) :
  _parse_timecode attr input = Raise e -> is_index_error e = false.
Proof.
  unfold _parse_timecode.
  destruct (timecode_body input) as [[secs sc]|e'] eqn:Hb.
  - destruct (Py.str_truthy sc); [|discriminate]. intros [= <-]. reflexivity.
  - apply timecode_body_raises in Hb.
    destruct e'; intros [= <-]; try reflexivity; destruct Hb; discriminate.
Qed.

Lemma parse_space_no_index (elem : Element) (e : exn) :
  parse_space elem = Raise e -> is_index_error e = false.
Proof.
  unfold parse_space. destruct (get_nonempty elem SPACE_ATTR); [|discriminate].
  intros H. apply value_error_not_index. exact (parse_enum_raises _ _ _ _ H).
Qed.

#[local] Hint Resolve resolve_style_no_index parse_timecode_no_index
  parse_space_no_index : noindex.

(** A span or a line break, appended to the last paragraph. *)
Lemma parse_content_no_index (elem : Element) (st : walk_state) (e : exn) :
  has_paragraph (snd st) ->
  parse_content elem st = Raise e -> is_index_error e = false.
Proof.
  destruct st as [stack ctx]. cbn [snd]. intros Hp. unfold parse_content.
  destruct (String.eqb (ET.tag elem) BR_ELEM).
  { intros H. apply bind_raise in H. destruct H as [H|[c [_ H]]]; [|discriminate H].
    exact (append_content_no_index _ _ _ Hp H). }
  destruct (negb _); [discriminate|].
  intros H.
  apply bind_raise in H. destruct H as [H|[id [_ H]]]; [eauto with noindex|].
  apply bind_raise in H. destruct H as [H|[ctx1 [H1 H]]].
  { destruct (Py.str_truthy id); [eauto with noindex | discriminate H]. }
  apply bind_raise in H. destruct H as [H|[rs [_ H]]]; [eauto with noindex|].
  apply bind_raise in H. destruct H as [H|[sp [_ H]]]; [eauto with noindex|].
  apply bind_raise in H. destruct H as [H|[ctx2 [_ H]]].
  { revert H. apply append_content_no_index.
    apply optional_add_id_frame in H1. destruct H1 as [_ S1].
    unfold has_paragraph. rewrite S1. exact Hp. }
  rewrite push_pop in H. discriminate H.
Qed.

Lemma parse_content_has_paragraph (elem : Element) (st st' : walk_state) :
  has_paragraph (snd st) -> parse_content elem st = Ok st' -> has_paragraph (snd st').
Proof.
  intros Hp H. apply parse_content_frame in H. destruct H as [_ S].
  unfold has_paragraph. rewrite S. exact Hp.
Qed.

Lemma parse_paragraph_no_index (parent : Z) (elem : Element) (st : walk_state)
    (e : exn) :
  has_div (snd st) ->
  parse_paragraph parent elem st = Raise e -> is_index_error e = false.
Proof.
  destruct st as [stack ctx]. cbn [snd]. intros Hd. unfold parse_paragraph.
  destruct (negb _); [discriminate|].
  intros H.
  apply bind_raise in H. destruct H as [H|[id [_ H]]]; [eauto with noindex|].
  apply bind_raise in H. destruct H as [H|[ctx1 [H1 H]]]; [eauto with noindex|].
  apply bind_raise in H. destruct H as [H|[b [_ H]]]; [index_cases H|].
  apply bind_raise in H. destruct H as [H|[en [_ H]]]; [index_cases H|].
  apply bind_raise in H. destruct H as [H|[[ri rstyle] [_ H]]].
  { unfold lookup_region in H. index_cases H. }
  apply bind_raise in H. destruct H as [H|[ri' [_ H]]].
  { unfold paragraph_region in H. index_cases H. }
  apply bind_raise in H. destruct H as [H|[rs [_ H]]]; [eauto with noindex|].
  apply bind_raise in H. destruct H as [H|[sp [_ H]]]; [eauto with noindex|].
  apply add_id_frame in H1. destruct H1 as [_ S1].
  assert (Hd1 : has_div ctx1) by (unfold has_div; rewrite S1; exact Hd).
  apply bind_raise in H. destruct H as [H|[ctx2 [H2 H]]].
  { exact (append_paragraph_no_index _ _ _ Hd1 H). }
  apply append_paragraph_frame in H2. destruct H2 as [_ (ds & l & _ & E2)].
  assert (Hp2 : has_paragraph ctx2) by (exists ds, l, ri'; exact E2).
  apply bind_raise in H. destruct H as [H|[[stack3 ctx3] [H3 H]]].
  { unfold _parse_paragraph_content in H. cbn [snd] in H.
    destruct (has_paragraph_last _ Hp2) as (d & p & Hd2 & Hp).
    rewrite Hd2 in H. cbn [mbind result_bind] in H. rewrite Hp in H.
    cbn [mbind result_bind] in H. revert H.
    apply (for_each_raise_inv (fun s => has_paragraph (snd s))
             (fun e => is_index_error e = false)).
    - intros x s s'. apply parse_content_has_paragraph.
    - intros x s e'. apply parse_content_no_index.
    - exact Hp2. }
  unfold _parse_paragraph_content in H3.
  apply bind_ok in H3. destruct H3 as [p [_ H3]].
  apply (for_each_preserves fst _ _ parse_content_stack) in H3.
  cbn [fst] in H3. subst stack3.
  rewrite push_pop in H. cbn [mbind result_bind] in H.
  rewrite pushleft_popleft in H. discriminate H.
Qed.

Lemma parse_paragraph_has_div (parent : Z) (elem : Element) (st st' : walk_state) :
  has_div (snd st) /\ (parent = -1 \/ in_table (snd st) parent) ->
  parse_paragraph parent elem st = Ok st' ->
  has_div (snd st') /\ (parent = -1 \/ in_table (snd st') parent).
Proof.
  intros [Hd Hpar] H. apply (parse_paragraph_shape _ _ _ _ Hpar) in H.
  destruct H as [F S]. split.
  - unfold has_div in *. destruct S as [->|(ds & l & idx & _ & -> & _)]; [exact Hd|].
    destruct ds; discriminate.
  - destruct Hpar as [|Hp]; [auto|]. right.
    exact (in_table_frame _ _ _ (eq_sym F) Hp).
Qed.

Lemma ctx_paragraphs_no_index (ctx : Context.t) (e : exn) :
  has_div ctx -> ctx_paragraphs ctx = Raise e -> is_index_error e = false.
Proof.
  intros H. destruct (has_div_last _ H) as [d Hd].
  unfold ctx_paragraphs. rewrite Hd. discriminate.
Qed.

Lemma parse_division_no_index (elem : Element) (st : walk_state) (e : exn) :
  parse_division elem st = Raise e -> is_index_error e = false.
Proof.
  destruct st as [stack ctx]. unfold parse_division.
  destruct (negb _); [discriminate|].
  intros H.
  apply bind_raise in H. destruct H as [H|[id [_ H]]]; [eauto with noindex|].
  apply bind_raise in H. destruct H as [H|[ctx1 [_ H]]].
  { destruct (Py.str_truthy id); [eauto with noindex | discriminate H]. }
  apply bind_raise in H. destruct H as [H|[[ri rstyle] [Hl H]]].
  { unfold lookup_region in H. index_cases H. }
  apply bind_raise in H. destruct H as [H|[rs [_ H]]]; [eauto with noindex|].
  apply lookup_region_in_table in Hl.
  match type of H with
  | mbind _ (_parse_para _ _ (?s, ?c)) = _ =>
      assert (Hinv : has_div (snd (s, c))
                     /\ (ri = -1 \/ in_table (snd (s, c)) ri))
  end.
  { cbn [snd]. split; [|exact Hl].
    unfold has_div, doc_shape, append_div. rewrite ctx_divs_set, map_app.
    destruct (List.map div_shape (ctx_divs ctx1)); discriminate. }
  apply bind_raise in H. destruct H as [H|[[stack3 ctx3] [H3 H]]].
  { unfold _parse_para in H.
    apply bind_raise in H. destruct H as [H|[ps0 [_ H]]].
    { exact (ctx_paragraphs_no_index _ _ (proj1 Hinv) H). }
    apply bind_raise in H. destruct H as [H|[st1 [H1 H]]].
    { revert H.
      apply (for_each_raise_inv
               (fun s => has_div (snd s) /\ (ri = -1 \/ in_table (snd s) ri))
               (fun e => is_index_error e = false)); [| |exact Hinv].
      - intros x s s'. apply parse_paragraph_has_div.
      - intros x s e' [Hd _]. apply parse_paragraph_no_index. exact Hd. }
    apply (for_each_inv _ _ _ (parse_paragraph_has_div ri) _ _ Hinv) in H1.
    apply bind_raise in H. destruct H as [H|[ps [_ H]]].
    { exact (ctx_paragraphs_no_index _ _ (proj1 H1) H). }
    index_cases H. }
  unfold _parse_para in H3.
  apply bind_ok in H3. destruct H3 as [ps0 [_ H3]].
  apply bind_ok in H3. destruct H3 as [st1 [H3 Hl3]].
  apply bind_ok in Hl3. destruct Hl3 as [ps [_ Hl3]].
  destruct (list_truthy ps); [|discriminate Hl3]. injection Hl3 as ->.
  apply (for_each_preserves fst _ _ (parse_paragraph_stack ri)) in H3.
  cbn [fst] in H3. subst stack3.
  rewrite push_pop in H. cbn [mbind result_bind] in H.
  rewrite pushleft_popleft in H. discriminate H.
Qed.

Lemma parse_body_no_index (root : Element) (ctx : Context.t) (e : exn) :
  _parse_body root ctx = Raise e -> is_index_error e = false.
Proof.
  unfold _parse_body. intros H.
  destruct (last_and_count _) as [[body|] count]; [|index_cases H].
  destruct (1 <? count); [index_cases H|].
  apply bind_raise in H. destruct H as [H|[rs [_ H]]]; [eauto with noindex|].
  apply bind_raise in H. destruct H as [H|[st [_ H]]]; [|discriminate H].
  unfold _parse_div in H.
  apply bind_raise in H. destruct H as [H|[st1 [_ H]]]; [|index_cases H].
  revert H. apply for_each_no_index. intros x s e'. apply parse_division_no_index.
Qed.

(** ** The header is written once *)

Lemma add_id_header (ctx ctx' : Context.t) (id : string) :
  Context.add_id ctx id = Ok ctx' -> ctx_header ctx' = ctx_header ctx.
Proof. intros H. apply add_id_ok in H. destruct H as [_ ->]. reflexivity. Qed.

Lemma optional_add_id_header (ctx ctx' : Context.t) (id : string) :
  (if Py.str_truthy id then Context.add_id ctx id else Ok ctx) = Ok ctx' ->
  ctx_header ctx' = ctx_header ctx.
Proof.
  destruct (Py.str_truthy id); [apply add_id_header|]. intros [= <-]. reflexivity.
Qed.

Lemma append_content_header (c : content) (ctx ctx' : Context.t) :
  append_content c ctx = Ok ctx' -> ctx_header ctx' = ctx_header ctx.
Proof.
  unfold append_content. intros H.
  apply bind_ok in H. destruct H as [d [_ H]].
  apply bind_ok in H. destruct H as [p [_ H]].
  injection H as <-. reflexivity.
Qed.

Lemma append_paragraph_header (para : Paragraph.t) (ctx ctx' : Context.t) :
  append_paragraph para ctx = Ok ctx' -> ctx_header ctx' = ctx_header ctx.
Proof.
  unfold append_paragraph. intros H.
  apply bind_ok in H. destruct H as [d [_ H]].
  injection H as <-. reflexivity.
Qed.

Lemma parse_content_header (elem : Element) (st st' : walk_state) :
  parse_content elem st = Ok st' -> ctx_header (snd st') = ctx_header (snd st).
Proof.
  destruct st as [stack ctx]. unfold parse_content. cbn [snd].
  destruct (String.eqb (ET.tag elem) BR_ELEM).
  { intros H. apply bind_ok in H. destruct H as [c [Hc H]]. injection H as <-.
    exact (append_content_header _ _ _ Hc). }
  destruct (negb _); [intros [= <-]; reflexivity|].
  intros H.
  apply bind_ok in H. destruct H as [id [_ H]].
  apply bind_ok in H. destruct H as [ctx1 [H1 H]].
  apply bind_ok in H. destruct H as [rs [_ H]].
  apply bind_ok in H. destruct H as [sp [_ H]].
  apply bind_ok in H. destruct H as [ctx2 [H2 H]].
  apply bind_ok in H. destruct H as [stack' [_ H]].
  injection H as <-. cbn [snd].
  rewrite (append_content_header _ _ _ H2). exact (optional_add_id_header _ _ _ H1).
Qed.

Lemma parse_paragraph_header (parent : Z) (elem : Element) (st st' : walk_state) :
  parse_paragraph parent elem st = Ok st' ->
  ctx_header (snd st') = ctx_header (snd st).
Proof.
  destruct st as [stack ctx]. cbn [snd].
  destruct (String.eqb_spec (ET.tag elem) P_ELEM) as [Ht|Ht].
  2: { unfold parse_paragraph. apply String.eqb_neq in Ht. rewrite Ht.
       intros [= <-]. reflexivity. }
  intros H. apply (parse_paragraph_ok _ _ _ _ _ Ht) in H.
  destruct H as (id & ctx1 & own & style & idx & para & ctx2 & stack2 & st3
                 & _ & H1 & _ & _ & _ & _ & H2 & H3 & ->).
  unfold _parse_paragraph_content in H3.
  apply bind_ok in H3. destruct H3 as [p [_ H3]].
  apply (for_each_preserves (fun s => ctx_header (snd s)) _ _ parse_content_header)
    in H3.
  cbn [snd] in H3. rewrite H3, (append_paragraph_header _ _ _ H2).
  exact (add_id_header _ _ _ H1).
Qed.

Lemma parse_division_header (elem : Element) (st st' : walk_state) :
  parse_division elem st = Ok st' -> ctx_header (snd st') = ctx_header (snd st).
Proof.
  destruct st as [stack ctx]. unfold parse_division. cbn [snd].
  destruct (negb _); [intros [= <-]; reflexivity|].
  intros H.
  apply bind_ok in H. destruct H as [id [_ H]].
  apply bind_ok in H. destruct H as [ctx1 [H1 H]].
  apply bind_ok in H. destruct H as [[ri rstyle] [_ H]].
  apply bind_ok in H. destruct H as [rs [_ H]].
  apply bind_ok in H. destruct H as [[stack3 ctx3] [Hc H]].
  apply bind_ok in H. destruct H as [stack4 [_ H]].
  apply bind_ok in H. destruct H as [stack5 [_ H]].
  injection H as <-. cbn [snd].
  unfold _parse_para in Hc.
  apply bind_ok in Hc. destruct Hc as [ps0 [_ Hc]].
  apply bind_ok in Hc. destruct Hc as [st1 [Hc Hl]].
  apply bind_ok in Hl. destruct Hl as [ps [_ Hl]].
  destruct (list_truthy ps); [|discriminate Hl]. injection Hl as ->.
  apply (for_each_preserves (fun s => ctx_header (snd s)) _ _
           (parse_paragraph_header ri)) in Hc.
  cbn [snd] in Hc. rewrite Hc. exact (optional_add_id_header _ _ _ H1).
Qed.

Lemma parse_body_header (root : Element) (ctx ctx' : Context.t) :
  _parse_body root ctx = Ok ctx' -> ctx_header ctx' = ctx_header ctx.
Proof.
  unfold _parse_body.
  destruct (last_and_count _) as [[body|] count]; [|discriminate].
  destruct (1 <? count); [discriminate|]. intros H.
  apply bind_ok in H. destruct H as [rs [_ H]].
  apply bind_ok in H. destruct H as [st [H1 H]]. injection H as <-.
  unfold _parse_div in H1.
  apply bind_ok in H1. destruct H1 as [st1 [H1 H]].
  destruct (list_truthy _); [|discriminate H]. injection H as <-.
  apply (for_each_preserves (fun s => ctx_header (snd s)) _ _ parse_division_header)
    in H1.
  exact H1.
Qed.


Lemma parse_style_header `{pf : !PyFloat} (elem : Element) (ctx ctx' : Context.t) :
  parse_style elem ctx = Ok ctx' -> ctx_header ctx' = ctx_header ctx.
Proof.
  unfold parse_style. destruct (negb _); [intros [= <-]; reflexivity|].
  intros H.
  apply bind_ok in H. destruct H as [id [_ H]].
  apply bind_ok in H. destruct H as [ctx1 [H1 H]].
  apply bind_ok in H. destruct H as [props [_ H]].
  injection H as <-. exact (add_id_header _ _ _ H1).
Qed.

Lemma parse_region_header `{pf : !PyFloat} (elem : Element) (ctx ctx' : Context.t) :
  parse_region elem ctx = Ok ctx' -> ctx_header ctx' = ctx_header ctx.
Proof.
  unfold parse_region. destruct (negb _); [intros [= <-]; reflexivity|].
  intros H.
  apply bind_ok in H. destruct H as [id [_ H]].
  apply bind_ok in H. destruct H as [ctx1 [H1 H]].
  apply bind_ok in H. destruct H as [st [_ H]].
  destruct (negb (rs_origin_parsed st)); [discriminate H|].
  destruct (negb (rs_extent_parsed st)); [discriminate H|].
  injection H as <-. exact (add_id_header _ _ _ H1).
Qed.

Lemma parse_head_child_header `{pf : !PyFloat} (elem : Element) (st st' : head_state) :
  parse_head_child elem st = Ok st' ->
  ctx_header (hs_ctx st') = ctx_header (hs_ctx st).
Proof.
  unfold parse_head_child.
  destruct (String.eqb (ET.tag elem) STYLING_ELEM).
  { destruct (negb _); [discriminate|]. intros H.
    apply bind_ok in H. destruct H as [ctx [H1 H]].
    destruct (dict_is_empty _); [discriminate|]. injection H as <-.
    exact (for_each_preserves ctx_header _ _ parse_style_header _ _ H1). }
  destruct (String.eqb (ET.tag elem) LAYOUT_ELEM); [|intros [= <-]; reflexivity].
  destruct (negb _); [discriminate|]. intros H.
  apply bind_ok in H. destruct H as [ctx [H1 H]].
  destruct (list_truthy _); [|discriminate]. injection H as <-.
  exact (for_each_preserves ctx_header _ _ parse_region_header _ _ H1).
Qed.

Lemma parse_head_header `{pf : !PyFloat} (root : Element) (ctx ctx' : Context.t) :
  _parse_head root ctx = Ok ctx' -> ctx_header ctx' = ctx_header ctx.
Proof.
  unfold _parse_head.
  destruct (last_and_count _) as [[head|] count]; [|discriminate].
  destruct (1 <? count); [discriminate|]. intros H.
  apply bind_ok in H. destruct H as [st [H1 H]].
  destruct (hs_styling_count st =? 0); [discriminate|].
  destruct (hs_layout_count st =? 0); [discriminate|].
  injection H as <-.
  exact (for_each_preserves (fun s => ctx_header (hs_ctx s)) _ _
           parse_head_child_header _ _ H1).
Qed.

(** X14.  The header of a document that [parse] returns: the root is [tt]
    with the time base [media], the language is the stripped [xml:lang]
    attribute of the root, which must be present, and the active area, the
    cell resolution and the space are the parsed attributes of the root, or
    the defaults when the attribute is absent or empty; nothing of the head
    or the body changes them. *)
Theorem parsed_document_header `{pf : !PyFloat} (root : Element) (doc : Document.t) :
  parse root = Ok doc ->
  ET.tag root = TT_ELEM
  /\ ET.get root TIME_BASE_ATTR = Some "media"
  /\ ET.get root LANG_ATTR <> None
  /\ Document.language doc = Py.strip (ET.get_default root LANG_ATTR "")
  /\ optional_attribute root ACTIVE_AREA_ATTR ActiveArea.parse ActiveArea.default
     = Ok (Document.active_area doc)
  /\ optional_attribute root CELL_RESOLUTION_ATTR CellResolution.parse
       CellResolution.default
     = Ok (Document.cell_resolution doc)
  /\ optional_attribute root SPACE_ATTR Space.parse Space.DEFAULT
     = Ok (Document.space doc).
Proof.
  unfold parse, optional_attribute, ET.get_default.
  destruct (String.eqb_spec (ET.tag root) TT_ELEM) as [Ht|]; [|discriminate].
  cbn [negb].
  destruct (ET.get root TIME_BASE_ATTR) as [v|]; [|discriminate].
  destruct (String.eqb_spec v "media") as [->|]; [|discriminate].
  cbn [negb]. intros H.
  apply bind_ok in H. destruct H as [d1 [H1 H]].
  apply bind_ok in H. destruct H as [d2 [H2 H]].
  apply bind_ok in H. destruct H as [d3 [H3 H]].
  apply bind_ok in H. destruct H as [d4 [H4 H]].
  apply bind_ok in H. destruct H as [ctx1 [Hh H]].
  apply bind_ok in H. destruct H as [ctx2 [Hb H]]. injection H as <-.
  apply parse_head_header in Hh. apply parse_body_header in Hb.
  assert (E : doc_header (Context.document ctx2) = doc_header d4).
  { fold (ctx_header ctx2). rewrite Hb, Hh. reflexivity. }
  unfold doc_header in E. injection E as -> -> -> ->.
  split; [exact Ht|]. split; [reflexivity|].
  destruct (ET.get root LANG_ATTR) as [l|]; [|discriminate H3].
  injection H3 as <-. split; [discriminate|].
  destruct (get_nonempty root ACTIVE_AREA_ATTR);
    [apply bind_ok in H1; destruct H1 as [? [-> H1]] |]; injection H1 as <-;
    (destruct (get_nonempty root CELL_RESOLUTION_ATTR);
     [apply bind_ok in H2; destruct H2 as [? [-> H2]] |]; injection H2 as <-);
    (destruct (get_nonempty root SPACE_ATTR);
     [apply bind_ok in H4; destruct H4 as [? [-> H4]] |]; injection H4 as <-);
    repeat split.
Qed.

Lemma parsed_document_header_witness :
  exists doc,
    @parse decimal_float doc_two_rows = Ok doc
    /\ Document.language doc = "en"
    /\ Document.cell_resolution doc = CellResolution.mk 40 2.
Proof.
  eexists. split; [vm_compute; reflexivity|].
  destruct (@parsed_document_header decimal_float doc_two_rows _
              ltac:(vm_compute; reflexivity))
    as (_ & _ & _ & Hl & _ & Hc & _).
  split; [exact Hl|]. vm_compute. reflexivity.
Defined.

(** ** One head, one styling, one layout, one body *)

Lemma last_and_count_one (elems : list Element) (h : option Element) (count : Z) :
  last_and_count elems = (h, count) -> (1 <? count) = false ->
  match h with Some x => elems = [x] | None => elems = [] end.
Proof.
  intros H Hc. destruct elems as [|x [|y elems]].
  - injection H as <- _. reflexivity.
  - injection H as <- _. reflexivity.
  - exfalso. apply (f_equal snd) in H. unfold last_and_count in H.
    rewrite last_and_count_from in H. cbn [snd List.length] in H.
    apply Z.ltb_ge in Hc. lia.
Qed.

(** The counters of the loop of [_parse_head]: each of them counts the
    children of its kind, and there is no second one. *)
Lemma parse_head_children_counts `{pf : !PyFloat} (xs : list Element) :
  forall st st',
    for_each parse_head_child xs st = Ok st' ->
    ((List.filter (fun c => String.eqb (ET.tag c) STYLING_ELEM) xs = []
      /\ hs_styling_count st' = hs_styling_count st)
     \/ (exists s, List.filter (fun c => String.eqb (ET.tag c) STYLING_ELEM) xs = [s]
           /\ hs_styling_count st = 0 /\ hs_styling_count st' = 1))
    /\ ((List.filter (fun c => String.eqb (ET.tag c) LAYOUT_ELEM) xs = []
         /\ hs_layout_count st' = hs_layout_count st)
        \/ (exists l, List.filter (fun c => String.eqb (ET.tag c) LAYOUT_ELEM) xs = [l]
              /\ hs_layout_count st = 0 /\ hs_layout_count st' = 1)).
Proof.
  induction xs as [|x xs IH]; intros st st' H.
  - injection H as <-. split; left; auto.
  - cbn [for_each] in H. apply bind_ok in H. destruct H as [st1 [H1 H]].
    specialize (IH _ _ H). destruct IH as [IS IL].
    cbn [List.filter]. unfold parse_head_child in H1.
    destruct (String.eqb_spec (ET.tag x) STYLING_ELEM) as [Es|Es].
    + assert (El : String.eqb (ET.tag x) LAYOUT_ELEM = false)
        by (rewrite Es; reflexivity).
      rewrite El.
      destruct (Z.eqb_spec (hs_styling_count st) 0) as [Ec|]; [|discriminate H1].
      cbn [negb] in H1.
      apply bind_ok in H1. destruct H1 as [ctx [_ H1]].
      destruct (dict_is_empty _); [discriminate H1|]. injection H1 as <-.
      cbn [hs_styling_count hs_layout_count] in IS, IL. split; [|exact IL].
      right. exists x. destruct IS as [[-> ->]|(s & _ & E0 & _)]; [|lia].
      split; [reflexivity|]. split; [exact Ec | lia].
    + destruct (String.eqb_spec (ET.tag x) LAYOUT_ELEM) as [El|El].
      * destruct (Z.eqb_spec (hs_layout_count st) 0) as [Ec|]; [|discriminate H1].
        cbn [negb] in H1.
        apply bind_ok in H1. destruct H1 as [ctx [_ H1]].
        destruct (list_truthy _); [|discriminate H1]. injection H1 as <-.
        cbn [hs_styling_count hs_layout_count] in IS, IL. split; [exact IS|].
        right. exists x. destruct IL as [[-> ->]|(l & _ & E0 & _)]; [|lia].
        split; [reflexivity|]. split; [exact Ec | lia].
      * injection H1 as <-. split; assumption.
Qed.

(** X15.  The element tree of a document that [parse] returns has one
    [head] and one [body] below the root, and one [styling] and one [layout]
    below the head. *)
Theorem parsed_document_structure `{pf : !PyFloat} (root : Element)
    (doc : Document.t) :
  parse root = Ok doc ->
  exists head styling layout body,
    ET.iterfind root HEAD_ELEM = [head]
    /\ ET.iterfind head STYLING_ELEM = [styling]
    /\ ET.iterfind head LAYOUT_ELEM = [layout]
    /\ ET.iterfind root BODY_ELEM = [body].
Proof.
  unfold parse.
  destruct (negb _); [discriminate|].
  destruct (ET.get root TIME_BASE_ATTR) as [v|]; [|discriminate].
  destruct (negb _); [discriminate|]. intros H.
  apply bind_ok in H. destruct H as [d1 [_ H]].
  apply bind_ok in H. destruct H as [d2 [_ H]].
  apply bind_ok in H. destruct H as [d3 [_ H]].
  apply bind_ok in H. destruct H as [d4 [_ H]].
  apply bind_ok in H. destruct H as [ctx1 [Hh H]].
  apply bind_ok in H. destruct H as [ctx2 [Hb _]].
  unfold _parse_head in Hh.
  destruct (last_and_count (ET.iterfind root HEAD_ELEM)) as [[head|] hc] eqn:Eh;
    [|discriminate Hh].
  destruct (1 <? hc) eqn:Ehc; [discriminate Hh|].
  apply (last_and_count_one _ _ _ Eh) in Ehc.
  apply bind_ok in Hh. destruct Hh as [st [Hl Hh]].
  destruct (Z.eqb_spec (hs_styling_count st) 0) as [|Hs]; [discriminate Hh|].
  destruct (Z.eqb_spec (hs_layout_count st) 0) as [|Hy]; [discriminate Hh|].
  apply parse_head_children_counts in Hl. cbn [hs_styling_count hs_layout_count] in Hl.
  destruct Hl as [[[_ E]|(styling & Es & _)] [[_ E']|(layout & El & _)]];
    try contradiction.
  unfold _parse_body in Hb.
  destruct (last_and_count (ET.iterfind root BODY_ELEM)) as [[body|] bc] eqn:Eb;
    [|discriminate Hb].
  destruct (1 <? bc) eqn:Ebc; [discriminate Hb|].
  apply (last_and_count_one _ _ _ Eb) in Ebc.
  exists head, styling, layout, body. auto.
Qed.

Lemma parsed_document_structure_witness :
  exists head styling layout body,
    ET.iterfind doc_two_rows HEAD_ELEM = [head]
    /\ ET.iterfind head STYLING_ELEM = [styling]
    /\ ET.iterfind head LAYOUT_ELEM = [layout]
    /\ ET.iterfind doc_two_rows BODY_ELEM = [body].
Proof.
  apply (@parsed_document_structure decimal_float doc_two_rows
           (match @parse decimal_float doc_two_rows with
            | Ok d => d | Raise _ => Document.default end)).
  vm_compute. reflexivity.
Defined.

(** ** The document mirrors the element tree *)

















(** ** The regions of the document *)

Lemma parse_region_count `{pf : !PyFloat} (elem : Element) (ctx ctx' : Context.t) :
  parse_region elem ctx = Ok ctx' ->
  List.length (Document.regions (Context.document ctx'))
  = (List.length (Document.regions (Context.document ctx))
     + if String.eqb (ET.tag elem) REGION_ELEM then 1 else 0)%nat.
Proof.
  unfold parse_region. destruct (String.eqb (ET.tag elem) REGION_ELEM).
  2: { intros [= <-]. cbn [negb]. lia. }
  cbn [negb]. intros H.
  apply bind_ok in H. destruct H as [id [_ H]].
  apply bind_ok in H. destruct H as [ctx1 [H1 H]].
  apply bind_ok in H. destruct H as [st [_ H]].
  destruct (negb (rs_origin_parsed st)); [discriminate H|].
  destruct (negb (rs_extent_parsed st)); [discriminate H|].
  injection H as <-. apply add_id_ok in H1. destruct H1 as [_ ->].
  cbn [Context.document Context.set_document Context.set_regions Context.set_ids
       Document.regions set_doc_regions].
  rewrite length_app. reflexivity.
Qed.

Lemma parse_regions_count `{pf : !PyFloat} (elems : list Element) :
  forall ctx ctx',
    for_each parse_region elems ctx = Ok ctx' ->
    List.length (Document.regions (Context.document ctx'))
    = (List.length (Document.regions (Context.document ctx))
       + List.length (List.filter (fun c => String.eqb (ET.tag c) REGION_ELEM) elems))%nat.
Proof.
  induction elems as [|x elems IH]; intros ctx ctx' H.
  - injection H as <-. cbn [List.filter List.length]. lia.
  - cbn [for_each] in H. apply bind_ok in H. destruct H as [c1 [H1 H]].
    apply parse_region_count in H1. rewrite (IH _ _ H), H1. cbn [List.filter].
    destruct (String.eqb (ET.tag x) REGION_ELEM); cbn [List.length]; lia.
Qed.

Lemma parse_head_children_regions `{pf : !PyFloat} (xs : list Element) :
  forall st st',
    for_each parse_head_child xs st = Ok st' ->
    List.length (Document.regions (Context.document (hs_ctx st')))
    = (List.length (Document.regions (Context.document (hs_ctx st)))
       + List.length
           (List.flat_map (fun l => ET.iterfind l REGION_ELEM)
              (List.filter (fun c => String.eqb (ET.tag c) LAYOUT_ELEM) xs)))%nat.
Proof.
  induction xs as [|x xs IH]; intros st st' H.
  - injection H as <-. cbn [List.filter List.flat_map List.length]. lia.
  - cbn [for_each] in H. apply bind_ok in H. destruct H as [st1 [H1 H]].
    rewrite (IH _ _ H). clear IH H. cbn [List.filter].
    unfold parse_head_child in H1.
    destruct (String.eqb_spec (ET.tag x) STYLING_ELEM) as [Es|Es].
    + assert (El : String.eqb (ET.tag x) LAYOUT_ELEM = false)
        by (rewrite Es; reflexivity).
      rewrite El. destruct (negb _); [discriminate H1|].
      apply bind_ok in H1. destruct H1 as [ctx [H1 H2]].
      destruct (dict_is_empty _); [discriminate H2|]. injection H2 as <-.
      cbn [hs_ctx].
      assert (E : region_frame ctx = region_frame (hs_ctx st)).
      { revert H1. unfold _parse_styles.
        apply (for_each_inv (fun c => region_frame c = region_frame (hs_ctx st)));
          [|reflexivity].
        intros y s s' I Hy. apply parse_style_frame in Hy. destruct Hy as [-> _].
        exact I. }
      injection E as _ ->. reflexivity.
    + destruct (String.eqb (ET.tag x) LAYOUT_ELEM).
      * destruct (negb _); [discriminate H1|].
        apply bind_ok in H1. destruct H1 as [ctx [H1 H2]].
        destruct (list_truthy _); [|discriminate H2]. injection H2 as <-.
        cbn [hs_ctx List.flat_map]. unfold _parse_regions in H1.
        apply parse_regions_count in H1. rewrite H1, length_app.
        unfold ET.iterfind. lia.
      * injection H1 as <-. reflexivity.
Qed.

(** X17.  The document has one region for each [region] child of the
    [layout] element of the head. *)
Theorem document_regions_count `{pf : !PyFloat} (root : Element) (doc : Document.t) :
  parse root = Ok doc ->
  exists head layout,
    ET.iterfind root HEAD_ELEM = [head]
    /\ ET.iterfind head LAYOUT_ELEM = [layout]
    /\ List.length (Document.regions doc)
       = List.length (ET.iterfind layout REGION_ELEM).
Proof.
  unfold parse.
  destruct (negb _); [discriminate|].
  destruct (ET.get root TIME_BASE_ATTR) as [v|]; [|discriminate].
  destruct (negb _); [discriminate|]. intros H.
  apply bind_ok in H. destruct H as [d1 [H1 H]].
  apply bind_ok in H. destruct H as [d2 [H2 H]].
  apply bind_ok in H. destruct H as [d3 [H3 H]].
  apply bind_ok in H. destruct H as [d4 [H4 H]].
  apply bind_ok in H. destruct H as [ctx1 [Hh H]].
  apply bind_ok in H. destruct H as [ctx2 [Hb H]]. injection H as <-.
  assert (E1 : Document.regions d1 = []).
  { destruct (get_nonempty root ACTIVE_AREA_ATTR).
    - apply bind_ok in H1. destruct H1 as [a [_ H1]]. injection H1 as <-. reflexivity.
    - injection H1 as <-. reflexivity. }
  assert (E2 : Document.regions d2 = []).
  { destruct (get_nonempty root CELL_RESOLUTION_ATTR).
    - apply bind_ok in H2. destruct H2 as [a [_ H2]]. injection H2 as <-. exact E1.
    - injection H2 as <-. exact E1. }
  assert (E3 : Document.regions d3 = []).
  { destruct (ET.get root LANG_ATTR); [|discriminate H3].
    injection H3 as <-. exact E2. }
  assert (E4 : Document.regions d4 = []).
  { destruct (get_nonempty root SPACE_ATTR).
    - apply bind_ok in H4. destruct H4 as [a [_ H4]]. injection H4 as <-. exact E3.
    - injection H4 as <-. exact E3. }
  assert (Hf : region_frame ctx2 = region_frame ctx1).
  { apply parse_body_shape in Hb; [apply Hb|].
    apply parse_head_bounded in Hh.
    - destruct Hh as (_ & Hbody & _). unfold ctx_divs. rewrite Hbody.
      cbn [Context.init Context.document].
      clear -H1 H2 H3 H4.
      assert (B1 : Document.body d1 = Document.body Document.default).
      { destruct (get_nonempty root ACTIVE_AREA_ATTR).
        - apply bind_ok in H1. destruct H1 as [a [_ H1]]. injection H1 as <-.
          reflexivity.
        - injection H1 as <-. reflexivity. }
      assert (B2 : Document.body d2 = Document.body Document.default).
      { destruct (get_nonempty root CELL_RESOLUTION_ATTR).
        - apply bind_ok in H2. destruct H2 as [a [_ H2]]. injection H2 as <-.
          exact B1.
        - injection H2 as <-. exact B1. }
      assert (B3 : Document.body d3 = Document.body Document.default).
      { destruct (ET.get root LANG_ATTR); [|discriminate H3].
        injection H3 as <-. exact B2. }
      destruct (get_nonempty root SPACE_ATTR).
      + apply bind_ok in H4. destruct H4 as [a [_ H4]]. injection H4 as <-.
        cbn [Document.body set_doc_space]. rewrite B3. reflexivity.
      + injection H4 as <-. rewrite B3. reflexivity.
    - intros idx (i & style & Hi). cbn in Hi. rewrite lookup_empty in Hi.
      discriminate Hi. }
  injection Hf as _ ->.
  unfold _parse_head in Hh.
  destruct (last_and_count (ET.iterfind root HEAD_ELEM)) as [[head|] hc] eqn:Eh;
    [|discriminate Hh].
  destruct (1 <? hc) eqn:Ehc; [discriminate Hh|].
  apply (last_and_count_one _ _ _ Eh) in Ehc.
  apply bind_ok in Hh. destruct Hh as [st [Hl Hh]].
  destruct (Z.eqb_spec (hs_styling_count st) 0) as [|Hs]; [discriminate Hh|].
  destruct (Z.eqb_spec (hs_layout_count st) 0) as [|Hy]; [discriminate Hh|].
  injection Hh as <-.
  pose proof (parse_head_children_regions _ _ _ Hl) as Hr.
  apply parse_head_children_counts in Hl. cbn [hs_styling_count hs_layout_count] in Hl.
  destruct Hl as [_ [[_ E']|(layout & El & _)]]; [contradiction|].
  exists head, layout. split; [exact Ehc|]. split; [exact El|].
  rewrite Hr. unfold ET.iterfind in El. rewrite El.
  cbn [hs_ctx Context.init Context.document List.flat_map]. rewrite E4, app_nil_r.
  reflexivity.
Qed.

Lemma document_regions_count_witness :
  exists doc,
    @parse decimal_float doc_reused_region = Ok doc
    /\ List.length (Document.regions doc) = 2%nat.
Proof.
  eexists. split; [vm_compute; reflexivity|].
  destruct (@document_regions_count decimal_float doc_reused_region _
              ltac:(vm_compute; reflexivity)) as (head & layout & Eh & El & E).
  rewrite E. vm_compute in Eh. injection Eh as <-.
  vm_compute in El. injection El as <-. vm_compute. reflexivity.
Defined.

(** ** No division by zero in the parse *)

Lemma value_error_not_zero (e : exn) :
  is_value_error e = true -> is_zero_division_error e = false.
Proof. destruct e; (discriminate || reflexivity). Qed.

Create HintDb nozero.

(** The case analysis of a step of the parse that raised. *)
Ltac zero_cases H :=
  repeat first
    [ discriminate H
    | (injection H as <-; reflexivity)
    | solve [eauto with nozero]
    | solve [apply value_error_not_zero;
             first [exact (parse_enum_raises _ _ _ _ H) | eauto with raises]]
    | match type of H with
      | mbind _ ?m = Raise _ =>
          apply bind_raise in H; destruct H as [H|[? [_ H]]]
      | (if ?c then _ else _) = Raise _ => destruct c
      | (let '(_, _) := ?x in _) = Raise _ => destruct x
      | match ?x with _ => _ end = Raise _ => destruct x
      end ].

Lemma parse_id_no_zero (elem : Element) (required : bool) (e : exn) :
  _parse_id elem required = Raise e -> is_zero_division_error e = false.
Proof. unfold _parse_id. intros H. zero_cases H. Qed.

Lemma add_id_no_zero (ctx : Context.t) (id : string) (e : exn) :
  Context.add_id ctx id = Raise e -> is_zero_division_error e = false.
Proof. unfold Context.add_id. intros H. zero_cases H. Qed.

Lemma list_last_no_zero {A : Type} (xs : list A) (e : exn) :
  list_last xs = Raise e -> is_zero_division_error e = false.
Proof. unfold list_last. intros H. zero_cases H. Qed.

Lemma parse_timecode_no_zero (attr input : string) (e : exn) :
  _parse_timecode attr input = Raise e -> is_zero_division_error e = false.
Proof.
  unfold _parse_timecode.
  destruct (timecode_body input) as [[secs sc]|e'] eqn:Hb.
  - destruct (Py.str_truthy sc); [|discriminate]. intros [= <-]. reflexivity.
  - apply timecode_body_raises in Hb.
    destruct e'; intros [= <-]; try reflexivity; destruct Hb; discriminate.
Qed.

Lemma parse_space_no_zero (elem : Element) (e : exn) :
  parse_space elem = Raise e -> is_zero_division_error e = false.
Proof.
  unfold parse_space. destruct (get_nonempty elem SPACE_ATTR); [|discriminate].
  intros H. apply value_error_not_zero. exact (parse_enum_raises _ _ _ _ H).
Qed.

#[local] Hint Resolve parse_id_no_zero add_id_no_zero list_last_no_zero
  parse_timecode_no_zero parse_space_no_zero : nozero.

Lemma for_each_no_zero {A S : Type} (body : A -> S -> result S) (xs : list A) :
  (forall x s e, body x s = Raise e -> is_zero_division_error e = false) ->
  forall s e, for_each body xs s = Raise e -> is_zero_division_error e = false.
Proof.
  intros Hb s e H. apply for_each_raise_in in H. destruct H as (x & s1 & _ & H).
  exact (Hb _ _ _ H).
Qed.

Lemma parse_head_no_zero `{pf : !PyFloat} (root : Element) (ctx : Context.t)
    (e : exn) :
  _parse_head root ctx = Raise e -> is_zero_division_error e = false.
Proof.
  unfold _parse_head. intros H.
  destruct (last_and_count _) as [[head|] count]; [|zero_cases H].
  destruct (1 <? count); [zero_cases H|].
  apply bind_raise in H. destruct H as [H|[st [_ H]]]; [|zero_cases H].
  revert H. apply for_each_no_zero. intros x s e'. unfold parse_head_child.
  intros H.
  destruct (String.eqb (ET.tag x) STYLING_ELEM).
  { destruct (negb _); [zero_cases H|].
    apply bind_raise in H. destruct H as [H|[c [_ H]]]; [|zero_cases H].
    revert H. apply for_each_no_zero. intros y c e''. unfold parse_style. intros H.
    destruct (negb _); [discriminate H|].
    apply bind_raise in H. destruct H as [H|[id [_ H]]]; [eauto with nozero|].
    apply bind_raise in H. destruct H as [H|[ctx1 [_ H]]]; [eauto with nozero|].
    apply bind_raise in H. destruct H as [H|[props [_ H]]]; [|discriminate H].
    revert H. apply for_each_no_zero. intros [name value] p e3 H.
    unfold parse_style_attribute in H. zero_cases H. }
  destruct (String.eqb (ET.tag x) LAYOUT_ELEM); [|discriminate H].
  destruct (negb _); [zero_cases H|].
  apply bind_raise in H. destruct H as [H|[c [_ H]]]; [|zero_cases H].
  revert H. apply for_each_no_zero. intros y c e''. unfold parse_region. intros H.
  destruct (negb _); [discriminate H|].
  apply bind_raise in H. destruct H as [H|[id [_ H]]]; [eauto with nozero|].
  apply bind_raise in H. destruct H as [H|[ctx1 [_ H]]]; [eauto with nozero|].
  apply bind_raise in H. destruct H as [H|[st [_ H]]].
  - revert H. apply for_each_no_zero. intros [name value] p e3 H.
    unfold parse_region_attribute in H. zero_cases H.
  - zero_cases H.
Qed.

(** With a cell resolution of two positive components the resolver divides
    by no zero. *)
Lemma resolve_style_no_zero (style_stack : list string) (ctx : Context.t) (e : exn) :
  valid_resolution ctx ->
  _resolve_style style_stack ctx = Raise e -> is_zero_division_error e = false.
Proof.
  unfold valid_resolution. intros Hv H.
  assert (Hc : forall s mask parent e',
             ResolvedStyle.compute s mask parent
               (Document.cell_resolution (Context.document ctx)) = Raise e' ->
             is_zero_division_error e' = false).
  { intros s mask parent e' Hc. apply compute_raises in Hc.
    destruct Hc as [Hc|[_ Hc]]; [destruct e'; (discriminate || reflexivity)|].
    rewrite Hv in Hc. discriminate Hc. }
  unfold _resolve_style in H.
  apply bind_raise in H. destruct H as [H|[st0 [_ H]]].
  { unfold resolve_seed in H.
    apply bind_raise in H. destruct H as [H|[rs [_ H]]]; [|discriminate H].
    exact (Hc _ _ _ _ H). }
  apply bind_raise in H. destruct H as [H|[st1 [_ H]]]; [|discriminate H].
  revert H. apply for_each_no_zero. intros [i value] s e' H.
  rewrite resolve_scope_entry in H.
  revert H. apply for_each_no_zero. intros id s' e'' H.
  unfold resolve_id in H.
  destruct (negb _); [discriminate H|].
  destruct (Context.styles ctx !! id) as [p|]; [|injection H as <-; reflexivity].
  destruct (ResolvedStyle.merge_properties (fst s') p) as [rs mask].
  apply bind_raise in H. destruct H as [H|[rs' [_ H]]]; [|discriminate H].
  exact (Hc _ _ _ _ H).
Qed.

Lemma valid_resolution_header (ctx ctx' : Context.t) :
  ctx_header ctx' = ctx_header ctx -> valid_resolution ctx -> valid_resolution ctx'.
Proof.
  unfold ctx_header, doc_header, valid_resolution. intros [= _ -> _ _]. auto.
Qed.

Lemma pop_no_zero (style : string) (f : list string -> result (list string))
    (d : list string) (e : exn) :
  f = deque.pop \/ f = deque.popleft ->
  when_truthy_r style f d = Raise e -> is_zero_division_error e = false.
Proof.
  unfold when_truthy_r. intros [-> | ->] H;
    unfold deque.pop, deque.popleft in H; zero_cases H.
Qed.

Lemma append_content_no_zero (c : content) (ctx : Context.t) (e : exn) :
  append_content c ctx = Raise e -> is_zero_division_error e = false.
Proof. unfold append_content. intros H. zero_cases H. Qed.

Lemma append_paragraph_no_zero (para : Paragraph.t) (ctx : Context.t) (e : exn) :
  append_paragraph para ctx = Raise e -> is_zero_division_error e = false.
Proof. unfold append_paragraph. intros H. zero_cases H. Qed.

Lemma ctx_paragraphs_no_zero (ctx : Context.t) (e : exn) :
  ctx_paragraphs ctx = Raise e -> is_zero_division_error e = false.
Proof. unfold ctx_paragraphs. intros H. zero_cases H. Qed.

#[local] Hint Resolve append_content_no_zero append_paragraph_no_zero
  ctx_paragraphs_no_zero : nozero.

Lemma parse_content_no_zero (elem : Element) (st : walk_state) (e : exn) :
  valid_resolution (snd st) ->
  parse_content elem st = Raise e -> is_zero_division_error e = false.
Proof.
  destruct st as [stack ctx]. cbn [snd]. intros Hv. unfold parse_content.
  destruct (String.eqb (ET.tag elem) BR_ELEM).
  { intros H. apply bind_raise in H. destruct H as [H|[c [_ H]]]; [|discriminate H].
    eauto with nozero. }
  destruct (negb _); [discriminate|].
  intros H.
  apply bind_raise in H. destruct H as [H|[id [_ H]]]; [eauto with nozero|].
  apply bind_raise in H. destruct H as [H|[ctx1 [H1 H]]].
  { destruct (Py.str_truthy id); [eauto with nozero | discriminate H]. }
  apply optional_add_id_header in H1.
  apply bind_raise in H. destruct H as [H|[rs [_ H]]].
  { exact (resolve_style_no_zero _ _ _ (valid_resolution_header _ _ H1 Hv) H). }
  apply bind_raise in H. destruct H as [H|[sp [_ H]]]; [eauto with nozero|].
  apply bind_raise in H. destruct H as [H|[ctx2 [_ H]]]; [eauto with nozero|].
  apply bind_raise in H. destruct H as [H|[stack' [_ H]]]; [|discriminate H].
  revert H. apply pop_no_zero. auto.
Qed.

Lemma parse_content_valid (elem : Element) (st st' : walk_state) :
  valid_resolution (snd st) -> parse_content elem st = Ok st' ->
  valid_resolution (snd st').
Proof.
  intros Hv H. apply parse_content_header in H.
  exact (valid_resolution_header _ _ H Hv).
Qed.

Lemma parse_paragraph_no_zero (parent : Z) (elem : Element) (st : walk_state)
    (e : exn) :
  valid_resolution (snd st) ->
  parse_paragraph parent elem st = Raise e -> is_zero_division_error e = false.
Proof.
  destruct st as [stack ctx]. cbn [snd]. intros Hv. unfold parse_paragraph.
  destruct (negb _); [discriminate|].
  intros H.
  apply bind_raise in H. destruct H as [H|[id [_ H]]]; [eauto with nozero|].
  apply bind_raise in H. destruct H as [H|[ctx1 [H1 H]]]; [eauto with nozero|].
  apply add_id_header in H1.
  pose proof (valid_resolution_header _ _ H1 Hv) as Hv1.
  apply bind_raise in H. destruct H as [H|[b [_ H]]]; [zero_cases H|].
  apply bind_raise in H. destruct H as [H|[en [_ H]]]; [zero_cases H|].
  apply bind_raise in H. destruct H as [H|[[ri rstyle] [_ H]]].
  { unfold lookup_region in H. zero_cases H. }
  apply bind_raise in H. destruct H as [H|[ri' [_ H]]].
  { unfold paragraph_region in H. zero_cases H. }
  apply bind_raise in H. destruct H as [H|[rs [_ H]]].
  { exact (resolve_style_no_zero _ _ _ Hv1 H). }
  apply bind_raise in H. destruct H as [H|[sp [_ H]]]; [eauto with nozero|].
  apply bind_raise in H. destruct H as [H|[ctx2 [H2 H]]]; [eauto with nozero|].
  apply append_paragraph_header in H2.
  pose proof (valid_resolution_header _ _ H2 Hv1) as Hv2.
  apply bind_raise in H. destruct H as [H|[[stack3 ctx3] [_ H]]].
  { unfold _parse_paragraph_content in H.
    apply bind_raise in H. destruct H as [H|[p [_ H]]]; [zero_cases H|].
    revert H.
    apply (for_each_raise_inv (fun s => valid_resolution (snd s))
             (fun e => is_zero_division_error e = false)); [| |exact Hv2].
    - intros x s s'. apply parse_content_valid.
    - intros x s e'. apply parse_content_no_zero. }
  apply bind_raise in H. destruct H as [H|[stack4 [_ H]]].
  { revert H. apply pop_no_zero. auto. }
  apply bind_raise in H. destruct H as [H|[stack5 [_ H]]]; [|discriminate H].
  revert H. apply pop_no_zero. auto.
Qed.

Lemma parse_paragraph_valid (parent : Z) (elem : Element) (st st' : walk_state) :
  valid_resolution (snd st) -> parse_paragraph parent elem st = Ok st' ->
  valid_resolution (snd st').
Proof.
  intros Hv H. apply parse_paragraph_header in H.
  exact (valid_resolution_header _ _ H Hv).
Qed.

Lemma parse_division_no_zero (elem : Element) (st : walk_state) (e : exn) :
  valid_resolution (snd st) ->
  parse_division elem st = Raise e -> is_zero_division_error e = false.
Proof.
  destruct st as [stack ctx]. cbn [snd]. intros Hv. unfold parse_division.
  destruct (negb _); [discriminate|].
  intros H.
  apply bind_raise in H. destruct H as [H|[id [_ H]]]; [eauto with nozero|].
  apply bind_raise in H. destruct H as [H|[ctx1 [H1 H]]].
  { destruct (Py.str_truthy id); [eauto with nozero | discriminate H]. }
  apply optional_add_id_header in H1.
  pose proof (valid_resolution_header _ _ H1 Hv) as Hv1.
  apply bind_raise in H. destruct H as [H|[[ri rstyle] [_ H]]].
  { unfold lookup_region in H. zero_cases H. }
  apply bind_raise in H. destruct H as [H|[rs [_ H]]].
  { exact (resolve_style_no_zero _ _ _ Hv1 H). }
  apply bind_raise in H. destruct H as [H|[[stack3 ctx3] [_ H]]].
  { unfold _parse_para in H.
    apply bind_raise in H. destruct H as [H|[ps0 [_ H]]]; [eauto with nozero|].
    apply bind_raise in H. destruct H as [H|[st1 [_ H]]].
    { revert H.
      apply (for_each_raise_inv (fun s => valid_resolution (snd s))
               (fun e => is_zero_division_error e = false)); [| |exact Hv1].
      - intros x s s'. apply parse_paragraph_valid.
      - intros x s e'. apply parse_paragraph_no_zero. }
    apply bind_raise in H. destruct H as [H|[ps [_ H]]]; [eauto with nozero|].
    zero_cases H. }
  apply bind_raise in H. destruct H as [H|[stack4 [_ H]]].
  { revert H. apply pop_no_zero. auto. }
  apply bind_raise in H. destruct H as [H|[stack5 [_ H]]]; [|discriminate H].
  revert H. apply pop_no_zero. auto.
Qed.

Lemma parse_body_no_zero (root : Element) (ctx : Context.t) (e : exn) :
  valid_resolution ctx ->
  _parse_body root ctx = Raise e -> is_zero_division_error e = false.
Proof.
  intros Hv. unfold _parse_body. intros H.
  destruct (last_and_count _) as [[body|] count]; [|zero_cases H].
  destruct (1 <? count); [zero_cases H|].
  apply bind_raise in H. destruct H as [H|[rs [_ H]]].
  { exact (resolve_style_no_zero _ _ _ Hv H). }
  apply bind_raise in H. destruct H as [H|[st [_ H]]]; [|discriminate H].
  unfold _parse_div in H.
  apply bind_raise in H. destruct H as [H|[st1 [_ H]]]; [|zero_cases H].
  revert H.
  apply (for_each_raise_inv (fun s => valid_resolution (snd s))
           (fun e => is_zero_division_error e = false)); [| |exact Hv].
  - intros x s s' Hs Hx. apply parse_division_header in Hx.
    exact (valid_resolution_header _ _ Hx Hs).
  - intros x s e'. apply parse_division_no_zero.
Qed.

Lemma parse_no_zero `{pf : !PyFloat} (root : Element) (e : exn) :
  parse root = Raise e -> is_zero_division_error e = false.
Proof.
  unfold parse. intros H.
  destruct (negb _); [zero_cases H|].
  destruct (ET.get root TIME_BASE_ATTR) as [v|]; [|zero_cases H].
  destruct (negb _); [zero_cases H|].
  apply bind_raise in H. destruct H as [H|[d1 [H1 H]]]; [zero_cases H|].
  apply bind_raise in H. destruct H as [H|[d2 [H2 H]]]; [zero_cases H|].
  apply bind_raise in H. destruct H as [H|[d3 [H3 H]]]; [zero_cases H|].
  apply bind_raise in H. destruct H as [H|[d4 [H4 H]]]; [zero_cases H|].
  assert (V1 : CellResolution.is_valid (Document.cell_resolution d1) = true).
  { destruct (get_nonempty root ACTIVE_AREA_ATTR).
    - apply bind_ok in H1. destruct H1 as [a [_ H1]]. injection H1 as <-. reflexivity.
    - injection H1 as <-. reflexivity. }
  assert (V2 : CellResolution.is_valid (Document.cell_resolution d2) = true).
  { destruct (get_nonempty root CELL_RESOLUTION_ATTR).
    - apply bind_ok in H2. destruct H2 as [c [Hc H2]]. injection H2 as <-.
      cbn [Document.cell_resolution set_doc_cell_resolution].
      unfold CellResolution.parse in Hc.
      destruct (split_value s) as [|v0 [|v1 [|v2 vs]]]; try discriminate Hc.
      apply bind_ok in Hc. destruct Hc as [cols [_ Hc]].
      apply bind_ok in Hc. destruct Hc as [rows [_ Hc]].
      destruct (CellResolution.is_valid _) eqn:Ev; [|discriminate Hc].
      injection Hc as <-. exact Ev.
    - injection H2 as <-. exact V1. }
  assert (V3 : CellResolution.is_valid (Document.cell_resolution d3) = true).
  { destruct (ET.get root LANG_ATTR); [|discriminate H3].
    injection H3 as <-. exact V2. }
  assert (V4 : CellResolution.is_valid (Document.cell_resolution d4) = true).
  { destruct (get_nonempty root SPACE_ATTR).
    - apply bind_ok in H4. destruct H4 as [a [_ H4]]. injection H4 as <-. exact V3.
    - injection H4 as <-. exact V3. }
  apply bind_raise in H. destruct H as [H|[ctx1 [Hh H]]].
  { exact (parse_head_no_zero _ _ _ H). }
  apply bind_raise in H. destruct H as [H|[ctx2 [_ H]]]; [|discriminate H].
  apply parse_head_header in Hh.
  refine (parse_body_no_zero _ _ _ (valid_resolution_header _ _ Hh _) H).
  exact V4.
Qed.

(** ** The exceptions of the parse *)

(** X13.  No index error leaves [parse]: the lists that the walk indexes
    from the end and the deque that it pops are never empty at that point.
    No division by zero leaves it either: the cell resolution of the
    document is the default or a parsed one, of two positive components.  A
    failed parse raises a [ParseError], a [ValueError] or an
    [OverflowError]. *)
Theorem parse_raises_no_index_error `{pf : !PyFloat} (root : Element) (e : exn) :
  parse root = Raise e ->
  is_index_error e = false /\ is_zero_division_error e = false.
Proof.
  intros H. split; [|exact (parse_no_zero _ _ H)].
  unfold parse in H.
  destruct (negb _); [index_cases H|].
  destruct (ET.get root TIME_BASE_ATTR) as [v|]; [|index_cases H].
  destruct (negb _); [index_cases H|].
  apply bind_raise in H. destruct H as [H|[d1 [_ H]]]; [index_cases H|].
  apply bind_raise in H. destruct H as [H|[d2 [_ H]]]; [index_cases H|].
  apply bind_raise in H. destruct H as [H|[d3 [_ H]]]; [index_cases H|].
  apply bind_raise in H. destruct H as [H|[d4 [_ H]]]; [index_cases H|].
  apply bind_raise in H. destruct H as [H|[ctx1 [_ H]]].
  { exact (parse_head_no_index _ _ _ H). }
  apply bind_raise in H. destruct H as [H|[ctx2 [_ H]]]; [|discriminate H].
  exact (parse_body_no_index _ _ _ H).
Qed.

Lemma parse_raises_no_index_error_witness :
  @parse decimal_float doc_bad_color = Raise (ValueError "red")
  /\ is_index_error (ValueError "red") = false
  /\ is_zero_division_error (ValueError "red") = false.
Proof.
  assert (H : @parse decimal_float doc_bad_color = Raise (ValueError "red"))
    by (vm_compute; reflexivity).
  split; [exact H|].
  exact (@parse_raises_no_index_error decimal_float _ _ H).
Defined.
